(** * mediasoup-client: capability negotiation and the Firefox60 / Safari11
      handlers

    A shallow embedding of [lib/handlers/Firefox60.js], of the Safari11
    handler and of the capability fixtures, together with the properties the
    specification states about them.

    The handlers drive an [RTCPeerConnection], an SDP builder and an upward
    listener.  These collaborators are external: every interaction with them
    is an event whose reply is chosen by an arbitrary environment, so that a
    theorem quantified over the environment holds against every engine. *)

From stdpp Require Import base strings list pretty.

Local Open Scope string_scope.
Local Open Scope N_scope.
Local Open Scope list_scope.

(** ** JavaScript containers *)

(** [Set] and [Map] iterate in insertion order; both are kept as lists so
    that [Array.from(...)] is the list itself. *)
Module Js.

Section JsSet.
Context {A : Type} `{EqDecision A}.

Definition has (x : A) (s : list A) : bool := bool_decide (x ∈ s).

Definition add (x : A) (s : list A) : list A :=
  if has x s then s else s ++ [x].

Definition delete (x : A) (s : list A) : list A :=
  filter (λ y, y ≠ x) s.
End JsSet.

(** A [Map] with string keys. *)
Abbreviation Map V := (list (string * V)).

Section JsMap.
Context {V : Type}.

Definition map_has (k : string) (m : Map V) : bool :=
  bool_decide (k ∈ m.*1).

Fixpoint map_get (k : string) (m : Map V) : option V :=
  match m with
  | [] => None
  | (k', v) :: m' => if decide (k' = k) then Some v else map_get k m'
  end.

(** Replaces the object stored under [k], in place. *)
Fixpoint map_replace (k : string) (v : V) (m : Map V) : Map V :=
  match m with
  | [] => []
  | (k', v') :: m' =>
      if decide (k' = k) then (k', v) :: m' else (k', v') :: map_replace k v m'
  end.

Definition map_set (k : string) (v : V) (m : Map V) : Map V :=
  if map_has k m then map_replace k v m else m ++ [(k, v)].

Definition map_delete (k : string) (m : Map V) : Map V :=
  filter (λ kv, kv.1 ≠ k) m.

Definition map_values (m : Map V) : list V := m.*2.

(** Number of entries stored under key [k]. *)
Definition map_count (k : string) (m : Map V) : nat :=
  length (filter (λ kv, kv.1 = k) m).
End JsMap.

(** Truthiness of an optional number: [undefined] and [0] are falsy. *)
Definition truthy (x : option N) : bool :=
  match x with
  | Some n => negb (n =? 0)
  | None => false
  end.

End Js.

(** ** Capability model *)

Inductive ParamValue :=
| PNum (n : Z)
| PStr (s : string).

Record RtcpFeedback := {
  fb_type : string;
  fb_parameter : option string
}.

Record CodecCapability := {
  cap_name : string;
  cap_mimeType : string;
  cap_kind : string;
  cap_clockRate : N;
  cap_preferredPayloadType : N;
  cap_channels : option N;
  cap_rtcpFeedback : list RtcpFeedback;
  cap_parameters : list (string * ParamValue)
}.

Record HeaderExtensionCapability := {
  ext_kind : string;
  ext_uri : string;
  ext_preferredId : N;
  ext_preferredEncrypt : option bool
}.

Record RtpCapabilities := {
  codecs : list CodecCapability;
  headerExtensions : list HeaderExtensionCapability;
  fecMechanisms : list string
}.

Record RtpCodecParameters := {
  codec_name : string;
  codec_mimeType : string;
  codec_clockRate : N;
  codec_payloadType : N;
  codec_channels : option N;
  codec_rtcpFeedback : list RtcpFeedback;
  codec_parameters : list (string * ParamValue)
}.

Record RtpHeaderExtensionParameters := {
  hdr_uri : string;
  hdr_id : N
}.

Record RtxParameters := { rtx_ssrc : option N }.

Record RtpEncodingParameters := {
  enc_ssrc : option N;
  enc_rtx : option RtxParameters
}.

Record RtcpParameters := {
  rtcp_cname : string;
  rtcp_reducedSize : bool;
  rtcp_mux : bool
}.

Record RtpParameters := {
  rtp_codecs : list RtpCodecParameters;
  rtp_headerExtensions : list RtpHeaderExtensionParameters;
  rtp_encodings : list RtpEncodingParameters;
  rtp_rtcp : option RtcpParameters
}.

(** ** Capability fixtures *)

Module Fixtures.

Definition fb (t : string) : RtcpFeedback :=
  {| fb_type := t; fb_parameter := None |}.

Definition fbp (t p : string) : RtcpFeedback :=
  {| fb_type := t; fb_parameter := Some p |}.

Definition videoFeedback : list RtcpFeedback :=
  [fb "nack"; fbp "nack" "pli"; fbp "ccm" "fir"; fb "goog-remb"].

Definition routerExt (k u : string) (i : N) : HeaderExtensionCapability :=
  {| ext_kind := k; ext_uri := u; ext_preferredId := i;
     ext_preferredEncrypt := Some false |}.

Definition nativeExt (k u : string) (i : N) : HeaderExtensionCapability :=
  {| ext_kind := k; ext_uri := u; ext_preferredId := i;
     ext_preferredEncrypt := None |}.

Definition absSendTime : string :=
  "http://www.webrtc.org/experiments/rtp-hdrext/abs-send-time".

Definition generateRouterRtpCapabilities : RtpCapabilities :=
  {| codecs :=
       [ {| cap_name := "opus"; cap_mimeType := "audio/opus";
            cap_kind := "audio"; cap_clockRate := 48000;
            cap_preferredPayloadType := 100; cap_channels := Some 2;
            cap_rtcpFeedback := [];
            cap_parameters :=
              [("useinbandfec", PNum 1); ("foo", PStr "bar")] |};
         {| cap_name := "VP8"; cap_mimeType := "video/VP8";
            cap_kind := "video"; cap_clockRate := 90000;
            cap_preferredPayloadType := 101; cap_channels := None;
            cap_rtcpFeedback := videoFeedback;
            cap_parameters := [("x-google-start-bitrate", PNum 1500)] |};
         {| cap_name := "rtx"; cap_mimeType := "video/rtx";
            cap_kind := "video"; cap_clockRate := 90000;
            cap_preferredPayloadType := 102; cap_channels := None;
            cap_rtcpFeedback := [];
            cap_parameters := [("apt", PNum 101)] |};
         {| cap_name := "H264"; cap_mimeType := "video/H264";
            cap_kind := "video"; cap_clockRate := 90000;
            cap_preferredPayloadType := 103; cap_channels := None;
            cap_rtcpFeedback := videoFeedback;
            cap_parameters :=
              [("level-asymmetry-allowed", PNum 1);
               ("packetization-mode", PNum 1);
               ("profile-level-id", PStr "42e01f")] |};
         {| cap_name := "rtx"; cap_mimeType := "video/rtx";
            cap_kind := "video"; cap_clockRate := 90000;
            cap_preferredPayloadType := 104; cap_channels := None;
            cap_rtcpFeedback := [];
            cap_parameters := [("apt", PNum 103)] |} ];
     headerExtensions :=
       [ routerExt "audio" "urn:ietf:params:rtp-hdrext:ssrc-audio-level" 1;
         routerExt "video" "urn:ietf:params:rtp-hdrext:toffset" 2;
         routerExt "audio" absSendTime 3;
         routerExt "video" absSendTime 3;
         routerExt "video" "urn:3gpp:video-orientation" 4;
         routerExt "audio" "urn:ietf:params:rtp-hdrext:sdes:mid" 5;
         routerExt "video" "urn:ietf:params:rtp-hdrext:sdes:mid" 5;
         routerExt "video" "urn:ietf:params:rtp-hdrext:sdes:rtp-stream-id" 6 ];
     fecMechanisms := [] |}.

Definition generateNativeRtpCapabilities : RtpCapabilities :=
  {| codecs :=
       [ {| cap_name := "opus"; cap_mimeType := "audio/opus";
            cap_kind := "audio"; cap_clockRate := 48000;
            cap_preferredPayloadType := 111; cap_channels := Some 2;
            cap_rtcpFeedback := [fb "transport-cc"];
            cap_parameters :=
              [("minptime", PNum 10); ("useinbandfec", PNum 1)] |};
         {| cap_name := "ISAC"; cap_mimeType := "audio/ISAC";
            cap_kind := "audio"; cap_clockRate := 16000;
            cap_preferredPayloadType := 103; cap_channels := Some 1;
            cap_rtcpFeedback := []; cap_parameters := [] |};
         {| cap_name := "CN"; cap_mimeType := "audio/CN";
            cap_kind := "audio"; cap_clockRate := 32000;
            cap_preferredPayloadType := 106; cap_channels := Some 1;
            cap_rtcpFeedback := []; cap_parameters := [] |};
         {| cap_name := "VP8"; cap_mimeType := "video/VP8";
            cap_kind := "video"; cap_clockRate := 90000;
            cap_preferredPayloadType := 96; cap_channels := None;
            cap_rtcpFeedback :=
              [fb "goog-remb"; fb "transport-cc"; fbp "ccm" "fir";
               fb "nack"; fbp "nack" "pli"];
            cap_parameters := [("baz", PStr "1234abcd")] |};
         {| cap_name := "rtx"; cap_mimeType := "video/rtx";
            cap_kind := "video"; cap_clockRate := 90000;
            cap_preferredPayloadType := 97; cap_channels := None;
            cap_rtcpFeedback := [];
            cap_parameters := [("apt", PNum 96)] |} ];
     headerExtensions :=
       [ nativeExt "audio" "urn:ietf:params:rtp-hdrext:ssrc-audio-level" 10;
         nativeExt "audio" "urn:ietf:params:rtp-hdrext:sdes:mid" 9;
         nativeExt "video" "urn:ietf:params:rtp-hdrext:toffset" 2;
         nativeExt "video" absSendTime 3;
         nativeExt "video" "urn:3gpp:video-orientation" 4;
         nativeExt "video"
           "http://www.ietf.org/id/draft-holmer-rmcat-transport-wide-cc-extensions-01" 5;
         nativeExt "video"
           "http://www.webrtc.org/experiments/rtp-hdrext/playout-delay" 6;
         nativeExt "video"
           "http://www.webrtc.org/experiments/rtp-hdrext/video-content-type" 7;
         nativeExt "video"
           "http://www.webrtc.org/experiments/rtp-hdrext/video-timing" 8;
         nativeExt "video" "urn:ietf:params:rtp-hdrext:sdes:mid" 9 ];
     fecMechanisms := [] |}.

End Fixtures.

(** ** Capability negotiator *)

Module Ortc.

(** Lower case of an ASCII letter, for the case-insensitive comparison of
    codec names. *)
Definition lower_ascii (c : Ascii.ascii) : Ascii.ascii :=
  let n := Ascii.N_of_ascii c in
  if (65 <=? n) && (n <=? 90) then Ascii.ascii_of_N (n + 32) else c.

Fixpoint lower (s : string) : string :=
  match s with
  | EmptyString => EmptyString
  | String c s' => String (lower_ascii c) (lower s')
  end.

(** Modelled from the spec: the codec matching rule of the capability
    negotiator, whose source file is absent.  Two codecs match when kind,
    name (case-insensitive), clock rate and channel count are equal; the
    payload type takes no part. *)
Definition matchCodecs (a b : CodecCapability) : bool :=
  bool_decide (cap_kind a = cap_kind b)
  && bool_decide (lower (cap_name a) = lower (cap_name b))
  && bool_decide (cap_clockRate a = cap_clockRate b)
  && bool_decide (cap_channels a = cap_channels b).

(** Modelled from the spec: a retransmission codec is a codec named [rtx]. *)
Definition isRtx (c : CodecCapability) : bool :=
  bool_decide (lower (cap_name c) = "rtx").

(** Modelled from the spec: the [apt] parameter of a retransmission codec,
    the payload type it refers to. *)
Definition apt (c : CodecCapability) : option Z :=
  match Js.map_get "apt" (cap_parameters c) with
  | Some (PNum n) => Some n
  | _ => None
  end.

(** Modelled from the spec: one local codec paired with the matching remote
    one, the resolved send and receive payload types, and the payload types
    of the retransmission codec paired to it, if any. *)
Record ExtendedCodecCapability := {
  localCodec : CodecCapability;
  remoteCodec : CodecCapability;
  sendPayloadType : N;
  recvPayloadType : N;
  sendRtxPayloadType : option N;
  recvRtxPayloadType : option N
}.

(** Modelled from the spec: a header extension both sides have, with the
    identifier of each direction. *)
Record ExtendedHeaderExtension := {
  xext_kind : string;
  xext_uri : string;
  sendId : N;
  recvId : N
}.

(** Modelled from the spec: the extended capability set. *)
Record ExtendedRtpCapabilities := {
  xcodecs : list ExtendedCodecCapability;
  xheaderExtensions : list ExtendedHeaderExtension
}.

(** Modelled from the spec: the retransmission codec whose [apt] refers to
    the payload type [pt]. *)
Definition findRtx (pt : N) (cs : list CodecCapability) : option CodecCapability :=
  List.find (λ c, isRtx c && bool_decide (apt c = Some (Z.of_N pt))) cs.

(** Modelled from the spec: first pass of [computeExtendedCapabilities]
    (absent source).  The remote codecs are walked in the router's order;
    each non-rtx one is paired with the first matching local codec, the
    send payload type being the local one and the receive payload type the
    router's; a codec without a match is omitted. *)
Definition matchMediaCodecs (local remote : RtpCapabilities)
  : list ExtendedCodecCapability :=
  omap (λ r,
          if isRtx r then None
          else
            match List.find (λ l, matchCodecs l r) (codecs local) with
            | Some l =>
                Some {| localCodec := l; remoteCodec := r;
                        sendPayloadType := cap_preferredPayloadType l;
                        recvPayloadType := cap_preferredPayloadType r;
                        sendRtxPayloadType := None;
                        recvRtxPayloadType := None |}
            | None => None
            end)
       (codecs remote).

(** Modelled from the spec: second pass of [computeExtendedCapabilities]
    (absent source).  A retransmission codec is attached to an entry only
    when its [apt] refers to the payload type already resolved for that
    entry, on both sides; otherwise it is dropped. *)
Definition matchRtxCodecs (local remote : RtpCapabilities)
    (x : ExtendedCodecCapability) : ExtendedCodecCapability :=
  match findRtx (sendPayloadType x) (codecs local),
        findRtx (recvPayloadType x) (codecs remote) with
  | Some lr, Some rr =>
      {| localCodec := localCodec x; remoteCodec := remoteCodec x;
         sendPayloadType := sendPayloadType x;
         recvPayloadType := recvPayloadType x;
         sendRtxPayloadType := Some (cap_preferredPayloadType lr);
         recvRtxPayloadType := Some (cap_preferredPayloadType rr) |}
  | _, _ => x
  end.

(** Modelled from the spec: header extensions of
    [computeExtendedCapabilities] (absent source), intersected by URI and
    kind; the receive side takes the router's identifier. *)
Definition matchHeaderExtensions (local remote : RtpCapabilities)
  : list ExtendedHeaderExtension :=
  omap (λ r,
          match List.find
                  (λ l, bool_decide (ext_uri l = ext_uri r)
                        && bool_decide (ext_kind l = ext_kind r))
                  (headerExtensions local) with
          | Some l =>
              Some {| xext_kind := ext_kind r; xext_uri := ext_uri r;
                      sendId := ext_preferredId l;
                      recvId := ext_preferredId r |}
          | None => None
          end)
       (headerExtensions remote).

(** Modelled from the spec: [computeExtendedCapabilities(local, remote)],
    whose source file is absent. *)
Definition computeExtendedCapabilities (local remote : RtpCapabilities)
  : ExtendedRtpCapabilities :=
  {| xcodecs := matchRtxCodecs local remote <$> matchMediaCodecs local remote;
     xheaderExtensions := matchHeaderExtensions local remote |}.

(** Modelled from the spec: [getSendingRtpParameters(kind, extended)]
    (absent source).  Each entry of the given kind becomes a codec with
    the send-side payload type and with the feedback mechanisms and
    parameters of the local capability; no encodings are produced. *)
Definition getSendingRtpParameters (kind : string)
    (extended : ExtendedRtpCapabilities) : RtpParameters :=
  {| rtp_codecs :=
       (λ x, {| codec_name := cap_name (localCodec x);
                codec_mimeType := cap_mimeType (localCodec x);
                codec_clockRate := cap_clockRate (localCodec x);
                codec_payloadType := sendPayloadType x;
                codec_channels := cap_channels (localCodec x);
                codec_rtcpFeedback := cap_rtcpFeedback (localCodec x);
                codec_parameters := cap_parameters (localCodec x) |})
       <$> filter (λ x, cap_kind (localCodec x) = kind) (xcodecs extended);
     rtp_headerExtensions :=
       (λ e, {| hdr_uri := xext_uri e; hdr_id := sendId e |})
       <$> filter (λ e, xext_kind e = kind) (xheaderExtensions extended);
     rtp_encodings := [];
     rtp_rtcp := None |}.

(** Modelled from the spec: [getReceivingFullRtpParameters(kind, extended)]
    (absent source): the same projection with the receive-side payload
    types and identifiers. *)
Definition getReceivingFullRtpParameters (kind : string)
    (extended : ExtendedRtpCapabilities) : RtpParameters :=
  {| rtp_codecs :=
       (λ x, {| codec_name := cap_name (remoteCodec x);
                codec_mimeType := cap_mimeType (remoteCodec x);
                codec_clockRate := cap_clockRate (remoteCodec x);
                codec_payloadType := recvPayloadType x;
                codec_channels := cap_channels (remoteCodec x);
                codec_rtcpFeedback := cap_rtcpFeedback (remoteCodec x);
                codec_parameters := cap_parameters (remoteCodec x) |})
       <$> filter (λ x, cap_kind (remoteCodec x) = kind) (xcodecs extended);
     rtp_headerExtensions :=
       (λ e, {| hdr_uri := xext_uri e; hdr_id := recvId e |})
       <$> filter (λ e, xext_kind e = kind) (xheaderExtensions extended);
     rtp_encodings := [];
     rtp_rtcp := None |}.

(** The opus scenario: the local engine offers opus at payload type 100,
    the router offers it at 111 with [transport-cc] feedback. *)
Definition opus (pt : N) (feedback : list RtcpFeedback)
    (parameters : list (string * ParamValue)) : CodecCapability :=
  {| cap_name := "opus"; cap_mimeType := "audio/opus"; cap_kind := "audio";
     cap_clockRate := 48000; cap_preferredPayloadType := pt;
     cap_channels := Some 2; cap_rtcpFeedback := feedback;
     cap_parameters := parameters |}.

Definition capabilitiesOf (c : CodecCapability) : RtpCapabilities :=
  {| codecs := [c]; headerExtensions := []; fecMechanisms := [] |}.

End Ortc.

(** ** The transport engine as a handler sees it *)

(** A track is a browser object compared by identity ([===]); identity is
    rendered by equality of the record. *)
Record MediaStreamTrack := {
  track_id : string;
  track_kind : string
}.

#[global] Instance MediaStreamTrack_eq_dec : EqDecision MediaStreamTrack.
Proof. solve_decision. Defined.

Definition Sdp := string.

Record RTCSessionDescription := {
  desc_type : string;
  desc_sdp : Sdp
}.

(** The object [sdpTransform.parse] returns; its structure is never looked
    at by the handlers. *)
Inductive SdpObject := sdpObject (text : string).

Definition RTCStatsReport := string.

Record RTCIceServer := { urls : list string }.

Record RTCConfiguration := {
  iceServers : list RTCIceServer;
  iceTransportPolicy : string;
  bundlePolicy : string;
  rtcpMuxPolicy : string
}.

Record RTCRtpEncodingParameters := {
  rid : string;
  active : bool;
  priority : option string;
  maxBitrate : option N
}.

Record RTCRtpSendParameters := {
  encodings : list RTCRtpEncodingParameters;
  transactionId : string
}.

Record RTCRtpSender := {
  sender_handle : N;
  sender_track : option MediaStreamTrack
}.

Record RTCRtpReceiver := {
  receiver_handle : N;
  receiver_track : option MediaStreamTrack
}.

Record RTCRtpTransceiver := {
  transceiver_handle : N;
  mid : option string;
  direction : string;
  sender : RTCRtpSender;
  receiver : RTCRtpReceiver
}.

Record Fingerprint := {
  algorithm : string;
  value : string
}.

Record DtlsParameters := {
  fingerprints : list Fingerprint;
  role : string
}.

Record IceParameters := {
  iceLite : bool;
  password : string;
  usernameFragment : string
}.

Record IceCandidate := {
  family : string;
  foundation : string;
  ip : string;
  port : N;
  candidate_priority : N;
  protocol : string;
  candidate_type : string
}.

Record TransportRemoteParameters := {
  transport_id : string;
  dtlsParameters : DtlsParameters;
  iceCandidates : list IceCandidate;
  iceParameters : IceParameters
}.

Record RtpParametersByKind := {
  audio : RtpParameters;
  video : RtpParameters
}.

(** [byKind[kind]]: a property read of a two-field object. *)
Definition byKind (o : RtpParametersByKind) (kind : string) : option RtpParameters :=
  if decide (kind = "audio") then Some (audio o)
  else if decide (kind = "video") then Some (video o)
  else None.

(** The state a remote SDP builder is constructed with. *)
Record RemoteSdp := {
  transportRemoteParameters : TransportRemoteParameters;
  sendingRtpParametersByKind : option RtpParametersByKind;
  receivingRtpParametersByKind : option RtpParametersByKind
}.

(** Modelled from the spec: [updateTransportRemoteIceParameters] of the SDP
    builder, whose source is absent: it updates the description builder's
    remote ICE parameters and nothing else. *)
Definition updateTransportRemoteIceParameters
    (remoteIceParameters : IceParameters) (b : RemoteSdp) : RemoteSdp :=
  {| transportRemoteParameters :=
       {| transport_id := transport_id (transportRemoteParameters b);
          dtlsParameters := dtlsParameters (transportRemoteParameters b);
          iceCandidates := iceCandidates (transportRemoteParameters b);
          iceParameters := remoteIceParameters |};
     sendingRtpParametersByKind := sendingRtpParametersByKind b;
     receivingRtpParametersByKind := receivingRtpParametersByKind b |}.

(** Receiver information of the unified-plan handler (Firefox60). *)
Record UnifiedPlanReceiverInfo := {
  up_mid : string;
  up_kind : string;
  up_closed : bool;
  up_streamId : string;
  up_trackId : string;
  up_rtpParameters : RtpParameters
}.

(** Receiver information of the plan-B handler (Safari11). *)
Record PlanBReceiverInfo := {
  pb_kind : string;
  pb_streamId : string;
  pb_trackId : string;
  pb_ssrc : option N;
  pb_cname : string;
  pb_rtxSsrc : option N
}.

Inductive Reply (A : Type) :=
| returns (a : A)
| throws (reason : string).
Arguments returns {A} a.
Arguments throws {A} reason.

(** A promise that nobody awaits: how it settles is never observed. *)
Definition Promise (A : Type) := Reply A.

(** Every interaction of a handler with the peer connection, its senders,
    receivers and transceivers, the SDP utilities, the remote SDP builder and
    the upward listener. *)
Inductive Call : Type -> Type :=
| pc_close : Call unit
| pc_getStats : Call RTCStatsReport
| pc_getConfiguration : Call RTCConfiguration
| pc_setConfiguration (configuration : RTCConfiguration) : Call unit
| pc_localDescription : Call RTCSessionDescription
| pc_signalingState : Call string
| pc_getTransceivers : Call (list RTCRtpTransceiver)
| pc_getSenders : Call (list RTCRtpSender)
| pc_getReceivers : Call (list RTCRtpReceiver)
| pc_addTransceiver (track : MediaStreamTrack) (dir : string) : Call RTCRtpTransceiver
| pc_addTrack (track : MediaStreamTrack) (stream : list MediaStreamTrack) : Call RTCRtpSender
| pc_removeTrack (s : option RTCRtpSender) : Call unit
| pc_createOffer (iceRestart : bool) : Call RTCSessionDescription
| pc_createAnswer : Call RTCSessionDescription
| pc_setLocalDescription (d : RTCSessionDescription + Promise RTCSessionDescription) : Call unit
| pc_setRemoteDescription (d : RTCSessionDescription) : Call unit
| transceiver_set_direction (t : RTCRtpTransceiver) (dir : string) : Call unit
| transceiver_mid (t : RTCRtpTransceiver) : Call (option string)
| sender_getParameters (s : RTCRtpSender) : Call RTCRtpSendParameters
| sender_setParameters (s : RTCRtpSender) (p : RTCRtpSendParameters) : Call unit
| sender_replaceTrack (s : RTCRtpSender) (track : MediaStreamTrack) : Call unit
| sender_getStats (s : RTCRtpSender) : Call RTCStatsReport
| receiver_getStats (r : RTCRtpReceiver) : Call RTCStatsReport
| sdpTransform_parse (s : Sdp) : Call SdpObject
| extractDtlsParameters (o : SdpObject) : Call DtlsParameters
| createAnswerSdp (b : RemoteSdp) (localSdpObj : SdpObject) : Call Sdp
| unifiedPlan_createOfferSdp (b : RemoteSdp) (infos : list UnifiedPlanReceiverInfo) : Call Sdp
| planB_createOfferSdp (b : RemoteSdp) (kinds : list string) (infos : list PlanBReceiverInfo) : Call Sdp
| unifiedPlan_fillRtpParametersForTrack (p : option RtpParameters) (o : SdpObject)
    (track : MediaStreamTrack) (mid : option string) : Call RtpParameters
| planB_fillRtpParametersForTrack (p : option RtpParameters) (o : SdpObject)
    (track : MediaStreamTrack) : Call RtpParameters
| safeEmitAsPromise_connect (transportLocalParameters : DtlsParameters) : Call unit.

(** One interaction: the call, how it settled, and whether the handler
    observed the outcome ([false] for a promise that is not awaited). *)
Inductive Event :=
| Performed {A : Type} (c : Call A) (r : Reply A) (observed : bool).

(** The engine: the reply to a call, given everything that happened so far. *)
Definition Engine := ∀ A : Type, list Event → Call A → Reply A.

Inductive Error :=
| DuplicatedError (message : string)
| UnsupportedError (message : string)
| JsError (message : string)
| TypeError (message : string)
| External (reason : string).

Inductive Completion (A : Type) :=
| Normal (a : A)
| Throw (e : Error).
Arguments Normal {A} a.
Arguments Throw {A} e.

(** ** The handler monad: state of [this], errors, and the events performed *)

Definition M (S A : Type) : Type :=
  S → list Event → Completion A * S * list Event.

Section Monad.
Context {S : Type}.

Definition ret {A} (a : A) : M S A := λ s _, (Normal a, s, []).

Definition bind {A B} (m : M S A) (k : A → M S B) : M S B :=
  λ s h,
    match m s h with
    | (Normal a, s1, e1) =>
        match k a s1 (h ++ e1) with
        | (r, s2, e2) => (r, s2, e1 ++ e2)
        end
    | (Throw e, s1, e1) => (Throw e, s1, e1)
    end.

Definition throw {A} (e : Error) : M S A := λ s _, (Throw e, s, []).

Definition this : M S S := λ s _, (Normal s, s, []).

Definition assign (f : S → S) : M S unit := λ s _, (Normal (), f s, []).

(** [try { m } catch (error) { k error }] *)
Definition try_catch {A} (m : M S A) (k : Error → M S A) : M S A :=
  λ s h,
    match m s h with
    | (Normal a, s1, e1) => (Normal a, s1, e1)
    | (Throw e, s1, e1) =>
        match k e s1 (h ++ e1) with
        | (r, s2, e2) => (r, s2, e1 ++ e2)
        end
    end.

(** [try { m } catch (error) {}] *)
Definition try_ignore (m : M S unit) : M S unit :=
  try_catch m (λ _, ret ()).

Definition completion {A} (r : Reply A) : Completion A :=
  match r with
  | returns a => Normal a
  | throws reason => Throw (External reason)
  end.

(** A synchronous call, or an asynchronous one that is awaited. *)
Definition perform (engine : Engine) {A} (c : Call A) : M S A :=
  λ s h, let r := engine A h c in (completion r, s, [Performed c r true]).

(** An asynchronous call whose promise is not awaited. *)
Definition detach (engine : Engine) {A} (c : Call A) : M S (Promise A) :=
  λ s h, let r := engine A h c in (Normal r, s, [Performed c r false]).

End Monad.

#[global] Instance M_ret S : MRet (M S) := λ A, ret.
#[global] Instance M_bind S : MBind (M S) := λ A B k m, bind m k.

(** A subclass keeps the fields of its base class. *)
Class Extends (S B : Type) := {
  super : S → B;
  with_super : (B → B) → S → S
}.

#[global] Instance Extends_refl B : Extends B B :=
  {| super := λ b, b; with_super := λ f b, f b |}.

(** A completion computed without touching the engine. *)
Definition lift {S A} (c : Completion A) : M S A := λ s _, (c, s, []).

(** Runs an operation for its effects only. *)
Definition void {S A} (m : M S A) : M S unit := m ≫= λ _, mret ().

(** The application calls one operation after the other; an operation that
    throws does not prevent the next call. *)
Fixpoint run {S Op : Type} (exec : Op → M S unit) (ops : list Op)
    (s : S) (h : list Event) : S * list Event :=
  match ops with
  | [] => (s, [])
  | op :: ops' =>
      match exec op s h with
      | (_, s1, e1) =>
          match run exec ops' s1 (h ++ e1) with
          | (s2, e2) => (s2, e1 ++ e2)
          end
      end
  end.

(** Truthiness of an optional string: [undefined] and [''] are falsy. *)
Definition truthy_string (x : option string) : bool :=
  match x with
  | Some s => negb (bool_decide (s = ""))
  | None => false
  end.

Definition set_role (r : string) (d : DtlsParameters) : DtlsParameters :=
  {| fingerprints := fingerprints d; role := r |}.

Definition set_encodings (encs : list RTCRtpEncodingParameters)
    (p : RTCRtpSendParameters) : RTCRtpSendParameters :=
  {| encodings := encs; transactionId := transactionId p |}.

Definition set_active (b : bool) (e : RTCRtpEncodingParameters)
  : RTCRtpEncodingParameters :=
  {| rid := rid e; active := b; priority := priority e;
     maxBitrate := maxBitrate e |}.

(** The [simulcast] option of [send]. *)
Record Simulcast := {
  low : option N;
  medium : option N;
  high : option N
}.

(** [getSenders().find((s) => s.track === track)] *)
Definition findSender (track : MediaStreamTrack) (senders : list RTCRtpSender)
  : option RTCRtpSender :=
  List.find (λ s, bool_decide (sender_track s = Some track)) senders.

(** The events of a trace that emit ['@connect'] upward. *)
Definition is_connect (ev : Event) : bool :=
  match ev with
  | Performed (safeEmitAsPromise_connect _) _ _ => true
  | Performed _ _ _ => false
  end.

Definition connect_count (evs : list Event) : nat :=
  length (filter (λ ev, is_connect ev = true) evs).

(** The offer/answer steps of the peer connection. *)
Inductive Step :=
| CreateOffer (iceRestart : bool)
| CreateAnswer
| SetLocalDescription
| SetRemoteDescription.

Definition step_of_event (ev : Event) : list Step :=
  match ev with
  | Performed (pc_createOffer iceRestart) _ _ => [CreateOffer iceRestart]
  | Performed pc_createAnswer _ _ => [CreateAnswer]
  | Performed (pc_setLocalDescription _) _ _ => [SetLocalDescription]
  | Performed (pc_setRemoteDescription _) _ _ => [SetRemoteDescription]
  | Performed _ _ _ => []
  end.

Definition steps (evs : list Event) : list Step := evs ≫= step_of_event.

(** The reason of a failure the handler observed. *)
Definition failed (ev : Event) : option string :=
  match ev with
  | Performed _ r observed =>
      if observed
      then match r with
           | throws reason => Some reason
           | returns _ => None
           end
      else None
  end.

(** The first failure the handler observed in a run of events. *)
Definition first_failure (evs : list Event) : option string :=
  head (omap failed evs).

(** The rid values handed to the engine through [setParameters]. *)
Definition rids_of_event (ev : Event) : list string :=
  match ev with
  | Performed (sender_setParameters _ p) _ _ => rid <$> encodings p
  | Performed _ _ _ => []
  end.

Definition rids_assigned (evs : list Event) : list string :=
  evs ≫= rids_of_event.

(** The [active] flags handed to the engine through [setParameters]. *)
Definition active_flags_of_event (ev : Event) : list (list bool) :=
  match ev with
  | Performed (sender_setParameters _ p) _ _ => [active <$> encodings p]
  | Performed _ _ _ => []
  end.

Definition active_flags (evs : list Event) : list (list bool) :=
  evs ≫= active_flags_of_event.

(** ** lib/handlers/Firefox60.js *)

Module Firefox60.

Record Handler := {
  _sendingRtpParametersByKind : option RtpParametersByKind;
  _transportReady : bool;
  _remoteSdp : RemoteSdp
}.

Record SendHandler := {
  send_super : Handler;
  _tracks : list MediaStreamTrack;
  _nextRid : N
}.

Record RecvHandler := {
  recv_super : Handler;
  _receiverInfos : Js.Map UnifiedPlanReceiverInfo
}.

(** The constructor's argument. *)
Record Data := {
  data_transportRemoteParameters : TransportRemoteParameters;
  data_iceServers : option (list RTCIceServer);
  data_iceTransportPolicy : option string;
  data_sendingRtpParametersByKind : option RtpParametersByKind
}.

Definition set_transportReady (b : bool) (h : Handler) : Handler :=
  {| _sendingRtpParametersByKind := _sendingRtpParametersByKind h;
     _transportReady := b;
     _remoteSdp := _remoteSdp h |}.

Definition set_remoteSdp (f : RemoteSdp → RemoteSdp) (h : Handler) : Handler :=
  {| _sendingRtpParametersByKind := _sendingRtpParametersByKind h;
     _transportReady := _transportReady h;
     _remoteSdp := f (_remoteSdp h) |}.

Definition set_tracks (f : list MediaStreamTrack → list MediaStreamTrack)
    (h : SendHandler) : SendHandler :=
  {| send_super := send_super h; _tracks := f (_tracks h);
     _nextRid := _nextRid h |}.

Definition set_nextRid (n : N) (h : SendHandler) : SendHandler :=
  {| send_super := send_super h; _tracks := _tracks h; _nextRid := n |}.

Definition set_receiverInfos
    (f : Js.Map UnifiedPlanReceiverInfo → Js.Map UnifiedPlanReceiverInfo)
    (h : RecvHandler) : RecvHandler :=
  {| recv_super := recv_super h; _receiverInfos := f (_receiverInfos h) |}.

Definition set_closed (b : bool) (i : UnifiedPlanReceiverInfo)
  : UnifiedPlanReceiverInfo :=
  {| up_mid := up_mid i; up_kind := up_kind i; up_closed := b;
     up_streamId := up_streamId i; up_trackId := up_trackId i;
     up_rtpParameters := up_rtpParameters i |}.

#[global] Instance SendHandler_extends : Extends SendHandler Handler :=
  {| super := send_super;
     with_super := λ f h,
       {| send_super := f (send_super h); _tracks := _tracks h;
          _nextRid := _nextRid h |} |}.

#[global] Instance RecvHandler_extends : Extends RecvHandler Handler :=
  {| super := recv_super;
     with_super := λ f h,
       {| recv_super := f (recv_super h);
          _receiverInfos := _receiverInfos h |} |}.

(** [new Handler(data)]: the remote SDP builder is constructed from the
    remote transport parameters and the sending parameters. *)
Definition new_Handler (data : Data) : Handler :=
  {| _sendingRtpParametersByKind := data_sendingRtpParametersByKind data;
     _transportReady := false;
     _remoteSdp :=
       {| transportRemoteParameters := data_transportRemoteParameters data;
          sendingRtpParametersByKind := data_sendingRtpParametersByKind data;
          receivingRtpParametersByKind := None |} |}.

Definition new_SendHandler (data : Data) : SendHandler :=
  {| send_super := new_Handler data; _tracks := []; _nextRid := 1 |}.

Definition new_RecvHandler (data : Data) : RecvHandler :=
  {| recv_super := new_Handler data; _receiverInfos := [] |}.

(** [new Firefox60({ direction, ... })] *)
Definition constructor (direction : string)
    (transportRemoteParameters : TransportRemoteParameters)
    (iceServers : option (list RTCIceServer))
    (iceTransportPolicy : option string)
    (extendedRtpCapabilities : Ortc.ExtendedRtpCapabilities)
  : option (SendHandler + RecvHandler) :=
  if decide (direction = "send") then
    Some (inl (new_SendHandler
      {| data_transportRemoteParameters := transportRemoteParameters;
         data_iceServers := iceServers;
         data_iceTransportPolicy := iceTransportPolicy;
         data_sendingRtpParametersByKind :=
           Some {| audio := Ortc.getSendingRtpParameters "audio" extendedRtpCapabilities;
                   video := Ortc.getSendingRtpParameters "video" extendedRtpCapabilities |} |}))
  else if decide (direction = "recv") then
    Some (inr (new_RecvHandler
      {| data_transportRemoteParameters := transportRemoteParameters;
         data_iceServers := iceServers;
         data_iceTransportPolicy := iceTransportPolicy;
         data_sendingRtpParametersByKind := None |}))
  else None.

(** [getTransceivers().find((t) => t.receiver.track.kind === track.kind &&
    t.direction === 'inactive')]; reading [kind] of a missing track throws. *)
Fixpoint findInactive (kind : string) (ts : list RTCRtpTransceiver)
  : Completion (option RTCRtpTransceiver) :=
  match ts with
  | [] => Normal None
  | t :: ts' =>
      match receiver_track (receiver t) with
      | None => Throw (TypeError "t.receiver.track is null")
      | Some rt =>
          if bool_decide (track_kind rt = kind)
             && bool_decide (direction t = "inactive")
          then Normal (Some t)
          else findInactive kind ts'
      end
  end.

(** The encodings [send] builds when simulcast is requested; [nextRid] is a
    JavaScript number, exact as long as it stays below 2^53. *)
Definition simulcastEncodings (simulcast : Simulcast) (nextRid : N)
  : list RTCRtpEncodingParameters :=
  (if Js.truthy (low simulcast)
   then [ {| rid := "low" +:+ pretty nextRid; active := true;
             priority := Some "high"; maxBitrate := low simulcast |} ]
   else [])
  ++ (if Js.truthy (medium simulcast)
      then [ {| rid := "medium" +:+ pretty nextRid; active := true;
                priority := Some "medium"; maxBitrate := medium simulcast |} ]
      else [])
  ++ (if Js.truthy (high simulcast)
      then [ {| rid := "high" +:+ pretty nextRid; active := true;
                priority := Some "low"; maxBitrate := high simulcast |} ]
      else []).

(** The [switch (spatialLayer)] of [setMaxSpatialLayer]: each of the first
    three encodings, when present, gets its [active] flag assigned. *)
Definition applySpatialLayer (spatialLayer : string)
    (encs : list RTCRtpEncodingParameters) : list RTCRtpEncodingParameters :=
  let assign3 (l m h : bool) :=
    alter (set_active h) 2%nat
      (alter (set_active m) 1%nat (alter (set_active l) 0%nat encs)) in
  if decide (spatialLayer = "low") then assign3 true false false
  else if decide (spatialLayer = "medium") then assign3 true true false
  else if decide (spatialLayer = "high") then assign3 true true true
  else encs.

(** [`${kind[0]}`]: the first character, or the text [undefined]. *)
Definition kind0 (kind : string) : string :=
  match kind with
  | EmptyString => "undefined"
  | String c _ => String c EmptyString
  end.

Section Methods.
Context (engine : Engine).

Section Base.
Context {S : Type} `{!Extends S Handler}.

Definition close : M S unit :=
  try_ignore (perform engine pc_close).

Definition getTransportStats : M S RTCStatsReport :=
  perform engine pc_getStats.

Definition updateIceServers (iceServers : list RTCIceServer) : M S unit :=
  throw (UnsupportedError "not supported").

(** [this._pc.localDescription.sdp]; the read throws when there is no local
    description. *)
Definition localDescription_sdp : M S Sdp :=
  d ← perform engine pc_localDescription;
  mret (desc_sdp d).

Definition _setupTransport (localDtlsRole : option string) : M S unit :=
  sdp ← localDescription_sdp;
  sdpObj ← perform engine (sdpTransform_parse sdp);
  dtlsParameters ← perform engine (extractDtlsParameters sdpObj);
  let dtlsParameters :=
    if truthy_string localDtlsRole
    then set_role (default "" localDtlsRole) dtlsParameters
    else dtlsParameters in
  perform engine (safeEmitAsPromise_connect dtlsParameters);;
  assign (with_super (set_transportReady true)).

End Base.

(** The part of [send]'s [try] block that follows the acquisition of the
    transceiver. *)
Definition send_negotiate (track : MediaStreamTrack)
    (simulcast : option Simulcast) (transceiver : RTCRtpTransceiver)
  : M SendHandler RtpParameters :=
  match simulcast with
  | Some simulcast =>
      self ← this;
      let encodings := simulcastEncodings simulcast (_nextRid self) in
      assign (set_nextRid (_nextRid self + 1));;
      parameters ← perform engine (sender_getParameters (sender transceiver));
      perform engine
        (sender_setParameters (sender transceiver) (set_encodings encodings parameters))
  | None => mret ()
  end;;
  offer ← perform engine (pc_createOffer false);
  perform engine (pc_setLocalDescription (inl offer));;
  self ← this;
  (if _transportReady (super self) then mret ()
   else _setupTransport (Some "client"));;
  sdp ← localDescription_sdp;
  localSdpObj ← perform engine (sdpTransform_parse sdp);
  self ← this;
  remoteSdp ← perform engine (createAnswerSdp (_remoteSdp (super self)) localSdpObj);
  perform engine
    (pc_setRemoteDescription {| desc_type := "answer"; desc_sdp := remoteSdp |});;
  sending ← match _sendingRtpParametersByKind (super self) with
             | Some o => mret o
             | None => throw (TypeError "this._sendingRtpParametersByKind is undefined")
             end;
  mid ← perform engine (transceiver_mid transceiver);
  rtpParameters ← perform engine
    (unifiedPlan_fillRtpParametersForTrack
       (byKind sending (track_kind track)) localSdpObj track mid);
  assign (set_tracks (Js.add track));;
  mret rtpParameters.

(** The [catch] block of [send]: [transceiver] is the value of the local
    variable when the error was raised. *)
Definition send_undo (transceiver : RTCRtpTransceiver) (error : Error)
  : M SendHandler RtpParameters :=
  try_ignore (perform engine (transceiver_set_direction transceiver "inactive"));;
  throw error.

(** [send]: as long as the local variable [transceiver] is undefined, the
    assignment in the [catch] block fails silently and the error is thrown
    again, which is plain propagation; [try_catch] starts where the variable
    is set. *)
Definition send (track : MediaStreamTrack) (simulcast : option Simulcast)
  : M SendHandler RtpParameters :=
  self ← this;
  if Js.has track (_tracks self)
  then throw (DuplicatedError "track already handled")
  else
    transceivers ← perform engine pc_getTransceivers;
    found ← lift (findInactive (track_kind track) transceivers);
    match found with
    | Some transceiver =>
        try_catch
          (perform engine (transceiver_set_direction transceiver "sendonly");;
           parameters ← perform engine (sender_getParameters (sender transceiver));
           perform engine
             (sender_setParameters (sender transceiver) (set_encodings [] parameters));;
           perform engine (sender_replaceTrack (sender transceiver) track);;
           send_negotiate track simulcast transceiver)
          (send_undo transceiver)
    | None =>
        transceiver ← perform engine (pc_addTransceiver track "sendonly");
        try_catch (send_negotiate track simulcast transceiver)
                  (send_undo transceiver)
    end.

Definition stopSending (track : MediaStreamTrack) : M SendHandler unit :=
  senders ← perform engine pc_getSenders;
  match findSender track senders with
  | None => throw (JsError "local track not found")
  | Some rtpSender =>
      perform engine (pc_removeTrack (Some rtpSender));;
      offer ← perform engine (pc_createOffer false);
      perform engine (pc_setLocalDescription (inl offer));;
      sdp ← localDescription_sdp;
      localSdpObj ← perform engine (sdpTransform_parse sdp);
      self ← this;
      remoteSdp ← perform engine (createAnswerSdp (_remoteSdp (super self)) localSdpObj);
      assign (set_tracks (Js.delete track));;
      perform engine
        (pc_setRemoteDescription {| desc_type := "answer"; desc_sdp := remoteSdp |})
  end.

Definition replaceTrack (track newTrack : MediaStreamTrack) : M SendHandler unit :=
  self ← this;
  if Js.has newTrack (_tracks self)
  then throw (DuplicatedError "track already handled")
  else
    senders ← perform engine pc_getSenders;
    match findSender track senders with
    | None => throw (JsError "local track not found")
    | Some rtpSender =>
        perform engine (sender_replaceTrack rtpSender newTrack);;
        assign (set_tracks (Js.delete track));;
        assign (set_tracks (Js.add newTrack))
    end.

Definition setMaxSpatialLayer (track : MediaStreamTrack) (spatialLayer : string)
  : M SendHandler unit :=
  senders ← perform engine pc_getSenders;
  match findSender track senders with
  | None => throw (JsError "local track not found")
  | Some rtpSender =>
      parameters ← perform engine (sender_getParameters rtpSender);
      perform engine
        (sender_setParameters rtpSender
           (set_encodings (applySpatialLayer spatialLayer (encodings parameters))
                          parameters))
  end.

Definition getSenderStats (track : MediaStreamTrack) : M SendHandler RTCStatsReport :=
  senders ← perform engine pc_getSenders;
  match findSender track senders with
  | None => throw (JsError "local track not found")
  | Some rtpSender => perform engine (sender_getStats rtpSender)
  end.

Definition send_restartIce (remoteIceParameters : IceParameters) : M SendHandler unit :=
  assign (with_super (set_remoteSdp
    (updateTransportRemoteIceParameters remoteIceParameters)));;
  self ← this;
  if negb (_transportReady (super self)) then mret ()
  else
    offer ← detach engine (pc_createOffer true);
    perform engine (pc_setLocalDescription (inr offer));;
    sdp ← localDescription_sdp;
    localSdpObj ← perform engine (sdpTransform_parse sdp);
    remoteSdp ← perform engine (createAnswerSdp (_remoteSdp (super self)) localSdpObj);
    perform engine
      (pc_setRemoteDescription {| desc_type := "answer"; desc_sdp := remoteSdp |}).

Definition receive (id kind : string) (rtpParameters : RtpParameters)
  : M RecvHandler (option MediaStreamTrack) :=
  self ← this;
  if Js.map_has id (_receiverInfos self)
  then throw (DuplicatedError "already receiving this source")
  else
    let receiverInfo :=
      {| up_mid := kind0 kind +:+ "-" +:+ id;
         up_kind := kind;
         up_closed := false;
         up_streamId := id;
         up_trackId := kind +:+ "-" +:+ id;
         up_rtpParameters := rtpParameters |} in
    assign (set_receiverInfos (Js.map_set id receiverInfo));;
    try_catch
      (self ← this;
       remoteSdp ← perform engine
         (unifiedPlan_createOfferSdp (_remoteSdp (super self))
            (Js.map_values (_receiverInfos self)));
       perform engine
         (pc_setRemoteDescription {| desc_type := "offer"; desc_sdp := remoteSdp |}))
      (λ error,
         assign (set_receiverInfos (Js.map_delete id));;
         throw error);;
    answer ← perform engine pc_createAnswer;
    perform engine (pc_setLocalDescription (inl answer));;
    self ← this;
    (if _transportReady (super self) then mret ()
     else _setupTransport (Some "client"));;
    transceivers ← perform engine pc_getTransceivers;
    match List.find (λ t, bool_decide (mid t = Some (up_mid receiverInfo)))
                    transceivers with
    | None => throw (JsError "remote track not found")
    | Some transceiver => mret (receiver_track (receiver transceiver))
    end.

(** [receiverInfo.closed = true] mutates the object the map holds. *)
Definition stopReceiving (id : string) : M RecvHandler unit :=
  self ← this;
  match Js.map_get id (_receiverInfos self) with
  | None => throw (JsError "receiver not found")
  | Some receiverInfo =>
      assign (set_receiverInfos (Js.map_replace id (set_closed true receiverInfo)));;
      self ← this;
      remoteSdp ← perform engine
        (unifiedPlan_createOfferSdp (_remoteSdp (super self))
           (Js.map_values (_receiverInfos self)));
      perform engine
        (pc_setRemoteDescription {| desc_type := "offer"; desc_sdp := remoteSdp |});;
      answer ← detach engine pc_createAnswer;
      perform engine (pc_setLocalDescription (inr answer))
  end.

Definition getReceiverStats (id : string) : M RecvHandler RTCStatsReport :=
  self ← this;
  match Js.map_get id (_receiverInfos self) with
  | None => throw (JsError "receiver not found")
  | Some receiverInfo =>
      transceivers ← perform engine pc_getTransceivers;
      match List.find (λ t, bool_decide (mid t = Some (up_mid receiverInfo)))
                      transceivers with
      | None => throw (JsError "transceiver not found")
      | Some transceiver => perform engine (receiver_getStats (receiver transceiver))
      end
  end.

Definition recv_restartIce (remoteIceParameters : IceParameters) : M RecvHandler unit :=
  assign (with_super (set_remoteSdp
    (updateTransportRemoteIceParameters remoteIceParameters)));;
  self ← this;
  if negb (_transportReady (super self)) then mret ()
  else
    remoteSdp ← perform engine
      (unifiedPlan_createOfferSdp (_remoteSdp (super self))
         (Js.map_values (_receiverInfos self)));
    perform engine
      (pc_setRemoteDescription {| desc_type := "offer"; desc_sdp := remoteSdp |});;
    answer ← detach engine pc_createAnswer;
    perform engine (pc_setLocalDescription (inr answer)).

End Methods.

(** The public operations of the two handlers. *)
Inductive SendOp :=
| Close
| GetTransportStats
| UpdateIceServers (iceServers : list RTCIceServer)
| Send (track : MediaStreamTrack) (simulcast : option Simulcast)
| StopSending (track : MediaStreamTrack)
| ReplaceTrack (track newTrack : MediaStreamTrack)
| SetMaxSpatialLayer (track : MediaStreamTrack) (spatialLayer : string)
| GetSenderStats (track : MediaStreamTrack)
| RestartIce (remoteIceParameters : IceParameters).

Inductive RecvOp :=
| RClose
| RGetTransportStats
| RUpdateIceServers (iceServers : list RTCIceServer)
| Receive (id kind : string) (rtpParameters : RtpParameters)
| StopReceiving (id : string)
| GetReceiverStats (id : string)
| RRestartIce (remoteIceParameters : IceParameters).

Definition exec_send (engine : Engine) (op : SendOp) : M SendHandler unit :=
  match op with
  | Close => close engine
  | GetTransportStats => void (getTransportStats engine)
  | UpdateIceServers l => updateIceServers l
  | Send track simulcast => void (send engine track simulcast)
  | StopSending track => stopSending engine track
  | ReplaceTrack track newTrack => replaceTrack engine track newTrack
  | SetMaxSpatialLayer track l => setMaxSpatialLayer engine track l
  | GetSenderStats track => void (getSenderStats engine track)
  | RestartIce p => send_restartIce engine p
  end.

Definition exec_recv (engine : Engine) (op : RecvOp) : M RecvHandler unit :=
  match op with
  | RClose => close engine
  | RGetTransportStats => void (getTransportStats engine)
  | RUpdateIceServers l => updateIceServers l
  | Receive id kind p => void (receive engine id kind p)
  | StopReceiving id => stopReceiving engine id
  | GetReceiverStats id => void (getReceiverStats engine id)
  | RRestartIce p => recv_restartIce engine p
  end.

End Firefox60.

(** ** The Safari11 handler *)

Module Safari11.

Record Handler := {
  _sendingRtpParametersByKind : option RtpParametersByKind;
  _receivingRtpParametersByKind : option RtpParametersByKind;
  _transportReady : bool;
  _remoteSdp : RemoteSdp
}.

(** [_stream] is the local [MediaStream]: an ordered set of tracks. *)
Record SendHandler := {
  send_super : Handler;
  _stream : list MediaStreamTrack
}.

(** [_transportUpdated] is read by [receive]; no code assigns it, so that
    the read yields [undefined] ([None]) on every constructed handler. *)
Record RecvHandler := {
  recv_super : Handler;
  _kinds : list string;
  _receiverInfos : Js.Map PlanBReceiverInfo;
  _transportUpdated : option bool
}.

Record Data := {
  data_transportRemoteParameters : TransportRemoteParameters;
  data_iceServers : option (list RTCIceServer);
  data_iceTransportPolicy : option string;
  data_sendingRtpParametersByKind : option RtpParametersByKind;
  data_receivingRtpParametersByKind : option RtpParametersByKind
}.

Definition set_transportReady (b : bool) (h : Handler) : Handler :=
  {| _sendingRtpParametersByKind := _sendingRtpParametersByKind h;
     _receivingRtpParametersByKind := _receivingRtpParametersByKind h;
     _transportReady := b;
     _remoteSdp := _remoteSdp h |}.

Definition set_remoteSdp (f : RemoteSdp → RemoteSdp) (h : Handler) : Handler :=
  {| _sendingRtpParametersByKind := _sendingRtpParametersByKind h;
     _receivingRtpParametersByKind := _receivingRtpParametersByKind h;
     _transportReady := _transportReady h;
     _remoteSdp := f (_remoteSdp h) |}.

Definition set_stream (f : list MediaStreamTrack → list MediaStreamTrack)
    (h : SendHandler) : SendHandler :=
  {| send_super := send_super h; _stream := f (_stream h) |}.

Definition set_receiverInfos
    (f : Js.Map PlanBReceiverInfo → Js.Map PlanBReceiverInfo)
    (h : RecvHandler) : RecvHandler :=
  {| recv_super := recv_super h; _kinds := _kinds h;
     _receiverInfos := f (_receiverInfos h);
     _transportUpdated := _transportUpdated h |}.

Definition set_kinds (f : list string → list string) (h : RecvHandler)
  : RecvHandler :=
  {| recv_super := recv_super h; _kinds := f (_kinds h);
     _receiverInfos := _receiverInfos h;
     _transportUpdated := _transportUpdated h |}.

#[global] Instance SendHandler_extends : Extends SendHandler Handler :=
  {| super := send_super;
     with_super := λ f h,
       {| send_super := f (send_super h); _stream := _stream h |} |}.

#[global] Instance RecvHandler_extends : Extends RecvHandler Handler :=
  {| super := recv_super;
     with_super := λ f h,
       {| recv_super := f (recv_super h); _kinds := _kinds h;
          _receiverInfos := _receiverInfos h;
          _transportUpdated := _transportUpdated h |} |}.

Definition new_Handler (data : Data) : Handler :=
  {| _sendingRtpParametersByKind := data_sendingRtpParametersByKind data;
     _receivingRtpParametersByKind := data_receivingRtpParametersByKind data;
     _transportReady := false;
     _remoteSdp :=
       {| transportRemoteParameters := data_transportRemoteParameters data;
          sendingRtpParametersByKind := data_sendingRtpParametersByKind data;
          receivingRtpParametersByKind := data_receivingRtpParametersByKind data |} |}.

Definition new_SendHandler (data : Data) : SendHandler :=
  {| send_super := new_Handler data; _stream := [] |}.

Definition new_RecvHandler (data : Data) : RecvHandler :=
  {| recv_super := new_Handler data; _kinds := []; _receiverInfos := [];
     _transportUpdated := None |}.

(** [new Safari11({ direction, ... })] *)
Definition constructor (direction : string)
    (transportRemoteParameters : TransportRemoteParameters)
    (iceServers : option (list RTCIceServer))
    (iceTransportPolicy : option string)
    (extendedRtpCapabilities : Ortc.ExtendedRtpCapabilities)
  : option (SendHandler + RecvHandler) :=
  if decide (direction = "send") then
    Some (inl (new_SendHandler
      {| data_transportRemoteParameters := transportRemoteParameters;
         data_iceServers := iceServers;
         data_iceTransportPolicy := iceTransportPolicy;
         data_sendingRtpParametersByKind :=
           Some {| audio := Ortc.getSendingRtpParameters "audio" extendedRtpCapabilities;
                   video := Ortc.getSendingRtpParameters "video" extendedRtpCapabilities |};
         data_receivingRtpParametersByKind := None |}))
  else if decide (direction = "recv") then
    Some (inr (new_RecvHandler
      {| data_transportRemoteParameters := transportRemoteParameters;
         data_iceServers := iceServers;
         data_iceTransportPolicy := iceTransportPolicy;
         data_sendingRtpParametersByKind := None;
         data_receivingRtpParametersByKind :=
           Some {| audio := Ortc.getReceivingFullRtpParameters "audio" extendedRtpCapabilities;
                   video := Ortc.getReceivingFullRtpParameters "video" extendedRtpCapabilities |} |}))
  else None.

(** [this._stream.getTrackById(id)] *)
Definition getTrackById (id : string) (stream : list MediaStreamTrack)
  : option MediaStreamTrack :=
  List.find (λ t, bool_decide (track_id t = id)) stream.

(** [getReceivers().find(...)]: a receiver without a track is skipped. *)
Definition findReceiver (trackId : string) (receivers : list RTCRtpReceiver)
  : option RTCRtpReceiver :=
  List.find
    (λ r, match receiver_track r with
          | None => false
          | Some t => bool_decide (track_id t = trackId)
          end)
    receivers.

(** [encoding.rtx && encoding.rtx.ssrc], kept when truthy. *)
Definition rtxSsrc (encoding : RtpEncodingParameters) : option N :=
  match enc_rtx encoding with
  | Some rtx => if Js.truthy (rtx_ssrc rtx) then rtx_ssrc rtx else None
  | None => None
  end.

Definition truthy_bool (x : option bool) : bool :=
  match x with
  | Some b => b
  | None => false
  end.

Definition set_iceServers (l : list RTCIceServer) (c : RTCConfiguration)
  : RTCConfiguration :=
  {| iceServers := l; iceTransportPolicy := iceTransportPolicy c;
     bundlePolicy := bundlePolicy c; rtcpMuxPolicy := rtcpMuxPolicy c |}.

Section Methods.
Context (engine : Engine).

Section Base.
Context {S : Type} `{!Extends S Handler}.

Definition close : M S unit :=
  try_ignore (perform engine pc_close).

Definition getTransportStats : M S RTCStatsReport :=
  perform engine pc_getStats.

Definition updateIceServers (iceServers : list RTCIceServer) : M S unit :=
  configuration ← perform engine pc_getConfiguration;
  perform engine (pc_setConfiguration (set_iceServers iceServers configuration)).

(** [this._pc.localDescription.sdp]; the read throws when there is no local
    description. *)
Definition localDescription_sdp : M S Sdp :=
  d ← perform engine pc_localDescription;
  mret (desc_sdp d).

Definition _setupTransport (localDtlsRole : option string) : M S unit :=
  sdp ← localDescription_sdp;
  sdpObj ← perform engine (sdpTransform_parse sdp);
  dtlsParameters ← perform engine (extractDtlsParameters sdpObj);
  let dtlsParameters :=
    if truthy_string localDtlsRole
    then set_role (default "" localDtlsRole) dtlsParameters
    else dtlsParameters in
  perform engine (safeEmitAsPromise_connect dtlsParameters);;
  assign (with_super (set_transportReady true)).

End Base.

(** The [catch] block of [send]; [rtpSender] is the value of the local
    variable when the error was raised. *)
Definition send_undo {A} (track : MediaStreamTrack)
    (rtpSender : option RTCRtpSender) (error : Error) : M SendHandler A :=
  assign (set_stream (Js.delete track));;
  try_ignore (perform engine (pc_removeTrack rtpSender));;
  throw error.

(** [send]: the [try] block is cut where the local variable [rtpSender] is
    assigned; both parts are guarded by the same [catch] block. *)
Definition send (track : MediaStreamTrack) (simulcast : option Simulcast)
  : M SendHandler RtpParameters :=
  self ← this;
  if bool_decide (is_Some (getTrackById (track_id track) (_stream self)))
  then throw (DuplicatedError "track already added")
  else
    rtpSender ← try_catch
      (assign (set_stream (Js.add track));;
       self ← this;
       perform engine (pc_addTrack track (_stream self)))
      (send_undo track None);
    try_catch
      (offer ← perform engine (pc_createOffer false);
       perform engine (pc_setLocalDescription (inl offer));;
       self ← this;
       (if _transportReady (super self) then mret ()
        else _setupTransport (Some "server"));;
       sdp ← localDescription_sdp;
       localSdpObj ← perform engine (sdpTransform_parse sdp);
       self ← this;
       remoteSdp ← perform engine
         (createAnswerSdp (_remoteSdp (super self)) localSdpObj);
       perform engine
         (pc_setRemoteDescription {| desc_type := "answer"; desc_sdp := remoteSdp |});;
       sending ← match _sendingRtpParametersByKind (super self) with
                  | Some o => mret o
                  | None => throw (TypeError "this._sendingRtpParametersByKind is undefined")
                  end;
       perform engine
         (planB_fillRtpParametersForTrack
            (byKind sending (track_kind track)) localSdpObj track))
      (send_undo track (Some rtpSender)).

(** [stopSending]: the [catch] block returns from the function when the
    stream has no track left; the flag tells whether it did. *)
Definition stopSending (track : MediaStreamTrack) : M SendHandler unit :=
  senders ← perform engine pc_getSenders;
  match findSender track senders with
  | None => throw (JsError "local track not found")
  | Some rtpSender =>
      perform engine (pc_removeTrack (Some rtpSender));;
      assign (set_stream (Js.delete track));;
      offer ← perform engine (pc_createOffer false);
      returned ← try_catch
        (perform engine (pc_setLocalDescription (inl offer));;
         mret false)
        (λ error,
           self ← this;
           if bool_decide (length (_stream self) = 0%nat)
           then mret true
           else throw error);
      if returned : bool then mret ()
      else
        state ← perform engine pc_signalingState;
        if decide (state = "stable") then mret ()
        else
          sdp ← localDescription_sdp;
          localSdpObj ← perform engine (sdpTransform_parse sdp);
          self ← this;
          remoteSdp ← perform engine
            (createAnswerSdp (_remoteSdp (super self)) localSdpObj);
          perform engine
            (pc_setRemoteDescription {| desc_type := "answer"; desc_sdp := remoteSdp |})
  end.

Definition replaceTrack (track newTrack : MediaStreamTrack) : M SendHandler unit :=
  self ← this;
  if bool_decide (is_Some (getTrackById (track_id newTrack) (_stream self)))
  then throw (DuplicatedError "track already added")
  else
    senders ← perform engine pc_getSenders;
    match findSender track senders with
    | None => throw (JsError "local track not found")
    | Some rtpSender =>
        perform engine (sender_replaceTrack rtpSender newTrack);;
        assign (set_stream (Js.delete track));;
        assign (set_stream (Js.add newTrack))
    end.

Definition setMaxSpatialLayer (track : MediaStreamTrack) (spatialLayer : string)
  : M SendHandler unit :=
  throw (UnsupportedError "not supported").

Definition getSenderStats (track : MediaStreamTrack) : M SendHandler RTCStatsReport :=
  senders ← perform engine pc_getSenders;
  match findSender track senders with
  | None => throw (JsError "local track not found")
  | Some rtpSender => perform engine (sender_getStats rtpSender)
  end.

Definition send_restartIce (remoteIceParameters : IceParameters) : M SendHandler unit :=
  assign (with_super (set_remoteSdp
    (updateTransportRemoteIceParameters remoteIceParameters)));;
  self ← this;
  if negb (_transportReady (super self)) then mret ()
  else
    offer ← detach engine (pc_createOffer true);
    perform engine (pc_setLocalDescription (inr offer));;
    sdp ← localDescription_sdp;
    localSdpObj ← perform engine (sdpTransform_parse sdp);
    remoteSdp ← perform engine (createAnswerSdp (_remoteSdp (super self)) localSdpObj);
    perform engine
      (pc_setRemoteDescription {| desc_type := "answer"; desc_sdp := remoteSdp |}).

Definition receive (id kind : string) (rtpParameters : RtpParameters)
  : M RecvHandler (option MediaStreamTrack) :=
  self ← this;
  if Js.map_has id (_receiverInfos self)
  then throw (DuplicatedError "already receiving this source")
  else
    cname ← match rtp_rtcp rtpParameters with
            | Some rtcp => mret (rtcp_cname rtcp)
            | None => throw (TypeError "rtpParameters.rtcp is undefined")
            end;
    encoding ← match rtp_encodings rtpParameters !! 0%nat with
               | Some encoding => mret encoding
               | None => throw (TypeError "encoding is undefined")
               end;
    let receiverInfo :=
      {| pb_kind := kind;
         pb_streamId := id;
         pb_trackId := kind +:+ "-" +:+ id;
         pb_ssrc := enc_ssrc encoding;
         pb_cname := cname;
         pb_rtxSsrc := rtxSsrc encoding |} in
    assign (set_receiverInfos (Js.map_set id receiverInfo));;
    assign (set_kinds (Js.add kind));;
    self ← this;
    remoteSdp ← perform engine
      (planB_createOfferSdp (_remoteSdp (super self)) (_kinds self)
         (Js.map_values (_receiverInfos self)));
    try_catch
      (perform engine
         (pc_setRemoteDescription {| desc_type := "offer"; desc_sdp := remoteSdp |}))
      (λ error,
         assign (set_receiverInfos (Js.map_delete id));;
         throw error);;
    answer ← perform engine pc_createAnswer;
    perform engine (pc_setLocalDescription (inl answer));;
    self ← this;
    (if negb (truthy_bool (_transportUpdated self))
     then _setupTransport (Some "client")
     else mret ());;
    receivers ← perform engine pc_getReceivers;
    match findReceiver (pb_trackId receiverInfo) receivers with
    | None => throw (JsError "remote track not found")
    | Some newRtpReceiver => mret (receiver_track newRtpReceiver)
    end.

Definition stopReceiving (id : string) : M RecvHandler unit :=
  self ← this;
  if negb (Js.map_has id (_receiverInfos self))
  then throw (JsError "source not found")
  else
    assign (set_receiverInfos (Js.map_delete id));;
    self ← this;
    remoteSdp ← perform engine
      (planB_createOfferSdp (_remoteSdp (super self)) (_kinds self)
         (Js.map_values (_receiverInfos self)));
    perform engine
      (pc_setRemoteDescription {| desc_type := "offer"; desc_sdp := remoteSdp |});;
    answer ← detach engine pc_createAnswer;
    perform engine (pc_setLocalDescription (inr answer)).

Definition getReceiverStats (id : string) : M RecvHandler RTCStatsReport :=
  self ← this;
  match Js.map_get id (_receiverInfos self) with
  | None => throw (JsError "receiver not found")
  | Some receiverInfo =>
      receivers ← perform engine pc_getReceivers;
      match findReceiver (pb_trackId receiverInfo) receivers with
      | None => throw (JsError "RTCRtpReceiver not found")
      | Some rtpReceiver => perform engine (receiver_getStats rtpReceiver)
      end
  end.

Definition recv_restartIce (remoteIceParameters : IceParameters) : M RecvHandler unit :=
  assign (with_super (set_remoteSdp
    (updateTransportRemoteIceParameters remoteIceParameters)));;
  self ← this;
  if negb (_transportReady (super self)) then mret ()
  else
    remoteSdp ← perform engine
      (planB_createOfferSdp (_remoteSdp (super self)) (_kinds self)
         (Js.map_values (_receiverInfos self)));
    perform engine
      (pc_setRemoteDescription {| desc_type := "offer"; desc_sdp := remoteSdp |});;
    answer ← perform engine pc_createAnswer;
    perform engine (pc_setLocalDescription (inl answer)).

End Methods.

Inductive SendOp :=
| Close
| GetTransportStats
| UpdateIceServers (iceServers : list RTCIceServer)
| Send (track : MediaStreamTrack) (simulcast : option Simulcast)
| StopSending (track : MediaStreamTrack)
| ReplaceTrack (track newTrack : MediaStreamTrack)
| SetMaxSpatialLayer (track : MediaStreamTrack) (spatialLayer : string)
| GetSenderStats (track : MediaStreamTrack)
| RestartIce (remoteIceParameters : IceParameters).

Inductive RecvOp :=
| RClose
| RGetTransportStats
| RUpdateIceServers (iceServers : list RTCIceServer)
| Receive (id kind : string) (rtpParameters : RtpParameters)
| StopReceiving (id : string)
| GetReceiverStats (id : string)
| RRestartIce (remoteIceParameters : IceParameters).

Definition exec_send (engine : Engine) (op : SendOp) : M SendHandler unit :=
  match op with
  | Close => close engine
  | GetTransportStats => void (getTransportStats engine)
  | UpdateIceServers l => updateIceServers engine l
  | Send track simulcast => void (send engine track simulcast)
  | StopSending track => stopSending engine track
  | ReplaceTrack track newTrack => replaceTrack engine track newTrack
  | SetMaxSpatialLayer track l => setMaxSpatialLayer track l
  | GetSenderStats track => void (getSenderStats engine track)
  | RestartIce p => send_restartIce engine p
  end.

Definition exec_recv (engine : Engine) (op : RecvOp) : M RecvHandler unit :=
  match op with
  | RClose => close engine
  | RGetTransportStats => void (getTransportStats engine)
  | RUpdateIceServers l => updateIceServers engine l
  | Receive id kind p => void (receive engine id kind p)
  | StopReceiving id => stopReceiving engine id
  | GetReceiverStats id => void (getReceiverStats engine id)
  | RRestartIce p => recv_restartIce engine p
  end.

End Safari11.

(** ** Concrete engines *)

Module Engines.

(** What a scripted engine answers: the objects it exposes and the calls it
    rejects. *)
Record Script := {
  script_transceivers : list RTCRtpTransceiver;
  script_senders : list RTCRtpSender;
  script_receivers : list RTCRtpReceiver;
  script_parameters : RTCRtpSendParameters;
  script_signalingState : string;
  script_rejects : ∀ A : Type, Call A → bool
}.

Definition a_sender (n : N) (track : option MediaStreamTrack) : RTCRtpSender :=
  {| sender_handle := n; sender_track := track |}.

Definition a_receiver (n : N) (track : option MediaStreamTrack) : RTCRtpReceiver :=
  {| receiver_handle := n; receiver_track := track |}.

Definition a_transceiver (n : N) (m : option string) (dir : string)
    (sent received : option MediaStreamTrack) : RTCRtpTransceiver :=
  {| transceiver_handle := n; mid := m; direction := dir;
     sender := a_sender n sent; receiver := a_receiver n received |}.

Definition some_dtlsParameters : DtlsParameters :=
  {| fingerprints := [ {| algorithm := "sha-256"; value := "82:5A:68:3D" |} ];
     role := "auto" |}.

Definition some_rtpParameters : RtpParameters :=
  {| rtp_codecs := []; rtp_headerExtensions := [];
     rtp_encodings := [ {| enc_ssrc := Some 46687003; enc_rtx := None |} ];
     rtp_rtcp := Some {| rtcp_cname := "wB4Ql4lrsxYLjzuN";
                         rtcp_reducedSize := true; rtcp_mux := true |} |}.

Definition answer (sc : Script) {A : Type} (c : Call A) : A :=
  match c in Call T return T with
  | pc_close => ()
  | pc_getStats => "stats"
  | pc_getConfiguration =>
      {| iceServers := []; iceTransportPolicy := "all";
         bundlePolicy := "max-bundle"; rtcpMuxPolicy := "require" |}
  | pc_setConfiguration _ => ()
  | pc_localDescription => {| desc_type := "offer"; desc_sdp := "v=0" |}
  | pc_signalingState => script_signalingState sc
  | pc_getTransceivers => script_transceivers sc
  | pc_getSenders => script_senders sc
  | pc_getReceivers => script_receivers sc
  | pc_addTransceiver track dir =>
      a_transceiver 100 None dir (Some track)
        (Some {| track_id := "remote"; track_kind := track_kind track |})
  | pc_addTrack track _ => a_sender 100 (Some track)
  | pc_removeTrack _ => ()
  | pc_createOffer _ => {| desc_type := "offer"; desc_sdp := "v=0" |}
  | pc_createAnswer => {| desc_type := "answer"; desc_sdp := "v=0" |}
  | pc_setLocalDescription _ => ()
  | pc_setRemoteDescription _ => ()
  | transceiver_set_direction _ _ => ()
  | transceiver_mid _ => Some "0"
  | sender_getParameters _ => script_parameters sc
  | sender_setParameters _ _ => ()
  | sender_replaceTrack _ _ => ()
  | sender_getStats _ => "stats"
  | receiver_getStats _ => "stats"
  | sdpTransform_parse s => sdpObject s
  | extractDtlsParameters _ => some_dtlsParameters
  | createAnswerSdp _ _ => "v=0"
  | unifiedPlan_createOfferSdp _ _ => "v=0"
  | planB_createOfferSdp _ _ _ => "v=0"
  | unifiedPlan_fillRtpParametersForTrack _ _ _ _ => some_rtpParameters
  | planB_fillRtpParametersForTrack _ _ _ => some_rtpParameters
  | safeEmitAsPromise_connect _ => ()
  end.

Definition scripted (sc : Script) : Engine :=
  λ A _ c,
    if script_rejects sc A c then throws "rejected" else returns (answer sc c).

Definition rejects_nothing : ∀ A : Type, Call A → bool := λ _ _, false.

Definition rejects_createAnswer : ∀ A : Type, Call A → bool :=
  λ _ c, match c with pc_createAnswer => true | _ => false end.

Definition rejects_setRemoteDescription : ∀ A : Type, Call A → bool :=
  λ _ c, match c with pc_setRemoteDescription _ => true | _ => false end.

Definition rejects_setLocalDescription : ∀ A : Type, Call A → bool :=
  λ _ c, match c with pc_setLocalDescription _ => true | _ => false end.

Definition three_layers : RTCRtpSendParameters :=
  {| encodings :=
       [ {| rid := "low1"; active := true; priority := Some "high";
            maxBitrate := Some 100000 |};
         {| rid := "medium1"; active := true; priority := Some "medium";
            maxBitrate := Some 300000 |};
         {| rid := "high1"; active := true; priority := Some "low";
            maxBitrate := Some 1500000 |} ];
     transactionId := "t1" |}.

Definition microphone : MediaStreamTrack :=
  {| track_id := "mic"; track_kind := "audio" |}.

Definition camera : MediaStreamTrack :=
  {| track_id := "cam"; track_kind := "video" |}.

(** An engine on which the camera is being sent in three layers, which
    exposes the remote sources [a] and [b], and which rejects the calls
    [rejects] selects. *)
Definition script (rejects : ∀ A : Type, Call A → bool) : Script :=
  {| script_transceivers :=
       [ a_transceiver 1 (Some "a-a") "recvonly" None
           (Some {| track_id := "audio-a"; track_kind := "audio" |});
         a_transceiver 2 (Some "a-b") "recvonly" None
           (Some {| track_id := "audio-b"; track_kind := "audio" |}) ];
     script_senders := [ a_sender 7 (Some camera) ];
     script_receivers :=
       [ a_receiver 1 (Some {| track_id := "audio-a"; track_kind := "audio" |});
         a_receiver 2 (Some {| track_id := "audio-b"; track_kind := "audio" |}) ];
     script_parameters := three_layers;
     script_signalingState := "have-local-offer";
     script_rejects := rejects |}.

Definition obliging : Engine := scripted (script rejects_nothing).

(** An engine that starts to reject the calls [rejects] selects once [n]
    events have happened, and is obliging otherwise. *)
Definition flaky (n : nat) (rejects : ∀ A : Type, Call A → bool) : Engine :=
  λ A h c,
    if bool_decide (n ≤ length h)%nat && rejects A c
    then throws "rejected"
    else obliging A h c.

Definition some_transportRemoteParameters : TransportRemoteParameters :=
  {| transport_id := "transport";
     dtlsParameters :=
       {| fingerprints := [ {| algorithm := "sha-256"; value := "A9:F4:E0:D2" |} ];
          role := "auto" |};
     iceCandidates :=
       [ {| family := "ipv4"; foundation := "udpcandidate"; ip := "9.9.9.9";
            port := 40533; candidate_priority := 1078862079;
            protocol := "udp"; candidate_type := "host" |} ];
     iceParameters :=
       {| iceLite := true; password := "yku5ej8nvfaor28lvtrabcx0wkrpkztz";
          usernameFragment := "h3hk1iz6qqlnqlne" |} |}.

Definition new_iceParameters : IceParameters :=
  {| iceLite := true; password := "zzzz"; usernameFragment := "yyyy" |}.

Definition extended : Ortc.ExtendedRtpCapabilities :=
  Ortc.computeExtendedCapabilities
    Fixtures.generateNativeRtpCapabilities Fixtures.generateRouterRtpCapabilities.

Definition sendingByKind : RtpParametersByKind :=
  {| audio := Ortc.getSendingRtpParameters "audio" extended;
     video := Ortc.getSendingRtpParameters "video" extended |}.

Definition firefox_data : Firefox60.Data :=
  {| Firefox60.data_transportRemoteParameters := some_transportRemoteParameters;
     Firefox60.data_iceServers := None;
     Firefox60.data_iceTransportPolicy := None;
     Firefox60.data_sendingRtpParametersByKind := Some sendingByKind |}.

Definition safari_data : Safari11.Data :=
  {| Safari11.data_transportRemoteParameters := some_transportRemoteParameters;
     Safari11.data_iceServers := None;
     Safari11.data_iceTransportPolicy := None;
     Safari11.data_sendingRtpParametersByKind := Some sendingByKind;
     Safari11.data_receivingRtpParametersByKind := None |}.

End Engines.

(** ** Reasoning about handler code *)

(** [wp m Q s h]: running [m] from the state [s] after the events [h] ends
    in a completion, a state and events that satisfy [Q]. *)
Definition wp {S A} (m : M S A) (Q : Completion A → S → list Event → Prop)
    (s : S) (h : list Event) : Prop :=
  match m s h with
  | (r, s', evs) => Q r s' evs
  end.

(** What [restartIce] does to the engine: nothing while the transport is not
    ready; otherwise the steps of [round], in this order, until an observed
    step fails. *)
Definition gated (round : list Step) (ready : bool) (r : Completion unit)
    (evs : list Event) : Prop :=
  if ready
  then steps evs `prefix_of` round
       ∧ (first_failure evs = None → r = Normal () ∧ steps evs = round)
  else r = Normal () ∧ evs = [].

(** An operation ends as its failures command: it throws as soon as it has
    observed a failure, and an error of the engine that it throws is the
    first failure it observed. *)
Definition raises_failures {A} (r : Completion A) (evs : list Event) : Prop :=
  (∀ reason, first_failure evs = Some reason → ∃ e, r = Throw e)
  ∧ (∀ reason, r = Throw (External reason) → first_failure evs = Some reason).

(** The events that deliver ['@connect']: the emission was accepted. *)
Definition is_connected (ev : Event) : bool :=
  match ev with
  | Performed (safeEmitAsPromise_connect _) (returns _) _ => true
  | Performed _ _ _ => false
  end.

Fixpoint connected_count (evs : list Event) : nat :=
  match evs with
  | [] => 0
  | ev :: evs' => (if is_connected ev then 1 else 0) + connected_count evs'
  end.

(** What one operation may add to the successful ['@connect'] emissions. *)
Definition connects_once (ready : bool) (ready' : bool) (evs : list Event) : Prop :=
  if ready then ready' = true ∧ connected_count evs = 0%nat
  else (connected_count evs ≤ 1)%nat ∧ (connected_count evs = 1%nat → ready' = true).

(** ** Notions used by the further properties *)

(** The outcome of an operation that finds no sender for its track: the
    error, the handler as it was, and the one call that listed the senders. *)
Definition track_not_found {S A : Type} (senders : list RTCRtpSender) (s : S)
  : Completion A * S * list Event :=
  (Throw (JsError "local track not found"), s,
   [Performed pc_getSenders (returns senders) true]).

(** The outcome of an operation that is rejected before any call to the
    engine. *)
Definition rejected {S A : Type} (e : Error) (s : S)
  : Completion A * S * list Event :=
  (Throw e, s, []).

(** The calls of a handler that makes the offers: it never creates an
    answer, never builds a remote offer, and the remote descriptions it
    applies are answers. *)
Definition offerer_call (ev : Event) : bool :=
  match ev with
  | Performed pc_createAnswer _ _ => false
  | Performed (unifiedPlan_createOfferSdp _ _) _ _ => false
  | Performed (planB_createOfferSdp _ _ _) _ _ => false
  | Performed (pc_setRemoteDescription d) _ _ => bool_decide (desc_type d = "answer")
  | Performed _ _ _ => true
  end.

(** The calls of a handler that answers: it never creates an offer, never
    builds a remote answer, never touches a sender, and the remote
    descriptions it applies are offers. *)
Definition answerer_call (ev : Event) : bool :=
  match ev with
  | Performed (pc_createOffer _) _ _ => false
  | Performed (createAnswerSdp _ _) _ _ => false
  | Performed (pc_addTransceiver _ _) _ _ => false
  | Performed (pc_addTrack _ _) _ _ => false
  | Performed (pc_removeTrack _) _ _ => false
  | Performed pc_getSenders _ _ => false
  | Performed (pc_setRemoteDescription d) _ _ => bool_decide (desc_type d = "offer")
  | Performed _ _ _ => true
  end.

(** The ['@connect'] emissions announce the DTLS role [dtlsRole]. *)
Definition announces (dtlsRole : string) (ev : Event) : bool :=
  match ev with
  | Performed (safeEmitAsPromise_connect dtlsParameters) _ _ =>
      bool_decide (role dtlsParameters = dtlsRole)
  | Performed _ _ _ => true
  end.

(** The offer/answer round of a handler that offers, and of one that
    answers. *)
Definition offer_round (iceRestart : bool) : list Step :=
  [CreateOffer iceRestart; SetLocalDescription; SetRemoteDescription].

Definition answer_round : list Step :=
  [SetRemoteDescription; CreateAnswer; SetLocalDescription].

(** The round an operation may run. *)
Definition firefox_send_round (op : Firefox60.SendOp) : list Step :=
  match op with
  | Firefox60.Send _ _ | Firefox60.StopSending _ => offer_round false
  | Firefox60.RestartIce _ => offer_round true
  | _ => []
  end.

Definition firefox_recv_round (op : Firefox60.RecvOp) : list Step :=
  match op with
  | Firefox60.Receive _ _ _ | Firefox60.StopReceiving _
  | Firefox60.RRestartIce _ => answer_round
  | _ => []
  end.

Definition safari_send_round (op : Safari11.SendOp) : list Step :=
  match op with
  | Safari11.Send _ _ | Safari11.StopSending _ => offer_round false
  | Safari11.RestartIce _ => offer_round true
  | _ => []
  end.

Definition safari_recv_round (op : Safari11.RecvOp) : list Step :=
  match op with
  | Safari11.Receive _ _ _ | Safari11.StopReceiving _
  | Safari11.RRestartIce _ => answer_round
  | _ => []
  end.

(** The tracks, respectively the id, of the session an operation starts,
    stops or changes. *)
Definition firefox_send_tracks (op : Firefox60.SendOp) : list MediaStreamTrack :=
  match op with
  | Firefox60.Send track _ | Firefox60.StopSending track => [track]
  | Firefox60.ReplaceTrack track newTrack => [track; newTrack]
  | _ => []
  end.

Definition safari_send_tracks (op : Safari11.SendOp) : list MediaStreamTrack :=
  match op with
  | Safari11.Send track _ | Safari11.StopSending track => [track]
  | Safari11.ReplaceTrack track newTrack => [track; newTrack]
  | _ => []
  end.

Definition firefox_recv_id (op : Firefox60.RecvOp) : option string :=
  match op with
  | Firefox60.Receive id _ _ | Firefox60.StopReceiving id => Some id
  | _ => None
  end.

Definition safari_recv_id (op : Safari11.RecvOp) : option string :=
  match op with
  | Safari11.Receive id _ _ | Safari11.StopReceiving id => Some id
  | _ => None
  end.

(** What an operation hands to the remote SDP builder. *)
Definition firefox_send_ice (op : Firefox60.SendOp) : RemoteSdp → RemoteSdp :=
  match op with
  | Firefox60.RestartIce p => updateTransportRemoteIceParameters p
  | _ => λ sdp, sdp
  end.

Definition firefox_recv_ice (op : Firefox60.RecvOp) : RemoteSdp → RemoteSdp :=
  match op with
  | Firefox60.RRestartIce p => updateTransportRemoteIceParameters p
  | _ => λ sdp, sdp
  end.

Definition safari_send_ice (op : Safari11.SendOp) : RemoteSdp → RemoteSdp :=
  match op with
  | Safari11.RestartIce p => updateTransportRemoteIceParameters p
  | _ => λ sdp, sdp
  end.

Definition safari_recv_ice (op : Safari11.RecvOp) : RemoteSdp → RemoteSdp :=
  match op with
  | Safari11.RRestartIce p => updateTransportRemoteIceParameters p
  | _ => λ sdp, sdp
  end.

(** ['@connect'] has been delivered. *)
Definition delivered (evs : list Event) : bool :=
  bool_decide (0 < connected_count evs)%nat.

(** The operations that read, or that only hand settings to the engine. *)
Definition firefox_send_reads (op : Firefox60.SendOp) : bool :=
  match op with
  | Firefox60.Close | Firefox60.GetTransportStats | Firefox60.UpdateIceServers _
  | Firefox60.SetMaxSpatialLayer _ _ | Firefox60.GetSenderStats _ => true
  | _ => false
  end.

Definition firefox_recv_reads (op : Firefox60.RecvOp) : bool :=
  match op with
  | Firefox60.RClose | Firefox60.RGetTransportStats
  | Firefox60.RUpdateIceServers _ | Firefox60.GetReceiverStats _ => true
  | _ => false
  end.

Definition safari_send_reads (op : Safari11.SendOp) : bool :=
  match op with
  | Safari11.Close | Safari11.GetTransportStats | Safari11.UpdateIceServers _
  | Safari11.SetMaxSpatialLayer _ _ | Safari11.GetSenderStats _ => true
  | _ => false
  end.

Definition safari_recv_reads (op : Safari11.RecvOp) : bool :=
  match op with
  | Safari11.RClose | Safari11.RGetTransportStats
  | Safari11.RUpdateIceServers _ | Safari11.GetReceiverStats _ => true
  | _ => false
  end.

(** An entry of the Firefox60 receiver-info map is kept as it is, or closed. *)
Definition kept_or_closed (infos infos' : Js.Map UnifiedPlanReceiverInfo) : Prop :=
  ∀ id info,
    Js.map_get id infos = Some info →
    Js.map_get id infos' = Some info
    ∨ Js.map_get id infos' = Some (Firefox60.set_closed true info).

(** Every entry of the Safari11 receiver-info map is of a kind that has been
    seen. *)
Definition kinds_cover (s : Safari11.RecvHandler) : Prop :=
  ∀ id info,
    Js.map_get id (Safari11._receiverInfos s) = Some info →
    Js.has (pb_kind info) (Safari11._kinds s) = true.

(** The calls that undo what [send] did to the peer connection. *)
Definition is_undo (ev : Event) : bool :=
  match ev with
  | Performed (transceiver_set_direction _ d) _ _ => bool_decide (d = "inactive")
  | Performed (pc_removeTrack _) _ _ => true
  | Performed _ _ _ => false
  end.

(** The listener the Firefox60 [Handler] constructor installs for
    ['iceconnectionstatechange']: the state it emits with
    ['@connectionstatechange'], if any. *)
Definition firefox60_iceconnectionstatechange (iceConnectionState : string)
  : option string :=
  if decide (iceConnectionState = "checking") then Some "connecting"
  else if decide (iceConnectionState = "connected") then Some "connected"
  else if decide (iceConnectionState = "completed") then Some "connected"
  else if decide (iceConnectionState = "failed") then Some "failed"
  else if decide (iceConnectionState = "disconnected") then Some "disconnected"
  else if decide (iceConnectionState = "closed") then Some "closed"
  else None.

(** The listener the Safari11 [Handler] constructor installs. *)
Definition safari11_iceconnectionstatechange (iceConnectionState : string)
  : option string :=
  if decide (iceConnectionState = "checking") then Some "connecting"
  else if decide (iceConnectionState = "connected") then Some "connected"
  else if decide (iceConnectionState = "completed") then Some "connected"
  else if decide (iceConnectionState = "failed") then Some "failed"
  else if decide (iceConnectionState = "disconnected") then Some "disconnected"
  else if decide (iceConnectionState = "closed") then Some "closed"
  else None.

(** How [send] came by its transceiver. *)
Inductive Acquisition :=
| Reused (transceiver : RTCRtpTransceiver)
| Added (track : MediaStreamTrack).

Definition acquisition_of_event (ev : Event) : list Acquisition :=
  match ev with
  | Performed (transceiver_set_direction t d) _ _ =>
      if decide (d = "sendonly") then [Reused t] else []
  | Performed (pc_addTransceiver track _) _ _ => [Added track]
  | Performed _ _ _ => []
  end.

Definition acquisitions (evs : list Event) : list Acquisition :=
  evs ≫= acquisition_of_event.

(** The offer/answer steps of an operation that precede its first
    ['@connect'], if it emits one. *)
Fixpoint steps_before_connect (evs : list Event) : option (list Step) :=
  match evs with
  | [] => None
  | ev :: evs' =>
      if is_connect ev then Some []
      else (λ l, step_of_event ev ++ l) <$> steps_before_connect evs'
  end.

(** An engine whose peer connection holds one inactive video transceiver. *)
Definition idle_video_transceiver : RTCRtpTransceiver :=
  Engines.a_transceiver 5 (Some "0") "inactive" None
    (Some {| track_id := "remote"; track_kind := "video" |}).

Definition idle_engine : Engine :=
  Engines.scripted
    {| Engines.script_transceivers := [idle_video_transceiver];
       Engines.script_senders := [];
       Engines.script_receivers := [];
       Engines.script_parameters := Engines.three_layers;
       Engines.script_signalingState := "stable";
       Engines.script_rejects := Engines.rejects_nothing |}.

(** ** The capability probe: [getNativeRtpCapabilities] *)

Module Native.

(** An encoding as the probe writes it: [{ rid, maxBitrate }]. *)
Record ProbeEncoding := {
  probe_rid : string;
  probe_maxBitrate : N
}.

(** Every interaction of the probe with the browser: the peer connection it
    creates, the canvas it captures a video track from, and the SDP
    utilities. *)
Inductive Call : Type → Type :=
| new_RTCPeerConnection (configuration : RTCConfiguration) : Call unit
| document_createElement (tagName : string) : Call unit
| canvas_getContext (contextId : string) : Call unit
| canvas_captureStream : Call unit
| fakeStream_getVideoTracks : Call (list MediaStreamTrack)
| canvas_remove : Call unit
| track_stop (track : option MediaStreamTrack) : Call unit
| pc_addTransceiver_kind (kind : string) (direction : option string) : Call unit
| pc_addTransceiver_track (track : option MediaStreamTrack) (direction : string)
  : Call RTCRtpTransceiver
| sender_getParameters (s : RTCRtpSender) : Call RTCRtpSendParameters
| sender_setParameters (s : RTCRtpSender) (parameters : RTCRtpSendParameters)
    (encodings : list ProbeEncoding) : Call unit
| pc_createOffer : Call RTCSessionDescription
| pc_close : Call unit
| sdpTransform_parse (sdp : Sdp) : Call SdpObject
| extractRtpCapabilities (sdpObj : SdpObject) : Call RtpCapabilities.

Inductive Event :=
| Performed {A : Type} (c : Call A) (r : Reply A).

(** The browser: the reply to a call, given everything that happened so
    far. *)
Definition Engine := ∀ A : Type, list Event → Call A → Reply A.

(** A static function has no [this]: errors and the events performed. *)
Definition M (A : Type) : Type := list Event → Completion A * list Event.

Definition ret {A} (a : A) : M A := λ _, (Normal a, []).

Definition bind {A B} (m : M A) (k : A → M B) : M B :=
  λ h,
    match m h with
    | (Normal a, e1) =>
        match k a (h ++ e1) with
        | (r, e2) => (r, e1 ++ e2)
        end
    | (Throw e, e1) => (Throw e, e1)
    end.

Definition throw {A} (e : Error) : M A := λ _, (Throw e, []).

Definition try_catch {A} (m : M A) (k : Error → M A) : M A :=
  λ h,
    match m h with
    | (Normal a, e1) => (Normal a, e1)
    | (Throw e, e1) =>
        match k e (h ++ e1) with
        | (r, e2) => (r, e1 ++ e2)
        end
    end.

Definition try_ignore (m : M unit) : M unit :=
  try_catch m (λ _, ret ()).

Definition perform (engine : Engine) {A} (c : Call A) : M A :=
  λ h, let r := engine A h c in (completion r, [Performed c r]).

#[global] Instance M_ret : MRet M := λ A, ret.
#[global] Instance M_bind : MBind M := λ A B k m, bind m k.

(** The configuration of the peer connection the probe creates. *)
Definition configuration : RTCConfiguration :=
  {| iceServers := [];
     iceTransportPolicy := "all";
     bundlePolicy := "max-bundle";
     rtcpMuxPolicy := "require" |}.

Module Firefox60.

Definition getNativeRtpCapabilities (engine : Engine) : M RtpCapabilities :=
  perform engine (new_RTCPeerConnection configuration);;
  perform engine (document_createElement "canvas");;
  perform engine (canvas_getContext "2d");;
  perform engine canvas_captureStream;;
  videoTracks ← perform engine fakeStream_getVideoTracks;
  let fakeVideoTrack := head videoTracks in
  try_catch
    (perform engine (pc_addTransceiver_kind "audio" (Some "sendrecv"));;
     videoTransceiver ← perform engine
       (pc_addTransceiver_track fakeVideoTrack "sendrecv");
     parameters ← perform engine (sender_getParameters (sender videoTransceiver));
     let encodings :=
       [ {| probe_rid := "RID1"; probe_maxBitrate := 100000 |};
         {| probe_rid := "RID2"; probe_maxBitrate := 500000 |} ] in
     perform engine
       (sender_setParameters (sender videoTransceiver) parameters encodings);;
     offer ← perform engine pc_createOffer;
     try_ignore (perform engine canvas_remove);;
     try_ignore (perform engine (track_stop fakeVideoTrack));;
     try_ignore (perform engine pc_close);;
     sdpObj ← perform engine (sdpTransform_parse (desc_sdp offer));
     perform engine (extractRtpCapabilities sdpObj))
    (λ error,
       try_ignore (perform engine canvas_remove);;
       try_ignore (perform engine (track_stop fakeVideoTrack));;
       try_ignore (perform engine pc_close);;
       throw error).

End Firefox60.

Module Safari11.

Definition getNativeRtpCapabilities (engine : Engine) : M RtpCapabilities :=
  perform engine (new_RTCPeerConnection configuration);;
  try_catch
    (perform engine (pc_addTransceiver_kind "audio" None);;
     perform engine (pc_addTransceiver_kind "video" None);;
     offer ← perform engine pc_createOffer;
     try_ignore (perform engine pc_close);;
     sdpObj ← perform engine (sdpTransform_parse (desc_sdp offer));
     perform engine (extractRtpCapabilities sdpObj))
    (λ error,
       try_ignore (perform engine pc_close);;
       throw error).

End Safari11.

(** The number of times the probe closed its peer connection. *)
Fixpoint closes (evs : list Event) : nat :=
  match evs with
  | [] => 0
  | Performed pc_close _ :: evs' => S (closes evs')
  | Performed _ _ :: evs' => closes evs'
  end.

(** The peer connection was created: [new RTCPeerConnection] returned. *)
Definition created (evs : list Event) : bool :=
  match evs with
  | Performed (new_RTCPeerConnection _) (returns _) :: _ => true
  | _ => false
  end.

(** The [try] block was entered: its first call was issued. *)
Fixpoint entered (evs : list Event) : bool :=
  match evs with
  | [] => false
  | Performed (pc_addTransceiver_kind _ _) _ :: _ => true
  | Performed _ _ :: evs' => entered evs'
  end.

(** The calls issued after the peer connection was first closed. *)
Fixpoint after_close (evs : list Event) : list Event :=
  match evs with
  | [] => []
  | Performed pc_close _ :: evs' => evs'
  | Performed _ _ :: evs' => after_close evs'
  end.

(** A call on the peer connection. *)
Definition on_pc (ev : Event) : bool :=
  match ev with
  | Performed (pc_addTransceiver_kind _ _) _
  | Performed (pc_addTransceiver_track _ _) _
  | Performed pc_createOffer _ => true
  | Performed _ _ => false
  end.

End Native.

(** * Properties *)

(** ** The capability negotiator *)

(** C7: with opus offered locally at payload type 100 and by the router at
    payload type 111 with [transport-cc] feedback, the extended capabilities
    hold exactly one codec entry, whose send payload type is 100 and whose
    receive payload type is 111; the sending projection carries the local
    feedback mechanisms and the local parameters, whatever the router's. *)
Theorem opus_scenario (localFeedback : list RtcpFeedback)
    (localParameters remoteParameters : list (string * ParamValue)) :
  let local := Ortc.capabilitiesOf (Ortc.opus 100 localFeedback localParameters) in
  let remote :=
    Ortc.capabilitiesOf
      (Ortc.opus 111 [Fixtures.fb "transport-cc"] remoteParameters) in
  let extended := Ortc.computeExtendedCapabilities local remote in
  (∃ x, Ortc.xcodecs extended = [x]
        ∧ Ortc.sendPayloadType x = 100 ∧ Ortc.recvPayloadType x = 111)
  ∧ rtp_codecs (Ortc.getSendingRtpParameters "audio" extended)
    = [ {| codec_name := "opus"; codec_mimeType := "audio/opus";
           codec_clockRate := 48000; codec_payloadType := 100;
           codec_channels := Some 2;
           codec_rtcpFeedback := localFeedback;
           codec_parameters := localParameters |} ].
Proof.
  cbn zeta. split.
  - eexists. split; [reflexivity | split; reflexivity].
  - reflexivity.
Qed.

(** ** Rules of [wp] *)

Section Rules.
Context {S : Type}.

Lemma wp_ret {A} (a : A) Q (s : S) h : Q (Normal a) s [] → wp (ret a) Q s h.
Proof. done. Qed.

Lemma wp_throw {A} e (Q : Completion A → S → list Event → Prop) s h :
  Q (Throw e) s [] → wp (throw e) Q s h.
Proof. done. Qed.

Lemma wp_this Q (s : S) h : Q (Normal s) s [] → wp this Q s h.
Proof. done. Qed.

Lemma wp_assign f Q (s : S) h : Q (Normal ()) (f s) [] → wp (assign f) Q s h.
Proof. done. Qed.

Lemma wp_lift {A} (c : Completion A) Q (s : S) h : Q c s [] → wp (lift c) Q s h.
Proof. done. Qed.

Lemma wp_bind {A B} (m : M S A) (k : A → M S B) Q s h :
  wp m (λ r s1 e1,
          match r with
          | Normal a => wp (k a) (λ r2 s2 e2, Q r2 s2 (e1 ++ e2)) s1 (h ++ e1)
          | Throw e => Q (Throw e) s1 e1
          end) s h →
  wp (bind m k) Q s h.
Proof.
  unfold wp, bind. destruct (m s h) as [[[a|e] s1] e1]; [|done].
  by destruct (k a s1 (h ++ e1)) as [[r2 s2] e2].
Qed.

Lemma wp_try_catch {A} (m : M S A) (k : Error → M S A) Q s h :
  wp m (λ r s1 e1,
          match r with
          | Normal a => Q (Normal a) s1 e1
          | Throw e => wp (k e) (λ r2 s2 e2, Q r2 s2 (e1 ++ e2)) s1 (h ++ e1)
          end) s h →
  wp (try_catch m k) Q s h.
Proof.
  unfold wp, try_catch. destruct (m s h) as [[[a|e] s1] e1]; [done|].
  by destruct (k e s1 (h ++ e1)) as [[r2 s2] e2].
Qed.

Lemma wp_perform engine {A} (c : Call A) Q (s : S) h :
  (∀ r, engine A h c = r → Q (completion r) s [Performed c r true]) →
  wp (perform engine c) Q s h.
Proof. intros H. unfold wp, perform. by apply H. Qed.

Lemma wp_detach engine {A} (c : Call A) Q (s : S) h :
  (∀ r, engine A h c = r → Q (Normal r) s [Performed c r false]) →
  wp (detach engine c) Q s h.
Proof. intros H. unfold wp, detach. by apply H. Qed.

(** A statement about one run is a [wp]. *)
Lemma wp_run {A} (m : M S A) (Q : Completion A → S → list Event → Prop) s h :
  wp m Q s h → ∀ r s' evs, m s h = (r, s', evs) → Q r s' evs.
Proof. unfold wp. intros H r s' evs E. by rewrite E in H. Qed.

End Rules.

Ltac wp_norm := lazy beta iota delta [completion].

(** One step of symbolic execution: the head of the computation is executed,
    with a case analysis on every reply of the engine. *)
Ltac wp_step :=
  wp_norm;
  lazymatch goal with
  | |- wp (mbind _ _) _ _ _ => unfold mbind at 1, M_bind at 1; apply wp_bind
  | |- wp (bind _ _) _ _ _ => apply wp_bind
  | |- wp (mret _) _ _ _ => unfold mret at 1, M_ret at 1; apply wp_ret
  | |- wp (ret _) _ _ _ => apply wp_ret
  | |- wp (throw _) _ _ _ => apply wp_throw
  | |- wp this _ _ _ => apply wp_this
  | |- wp (assign _) _ _ _ => apply wp_assign
  | |- wp (lift _) _ _ _ => apply wp_lift
  | |- wp (try_catch _ _) _ _ _ => apply wp_try_catch
  | |- wp (try_ignore _) _ _ _ => unfold try_ignore at 1; apply wp_try_catch
  | |- wp (void _) _ _ _ => unfold void at 1
  | |- wp (perform _ _) _ _ _ =>
      apply wp_perform;
      let r := fresh "r" in let H := fresh "Hr" in intros r H; destruct r
  | |- wp (detach _ _) _ _ _ =>
      apply wp_detach;
      let r := fresh "r" in let H := fresh "Hr" in intros r H
  | |- wp (match ?x with _ => _ end) _ _ _ => destruct x eqn:?
  | |- wp (if ?b then _ else _) _ _ _ => destruct b eqn:?
  | |- match ?x with _ => _ end =>
      lazymatch goal with
      | |- context [wp _ _ _ _] => destruct x eqn:?
      end
  end.

(** Turns a goal about the result of one run into a [wp]. *)
Ltac wp_start m :=
  lazymatch goal with
  | |- context [m ?s ?h] =>
      let r := fresh "r" in
      let s' := fresh "s'" in
      let evs := fresh "evs" in
      let E := fresh "E" in
      destruct (m s h) as [[r s'] evs] eqn:E;
      pattern r, s', evs;
      lazymatch goal with
      | |- ?Q r s' evs => refine (wp_run m Q s h _ r s' evs E)
      end;
      clear r s' evs E
  end.

Ltac wp_run_all := repeat wp_step; wp_norm.

(** The replies of the engine are of no use once a run is over. *)
Ltac clear_replies :=
  repeat match goal with
         | H : @eq (Reply _) _ _ |- _ => clear H
         end.

(** Symbolic execution of any operation of the two handlers. *)
Ltac run_operation :=
  unfold Firefox60.send, Firefox60.send_negotiate, Firefox60.send_undo,
    Firefox60.stopSending, Firefox60.replaceTrack, Firefox60.setMaxSpatialLayer,
    Firefox60.getSenderStats, Firefox60.send_restartIce, Firefox60.receive,
    Firefox60.stopReceiving, Firefox60.getReceiverStats,
    Firefox60.recv_restartIce, Firefox60.getTransportStats,
    Firefox60.updateIceServers, Firefox60.close,
    Firefox60._setupTransport, Firefox60.localDescription_sdp,
    Safari11.send, Safari11.send_undo,
    Safari11.stopSending, Safari11.replaceTrack, Safari11.setMaxSpatialLayer,
    Safari11.getSenderStats, Safari11.send_restartIce, Safari11.receive,
    Safari11.stopReceiving, Safari11.getReceiverStats,
    Safari11.recv_restartIce, Safari11.getTransportStats,
    Safari11.updateIceServers, Safari11.close,
    Safari11._setupTransport, Safari11.localDescription_sdp;
  wp_run_all.

(** ** Containers *)

Section Containers.
Context {A V : Type} `{EqDecision A}.
Implicit Types (x : A) (s : list A) (k : string) (m : list (string * V)).

Lemma delete_fresh x s : x ∉ s → Js.delete x s = s.
Proof.
  intros Hx. unfold Js.delete. induction s as [|y s IH]; [done|].
  rewrite not_elem_of_cons in Hx. destruct Hx as [Hxy Hs].
  rewrite filter_cons_True by done. by rewrite IH.
Qed.

Lemma delete_add_fresh x s : Js.has x s = false → Js.delete x (Js.add x s) = s.
Proof.
  intros Hx. unfold Js.add. rewrite Hx.
  apply bool_decide_eq_false in Hx.
  unfold Js.delete.
  rewrite filter_app, filter_cons_False, filter_nil by (intros Hne; by apply Hne).
  rewrite app_nil_r. by apply delete_fresh.
Qed.

Lemma has_delete x s : Js.has x (Js.delete x s) = false.
Proof.
  apply bool_decide_eq_false. unfold Js.delete.
  rewrite list_elem_of_filter. intros [Hne _]. by apply Hne.
Qed.

Lemma map_delete_fresh k m : k ∉ m.*1 → Js.map_delete k m = m.
Proof.
  intros Hk. unfold Js.map_delete. induction m as [|[k' v] m IH]; [done|].
  rewrite fmap_cons, not_elem_of_cons in Hk. destruct Hk as [Hne Hm].
  rewrite filter_cons_True by (simpl; by intros ->). by rewrite IH.
Qed.

Lemma map_delete_set_fresh k (v : V) m :
  Js.map_has k m = false → Js.map_delete k (Js.map_set k v m) = m.
Proof.
  intros Hk. unfold Js.map_set. rewrite Hk.
  apply bool_decide_eq_false in Hk.
  unfold Js.map_delete.
  rewrite filter_app, filter_cons_False, filter_nil
    by (simpl; intros Hne; by apply Hne).
  rewrite app_nil_r. by apply map_delete_fresh.
Qed.

Lemma map_has_delete k m : Js.map_has k (Js.map_delete k m) = false.
Proof.
  apply bool_decide_eq_false. unfold Js.map_delete.
  rewrite list_elem_of_fmap. intros [[k' v] [-> Hin]].
  apply list_elem_of_filter in Hin. destruct Hin as [Hne _]. by apply Hne.
Qed.

Lemma map_count_fresh k m : Js.map_has k m = false → Js.map_count k m = 0%nat.
Proof.
  intros Hk. apply bool_decide_eq_false in Hk. unfold Js.map_count.
  induction m as [|[k' v] m IH]; [done|].
  rewrite fmap_cons, not_elem_of_cons in Hk. destruct Hk as [Hne Hm].
  rewrite filter_cons_False by (simpl; by intros ->). by apply IH.
Qed.

Lemma map_count_set_fresh k (v : V) m :
  Js.map_has k m = false → Js.map_count k (Js.map_set k v m) = 1%nat.
Proof.
  intros Hk. unfold Js.map_set. rewrite Hk. unfold Js.map_count.
  rewrite filter_app, length_app.
  fold (Js.map_count k m). rewrite (map_count_fresh k m Hk).
  by rewrite filter_cons_True.
Qed.

Lemma map_replace_keys k (v : V) m : (Js.map_replace k v m).*1 = m.*1.
Proof.
  induction m as [|[k' v'] m IH]; [done|]. simpl.
  destruct (decide (k' = k)); csimpl; [done|]. by rewrite IH.
Qed.

Lemma map_has_replace k (v : V) m :
  Js.map_has k (Js.map_replace k v m) = Js.map_has k m.
Proof. unfold Js.map_has. by rewrite map_replace_keys. Qed.

Lemma map_get_has k m : Js.map_has k m = true → is_Some (Js.map_get k m).
Proof.
  intros Hk. apply bool_decide_eq_true in Hk.
  induction m as [|[k' v] m IH]; [by apply elem_of_nil in Hk|].
  simpl. destruct (decide (k' = k)); [by eexists|].
  apply IH. rewrite fmap_cons, elem_of_cons in Hk. by destruct Hk as [->|].
Qed.

Lemma map_has_get k m : is_Some (Js.map_get k m) → Js.map_has k m = true.
Proof.
  intros Hk. apply bool_decide_eq_true.
  induction m as [|[k' v] m IH]; [by destruct Hk|].
  simpl in *. destruct (decide (k' = k)) as [->|]; [by left|].
  right. by apply IH.
Qed.

End Containers.

Lemma getTrackById_fresh track stream :
  Safari11.getTrackById (track_id track) stream = None → Js.has track stream = false.
Proof.
  intros Hf. apply bool_decide_eq_false. intros Hin.
  unfold Safari11.getTrackById in Hf.
  eapply find_none in Hf; [|by apply list_elem_of_In].
  by apply bool_decide_eq_false in Hf.
Qed.

(** ** Operations an engine does not support *)

(** C8: simulcast layer control on the Safari11 handler and ICE-server
    reconfiguration on the Firefox60 handlers fail with [UnsupportedError];
    the handler is left as it was and the engine is not called at all. *)
Theorem unsupported_operations_have_no_effect :
  (∀ track spatialLayer (s : Safari11.SendHandler) h,
     Safari11.setMaxSpatialLayer track spatialLayer s h
     = (Throw (UnsupportedError "not supported"), s, []))
  ∧ (∀ iceServers (s : Firefox60.SendHandler) h,
       Firefox60.updateIceServers iceServers s h
       = (Throw (UnsupportedError "not supported"), s, []))
  ∧ (∀ iceServers (s : Firefox60.RecvHandler) h,
       Firefox60.updateIceServers iceServers s h
       = (Throw (UnsupportedError "not supported"), s, [])).
Proof. by repeat split. Qed.

(** ** Simulcast layer control *)

Ltac same_reply :=
  repeat (match goal with
          | H1 : ?x = _, H2 : ?x = _ |- _ => rewrite H1 in H2
          end;
          simplify_eq).

(** C6: on the Firefox60 send handler, for a track whose sender has three
    encodings, [setMaxSpatialLayer] hands to the engine the active flags
    [true, true, false] for ['medium'] and [true, false, false] for
    ['low']. *)
Theorem setMaxSpatialLayer_flags (engine : Engine) track
    (s : Firefox60.SendHandler) h senders rtpSender parameters e0 e1 e2 :
  engine _ h pc_getSenders = returns senders →
  findSender track senders = Some rtpSender →
  engine _ (h ++ [Performed pc_getSenders (returns senders) true])
    (sender_getParameters rtpSender) = returns parameters →
  encodings parameters = [e0; e1; e2] →
  (let '(_, _, evs) := Firefox60.setMaxSpatialLayer engine track "medium" s h in
   active_flags evs = [[true; true; false]])
  ∧ (let '(_, _, evs) := Firefox60.setMaxSpatialLayer engine track "low" s h in
     active_flags evs = [[true; false; false]]).
Proof.
  intros Hs Hf Hp He. split.
  - wp_start (Firefox60.setMaxSpatialLayer engine track "medium").
    unfold Firefox60.setMaxSpatialLayer. wp_run_all; same_reply.
    all: by rewrite He.
  - wp_start (Firefox60.setMaxSpatialLayer engine track "low").
    unfold Firefox60.setMaxSpatialLayer. wp_run_all; same_reply.
    all: by rewrite He.
Qed.

Lemma setMaxSpatialLayer_flags_witness :
  (let '(_, _, evs) :=
     Firefox60.setMaxSpatialLayer Engines.obliging Engines.camera "medium"
       (Firefox60.new_SendHandler Engines.firefox_data) [] in
   active_flags evs = [[true; true; false]])
  ∧ (let '(_, _, evs) :=
       Firefox60.setMaxSpatialLayer Engines.obliging Engines.camera "low"
         (Firefox60.new_SendHandler Engines.firefox_data) [] in
     active_flags evs = [[true; false; false]]).
Proof.
  eapply (setMaxSpatialLayer_flags Engines.obliging Engines.camera
           (Firefox60.new_SendHandler Engines.firefox_data) []
           (Engines.script_senders (Engines.script Engines.rejects_nothing))
           (Engines.a_sender 7 (Some Engines.camera))
           Engines.three_layers);
    reflexivity.
Defined.

(** ** Connectivity restart *)

Ltac restart_leaf :=
  (split; [reflexivity|]);
  cbn in *;
  repeat match goal with u : unit |- _ => destruct u end;
  match goal with
  | H : negb ?b = _ |- _ => destruct b; simplify_eq/=
  end;
  unfold gated; cbn;
  first [ done
        | split; [by eexists | by intros ?] ].



(** ** Registry rollback of a failed start *)

Lemma stream_rollback track stream :
  bool_decide (is_Some (Safari11.getTrackById (track_id track) stream)) = false →
  Js.delete track (Js.add track stream) = stream.
Proof.
  intros H. apply bool_decide_eq_false in H.
  apply delete_add_fresh, getTrackById_fresh.
  destruct (Safari11.getTrackById _ _); [|done]. by destruct H.
Qed.

Ltac rollback_leaf :=
  clear_replies;
  cbn in *;
  first
    [ done
    | by intros [? ?]
    | intros _; by apply stream_rollback
    | intros _ _; by apply map_delete_set_fresh
    | intros _ H; exfalso; apply H; by repeat constructor
    | intros _ [H|H]; by simplify_eq
    | intros [H|H]; by simplify_eq
    | intros [H|H]; simplify_eq; unfold Js.add;
      match goal with H' : Js.has _ _ = true |- _ => by rewrite H' end ].

(** C1, as the handlers implement it: a failed [send] leaves the tracked
    tracks as they were, on both handlers; a failed [receive] leaves the
    receiver-info map as it was when the call stopped before [createAnswer]
    was issued (Firefox60), respectively when it was rejected before any call
    to the engine or failed at [setRemoteDescription] (Safari11); the
    Safari11 seen-kinds set is as it was when the call was rejected before
    any call to the engine or when the kind had been seen before. *)
Theorem failed_start_rollback (engine : Engine) (h : list Event) :
  (∀ track simulcast (s : Firefox60.SendHandler),
     let '(r, s', _) := Firefox60.send engine track simulcast s h in
     (∃ e, r = Throw e) → Firefox60._tracks s' = Firefox60._tracks s)
  ∧ (∀ track simulcast (s : Safari11.SendHandler),
       let '(r, s', _) := Safari11.send engine track simulcast s h in
       (∃ e, r = Throw e) → Safari11._stream s' = Safari11._stream s)
  ∧ (∀ id kind rtpParameters (s : Firefox60.RecvHandler),
       let '(r, s', evs) := Firefox60.receive engine id kind rtpParameters s h in
       (∃ e, r = Throw e) → CreateAnswer ∉ steps evs →
       Firefox60._receiverInfos s' = Firefox60._receiverInfos s)
  ∧ (∀ id kind rtpParameters (s : Safari11.RecvHandler),
       let '(r, s', evs) := Safari11.receive engine id kind rtpParameters s h in
       (∃ e, r = Throw e) → evs = [] ∨ steps evs = [SetRemoteDescription] →
       Safari11._receiverInfos s' = Safari11._receiverInfos s)
  ∧ (∀ id kind rtpParameters (s : Safari11.RecvHandler),
       let '(_, s', evs) := Safari11.receive engine id kind rtpParameters s h in
       evs = [] ∨ Js.has kind (Safari11._kinds s) = true →
       Safari11._kinds s' = Safari11._kinds s).
Proof.
  repeat split.
  - intros track simulcast s.
    wp_start (Firefox60.send engine track simulcast).
    unfold Firefox60.send, Firefox60.send_negotiate, Firefox60.send_undo,
      Firefox60._setupTransport, Firefox60.localDescription_sdp.
    wp_run_all; rollback_leaf.
  - intros track simulcast s.
    wp_start (Safari11.send engine track simulcast).
    unfold Safari11.send, Safari11.send_undo, Safari11._setupTransport,
      Safari11.localDescription_sdp.
    wp_run_all; rollback_leaf.
  - intros id kind rtpParameters s.
    wp_start (Firefox60.receive engine id kind rtpParameters).
    unfold Firefox60.receive, Firefox60._setupTransport,
      Firefox60.localDescription_sdp.
    wp_run_all; rollback_leaf.
  - intros id kind rtpParameters s.
    wp_start (Safari11.receive engine id kind rtpParameters).
    unfold Safari11.receive, Safari11._setupTransport,
      Safari11.localDescription_sdp.
    wp_run_all; rollback_leaf.
  - intros id kind rtpParameters s.
    wp_start (Safari11.receive engine id kind rtpParameters).
    unfold Safari11.receive, Safari11._setupTransport,
      Safari11.localDescription_sdp.
    wp_run_all; rollback_leaf.
Qed.

(** [receive] on a fresh Firefox60 handler, on an engine that accepts the
    remote offer and rejects [createAnswer]: the call fails and the new
    entry stays in the receiver-info map. *)
Lemma failed_receive_keeps_entry :
  let s := Firefox60.new_RecvHandler Engines.firefox_data in
  let '(r, s', _) :=
    Firefox60.receive (Engines.scripted (Engines.script Engines.rejects_createAnswer))
      "a" "audio" Engines.some_rtpParameters s [] in
  r = Throw (External "rejected")
  ∧ Firefox60._receiverInfos s' ≠ Firefox60._receiverInfos s.
Proof. cbv zeta. vm_compute. split; [reflexivity | discriminate]. Qed.

Lemma failed_start_rollback_witness :
  let s := Firefox60.new_RecvHandler Engines.firefox_data in
  let '(r, s', evs) :=
    Firefox60.receive
      (Engines.scripted (Engines.script Engines.rejects_setRemoteDescription))
      "a" "audio" Engines.some_rtpParameters s [] in
  r = Throw (External "rejected")
  ∧ Firefox60._receiverInfos s' = Firefox60._receiverInfos s.
Proof.
  cbv zeta.
  pose proof (proj1 (proj2 (proj2
    (failed_start_rollback
       (Engines.scripted (Engines.script Engines.rejects_setRemoteDescription)) [])))
    "a" "audio" Engines.some_rtpParameters
    (Firefox60.new_RecvHandler Engines.firefox_data)) as H.
  destruct (Firefox60.receive _ _ _ _ _ _) as [[r s'] evs] eqn:E.
  assert (r = Throw (External "rejected")
          ∧ steps evs = [SetRemoteDescription]) as [Hr Hs].
  { vm_compute in E. by injection E as <- _ <-. }
  split; [done|]. apply H; [by eexists|].
  rewrite Hs. by intros ?%list_elem_of_singleton.
Defined.

(** ** Stopping and restarting a receiver *)

Ltac reuse_leaf :=
  clear_replies;
  cbn in *;
  repeat match goal with
         | H : context [Js.map_has ?k (Js.map_delete ?k ?m)] |- _ =>
             rewrite map_has_delete in H
         | H : negb ?b = _ |- _ => destruct b eqn:?; simplify_eq/=
         end;
  simplify_eq;
  (split; [by intros ? | intros ? ?; simplify_eq]);
  first [ done | by apply map_count_set_fresh, map_has_delete
        | by apply map_count_set_fresh ].

(** C2, as the handlers implement it: on the Safari11 handler a [receive]
    that follows [stopReceiving] of the same id never raises the duplicate
    error, and when it returns normally the map holds exactly one entry for
    the id; on the Firefox60 handler a stopped id stays in the map, marked
    closed, and [receive] with that id raises the duplicate error without
    calling the engine. *)
Theorem stop_then_receive (engine : Engine) (id kind : string)
    (rtpParameters : RtpParameters) (h : list Event) :
  (∀ s : Safari11.RecvHandler,
     let '(_, s1, e1) := Safari11.stopReceiving engine id s h in
     let '(r2, s2, _) :=
       Safari11.receive engine id kind rtpParameters s1 (h ++ e1) in
     (∀ message, r2 ≠ Throw (DuplicatedError message))
     ∧ (∀ track, r2 = Normal track →
                 Js.map_count id (Safari11._receiverInfos s2) = 1%nat))
  ∧ (∀ s : Firefox60.RecvHandler,
       Js.map_has id (Firefox60._receiverInfos s) = true →
       let '(_, s1, e1) := Firefox60.stopReceiving engine id s h in
       Firefox60.receive engine id kind rtpParameters s1 (h ++ e1)
       = (Throw (DuplicatedError "already receiving this source"), s1, [])).
Proof.
  split.
  - intros s.
    wp_start (Safari11.stopReceiving engine id).
    unfold Safari11.stopReceiving. wp_run_all.
    all: wp_start (Safari11.receive engine id kind rtpParameters);
      unfold Safari11.receive, Safari11._setupTransport,
        Safari11.localDescription_sdp;
      wp_run_all; reuse_leaf.
  - intros s Hhas.
    wp_start (Firefox60.stopReceiving engine id).
    unfold Firefox60.stopReceiving. wp_run_all.
    all: try (apply map_get_has in Hhas; destruct Hhas; congruence).
    all: unfold Firefox60.receive, mbind, M_bind, bind, this; cbn;
      by rewrite map_has_replace, Hhas.
Qed.

(** On the obliging engine: [a] is received, stopped and received again on
    Safari11, and the map ends with one entry for [a]. *)
Lemma stop_then_receive_witness :
  let s := Safari11.new_RecvHandler Engines.safari_data in
  let '(_, s0, e0) :=
    Safari11.receive Engines.obliging "a" "audio" Engines.some_rtpParameters s [] in
  let '(r1, s1, e1) := Safari11.stopReceiving Engines.obliging "a" s0 e0 in
  let '(r2, s2, _) :=
    Safari11.receive Engines.obliging "a" "audio" Engines.some_rtpParameters
      s1 (e0 ++ e1) in
  r1 = Normal ()
  ∧ r2 = Normal (Some {| track_id := "audio-a"; track_kind := "audio" |})
  ∧ Js.map_count "a" (Safari11._receiverInfos s2) = 1%nat.
Proof.
  cbv zeta.
  destruct (Safari11.receive Engines.obliging "a" "audio" Engines.some_rtpParameters
              (Safari11.new_RecvHandler Engines.safari_data) [])
    as [[r0 s0] e0] eqn:E0.
  pose proof (proj1 (stop_then_receive Engines.obliging "a" "audio"
                       Engines.some_rtpParameters e0) s0) as H.
  destruct (Safari11.stopReceiving Engines.obliging "a" s0 e0)
    as [[r1 s1] e1] eqn:E1.
  destruct (Safari11.receive Engines.obliging "a" "audio" _ s1 (e0 ++ e1))
    as [[r2 s2] e2] eqn:E2.
  vm_compute in E0. injection E0 as <- <- <-.
  vm_compute in E1. injection E1 as <- <- <-.
  assert (r2 = Normal (Some {| track_id := "audio-a"; track_kind := "audio" |}))
    as Hr2.
  { vm_compute in E2. by injection E2 as <- _ _. }
  split; [done|]. split; [done|]. by eapply (proj2 H).
Defined.

(** On the obliging engine and a Firefox60 handler: [a] is received and
    stopped, both successfully, and receiving [a] again raises the duplicate
    error. *)
Lemma closed_entry_blocks_reuse :
  let s := Firefox60.new_RecvHandler Engines.firefox_data in
  let '(r0, s0, e0) :=
    Firefox60.receive Engines.obliging "a" "audio" Engines.some_rtpParameters s [] in
  let '(r1, s1, e1) := Firefox60.stopReceiving Engines.obliging "a" s0 e0 in
  let '(r2, _, _) :=
    Firefox60.receive Engines.obliging "a" "audio" Engines.some_rtpParameters
      s1 (e0 ++ e1) in
  r0 = Normal (Some {| track_id := "audio-a"; track_kind := "audio" |})
  ∧ r1 = Normal ()
  ∧ r2 = Throw (DuplicatedError "already receiving this source").
Proof. cbv zeta. vm_compute. by repeat split. Qed.

(** ** Stopping a session *)

Lemma map_get_replace {V} k (v v0 : V) (m : list (string * V)) :
  Js.map_get k m = Some v0 → Js.map_get k (Js.map_replace k v m) = Some v.
Proof.
  induction m as [|[k' v'] m IH]; [done|]. simpl.
  destruct (decide (k' = k)) as [->|Hne]; simpl.
  - by rewrite decide_True.
  - rewrite decide_False by done. apply IH.
Qed.

Ltac stop_leaf :=
  clear_replies;
  cbn in *;
  repeat split;
  first
    [ done
    | by apply negb_true_iff
    | by apply map_has_delete
    | by apply has_delete
    | by rewrite map_has_replace
    | intros _; by apply has_delete
    | intros H; by destruct H
    | intros H; exfalso; apply H; by repeat constructor
    | intros ? _ H; erewrite map_get_replace in H by done; by simplify_eq ].

(** C4, as the handlers implement it: the session entry is removed (or
    closed) when the stop is requested, not when the round has succeeded.
    Safari11 [stopReceiving] always ends without an entry for the id;
    Safari11 [stopSending] has removed the track from the local stream as
    soon as the round has started, whatever its outcome; Firefox60
    [stopReceiving] never removes the entry and marks it closed before the
    round; Firefox60 [stopSending] has removed the track when it returns
    normally, and has not removed it as long as [setRemoteDescription] has
    not been issued. *)
Theorem stop_removes_at_request (engine : Engine) (h : list Event) :
  (∀ id (s : Safari11.RecvHandler),
     let '(_, s', _) := Safari11.stopReceiving engine id s h in
     Js.map_has id (Safari11._receiverInfos s') = false)
  ∧ (∀ track (s : Safari11.SendHandler),
       let '(_, s', evs) := Safari11.stopSending engine track s h in
       steps evs ≠ [] → Js.has track (Safari11._stream s') = false)
  ∧ (∀ id (s : Firefox60.RecvHandler),
       let '(_, s', evs) := Firefox60.stopReceiving engine id s h in
       Js.map_has id (Firefox60._receiverInfos s')
       = Js.map_has id (Firefox60._receiverInfos s)
       ∧ ∀ info, evs ≠ [] →
                 Js.map_get id (Firefox60._receiverInfos s') = Some info →
                 up_closed info = true)
  ∧ (∀ track (s : Firefox60.SendHandler),
       let '(r, s', evs) := Firefox60.stopSending engine track s h in
       (r = Normal () → Js.has track (Firefox60._tracks s') = false)
       ∧ (SetRemoteDescription ∉ steps evs →
          Firefox60._tracks s' = Firefox60._tracks s)).
Proof.
  repeat apply conj.
  - intros id s.
    wp_start (Safari11.stopReceiving engine id).
    unfold Safari11.stopReceiving. wp_run_all; stop_leaf.
  - intros track s.
    wp_start (Safari11.stopSending engine track).
    unfold Safari11.stopSending, Safari11.localDescription_sdp.
    wp_run_all; stop_leaf.
  - intros id s.
    wp_start (Firefox60.stopReceiving engine id).
    unfold Firefox60.stopReceiving. wp_run_all; stop_leaf.
  - intros track s.
    wp_start (Firefox60.stopSending engine track).
    unfold Firefox60.stopSending, Firefox60.localDescription_sdp.
    wp_run_all; stop_leaf.
Qed.

(** On a Safari11 handler that receives [a], [stopReceiving] whose
    [setRemoteDescription] is rejected: the call fails and the entry is
    gone. *)
Lemma failed_stop_loses_entry :
  let engine := Engines.flaky 5 Engines.rejects_setRemoteDescription in
  let s := Safari11.new_RecvHandler Engines.safari_data in
  let '(r0, s0, e0) :=
    Safari11.receive engine "a" "audio" Engines.some_rtpParameters s [] in
  let '(r1, s1, _) := Safari11.stopReceiving engine "a" s0 e0 in
  r0 = Normal (Some {| track_id := "audio-a"; track_kind := "audio" |})
  ∧ Js.map_has "a" (Safari11._receiverInfos s0) = true
  ∧ r1 = Throw (External "rejected")
  ∧ Js.map_has "a" (Safari11._receiverInfos s1) = false.
Proof. cbv zeta. vm_compute. by repeat split. Qed.

(** On the obliging engine: the camera is sent and stopped on a Firefox60
    handler; the stop returns normally and the track is no longer tracked. *)
Lemma stop_removes_at_request_witness :
  let s := Firefox60.new_SendHandler Engines.firefox_data in
  let '(_, s0, e0) := Firefox60.send Engines.obliging Engines.camera None s [] in
  let '(r1, s1, _) := Firefox60.stopSending Engines.obliging Engines.camera s0 e0 in
  Js.has Engines.camera (Firefox60._tracks s0) = true
  ∧ r1 = Normal ()
  ∧ Js.has Engines.camera (Firefox60._tracks s1) = false.
Proof.
  cbv zeta.
  destruct (Firefox60.send Engines.obliging Engines.camera None
              (Firefox60.new_SendHandler Engines.firefox_data) [])
    as [[r0 s0] e0] eqn:E0.
  pose proof (proj2 (proj2 (proj2 (stop_removes_at_request Engines.obliging e0)))
                Engines.camera s0) as H.
  destruct (Firefox60.stopSending Engines.obliging Engines.camera s0 e0)
    as [[r1 s1] e1] eqn:E1.
  vm_compute in E0. injection E0 as <- <- <-.
  assert (r1 = Normal ()) as Hr1.
  { vm_compute in E1. by injection E1 as <- _ _. }
  split; [done|]. split; [done|]. by apply (proj1 H).
Defined.

(** ** The ['@connect'] notification *)

(** C3, on the Safari11 receive handler: two sources are received one after
    the other, both calls return normally, the transport is ready after the
    first one, and the second one emits ['@connect'] again. *)
Theorem safari_receive_connects_again :
  let s := Safari11.new_RecvHandler Engines.safari_data in
  let '(r1, s1, e1) :=
    Safari11.receive Engines.obliging "a" "audio" Engines.some_rtpParameters s [] in
  let '(r2, s2, e2) :=
    Safari11.receive Engines.obliging "b" "audio" Engines.some_rtpParameters s1 e1 in
  r1 = Normal (Some {| track_id := "audio-a"; track_kind := "audio" |})
  ∧ r2 = Normal (Some {| track_id := "audio-b"; track_kind := "audio" |})
  ∧ Safari11._transportReady (super s1) = true
  ∧ connect_count e1 = 1%nat
  ∧ connect_count e2 = 1%nat
  ∧ connect_count (e1 ++ e2) = 2%nat.
Proof. cbv zeta. vm_compute. by repeat split. Qed.

(** The same calls on the Firefox60 receive handler emit ['@connect'] once. *)
Lemma firefox_receive_connects_once :
  let s := Firefox60.new_RecvHandler Engines.firefox_data in
  let '(r1, s1, e1) :=
    Firefox60.receive Engines.obliging "a" "audio" Engines.some_rtpParameters s [] in
  let '(r2, s2, e2) :=
    Firefox60.receive Engines.obliging "b" "audio" Engines.some_rtpParameters s1 e1 in
  r1 = Normal (Some {| track_id := "audio-a"; track_kind := "audio" |})
  ∧ r2 = Normal (Some {| track_id := "audio-b"; track_kind := "audio" |})
  ∧ connect_count (e1 ++ e2) = 1%nat.
Proof. cbv zeta. vm_compute. by repeat split. Qed.

(** *** The handlers that test [_transportReady] *)

Lemma connected_count_app evs1 evs2 :
  connected_count (evs1 ++ evs2) = (connected_count evs1 + connected_count evs2)%nat.
Proof. induction evs1 as [|ev evs1 IH]; simpl; [done|]. rewrite IH. lia. Qed.

Ltac connect_leaf :=
  clear_replies;
  unfold connects_once;
  cbn in *;
  repeat match goal with
         | H : negb ?b = _ |- _ => destruct b eqn:?; simplify_eq/=
         end;
  repeat match goal with
         | |- context [if ?b then _ else _] => destruct b eqn:?; simplify_eq/=
         end;
  (split; first [done | lia]).

Lemma firefox_send_connects_once (engine : Engine) op (s : Firefox60.SendHandler) h :
  let '(_, s', evs) := Firefox60.exec_send engine op s h in
  connects_once (Firefox60._transportReady (super s))
                (Firefox60._transportReady (super s')) evs.
Proof.
  wp_start (Firefox60.exec_send engine op).
  destruct op; unfold Firefox60.exec_send; run_operation; connect_leaf.
Qed.

Lemma firefox_recv_connects_once (engine : Engine) op (s : Firefox60.RecvHandler) h :
  let '(_, s', evs) := Firefox60.exec_recv engine op s h in
  connects_once (Firefox60._transportReady (super s))
                (Firefox60._transportReady (super s')) evs.
Proof.
  wp_start (Firefox60.exec_recv engine op).
  destruct op; unfold Firefox60.exec_recv; run_operation; connect_leaf.
Qed.

Lemma safari_send_connects_once (engine : Engine) op (s : Safari11.SendHandler) h :
  let '(_, s', evs) := Safari11.exec_send engine op s h in
  connects_once (Safari11._transportReady (super s))
                (Safari11._transportReady (super s')) evs.
Proof.
  wp_start (Safari11.exec_send engine op).
  destruct op; unfold Safari11.exec_send; run_operation; connect_leaf.
Qed.

Section Once.
Context {S Op : Type} (exec : Op → M S unit) (ready : S → bool).
Hypothesis exec_once :
  ∀ op s h, let '(_, s', evs) := exec op s h in connects_once (ready s) (ready s') evs.

Lemma run_connects_once ops s h :
  let '(s', evs) := run exec ops s h in connects_once (ready s) (ready s') evs.
Proof.
  revert s h. induction ops as [|op ops IH]; intros s h; simpl.
  - unfold connects_once. destruct (ready s); simpl; split; first [done | lia].
  - pose proof (exec_once op s h) as Hop.
    destruct (exec op s h) as [[r s1] e1].
    specialize (IH s1 (h ++ e1)).
    destruct (run exec ops s1 (h ++ e1)) as [s2 e2].
    unfold connects_once in *. rewrite connected_count_app.
    destruct (ready s), (ready s1), (ready s2);
      destruct Hop as [H1 H2], IH as [H3 H4];
      try discriminate; split; try done; try lia.
    all: intros Hc; try (apply H4; lia).
    all: destruct (decide (connected_count e1 = 1%nat)) as [Heq|Hne];
      [by apply H2 | apply H4; lia].
Qed.

End Once.


(** ** Propagation of failures *)

Lemma findInactive_throws kind ts e :
  Firefox60.findInactive kind ts = Throw e →
  e = TypeError "t.receiver.track is null".
Proof.
  induction ts as [|t ts IH]; simpl; [done|].
  destruct (receiver_track (receiver t)); [|congruence].
  by destruct (_ && _).
Qed.

Ltac failure_leaf :=
  clear_replies;
  cbn in *;
  repeat match goal with
         | u : unit |- _ => destruct u
         | H : Firefox60.findInactive _ _ = Throw _ |- _ =>
             apply findInactive_throws in H; subst
         end;
  (split; [intros ? ? | intros ? ?]; simplify_eq);
  first
    [ done
    | by eexists
    | left; by eexists ].

(** C9, as the handlers implement it: for every public operation other than
    [close], an operation that observes a failure of the engine throws, and
    the error of the engine it throws is the first failure it observed; the
    one exception is Safari11 [stopSending], which returns normally when
    [setLocalDescription] fails and the local stream has no track left.  A
    promise that is not awaited is not observed, and the registry is not
    always rolled back (see C1 and C4). *)
Theorem observed_failures_are_thrown (engine : Engine) (h : list Event) :
  (∀ op (s : Firefox60.SendHandler),
     op ≠ Firefox60.Close →
     let '(r, _, evs) := Firefox60.exec_send engine op s h in
     raises_failures r evs)
  ∧ (∀ op (s : Firefox60.RecvHandler),
       op ≠ Firefox60.RClose →
       let '(r, _, evs) := Firefox60.exec_recv engine op s h in
       raises_failures r evs)
  ∧ (∀ op (s : Safari11.RecvHandler),
       op ≠ Safari11.RClose →
       let '(r, _, evs) := Safari11.exec_recv engine op s h in
       raises_failures r evs)
  ∧ (∀ op (s : Safari11.SendHandler),
       op ≠ Safari11.Close →
       let '(r, s', evs) := Safari11.exec_send engine op s h in
       raises_failures r evs
       ∨ ((∃ track, op = Safari11.StopSending track)
          ∧ r = Normal ()
          ∧ Safari11._stream s' = []
          ∧ ∃ d reason,
              last evs
              = Some (Performed (pc_setLocalDescription d) (throws reason) true))).
Proof.
  repeat apply conj; intros op s Hop.
  - wp_start (Firefox60.exec_send engine op).
    destruct op; [done|..]; unfold Firefox60.exec_send;
      run_operation; unfold raises_failures; failure_leaf.
  - wp_start (Firefox60.exec_recv engine op).
    destruct op; [done|..]; unfold Firefox60.exec_recv;
      run_operation; unfold raises_failures; failure_leaf.
  - wp_start (Safari11.exec_recv engine op).
    destruct op; [done|..]; unfold Safari11.exec_recv;
      run_operation; unfold raises_failures; failure_leaf.
  - wp_start (Safari11.exec_send engine op).
    destruct op; [done|..]; unfold Safari11.exec_send;
      run_operation; unfold raises_failures;
      try (left; failure_leaf).
    clear_replies. right. cbn in *.
    match goal with
    | H : bool_decide _ = true |- _ =>
        apply bool_decide_eq_true, nil_length_inv in H
    end.
    split; [by eexists|]. split; [done|]. split; [done|]. by do 2 eexists.
Qed.

(** On a Safari11 handler that sends the camera only, [stopSending] on an
    engine that rejects [setLocalDescription]: the failure is observed and
    the call returns normally. *)
Lemma stopSending_swallows_failure :
  let engine := Engines.flaky 5 Engines.rejects_setLocalDescription in
  let s := Safari11.new_SendHandler Engines.safari_data in
  let '(r0, s0, e0) := Safari11.send engine Engines.camera None s [] in
  let '(r1, _, e1) := Safari11.stopSending engine Engines.camera s0 e0 in
  r0 = Normal Engines.some_rtpParameters
  ∧ first_failure e1 = Some "rejected"
  ∧ r1 = Normal ().
Proof. cbv zeta. vm_compute. by repeat split. Qed.

(** On a Firefox60 handler whose engine rejects [createAnswer], [receive]
    observes the failure and throws it. *)
Lemma observed_failures_are_thrown_witness :
  let '(r, _, evs) :=
    Firefox60.exec_recv
      (Engines.scripted (Engines.script Engines.rejects_createAnswer))
      (Firefox60.Receive "a" "audio" Engines.some_rtpParameters)
      (Firefox60.new_RecvHandler Engines.firefox_data) [] in
  first_failure evs = Some "rejected" ∧ r = Throw (External "rejected").
Proof.
  pose proof (proj1 (proj2
    (observed_failures_are_thrown
       (Engines.scripted (Engines.script Engines.rejects_createAnswer)) []))
    (Firefox60.Receive "a" "audio" Engines.some_rtpParameters)
    (Firefox60.new_RecvHandler Engines.firefox_data)) as H.
  destruct (Firefox60.exec_recv _ _ _ _) as [[r s'] evs] eqn:E.
  assert (first_failure evs = Some "rejected") as Hf.
  { vm_compute in E. by injection E as _ _ <-. }
  split; [done|].
  destruct (H ltac:(done)) as [H1 H2].
  destruct (H1 _ Hf) as [e ->].
  assert (e = External "rejected") as ->; [|done].
  vm_compute in E. by injection E as <- _ _.
Defined.

(** ** Simulcast rid values *)

Lemma simulcast_rid_shape sc n x :
  x ∈ rid <$> Firefox60.simulcastEncodings sc n →
  x ∈ ["low" +:+ pretty n; "medium" +:+ pretty n; "high" +:+ pretty n].
Proof.
  unfold Firefox60.simulcastEncodings.
  destruct (Js.truthy (low sc)), (Js.truthy (medium sc)), (Js.truthy (high sc));
    cbn; intros Hx;
    repeat (apply elem_of_cons in Hx as [->|Hx]);
    try (by apply elem_of_nil in Hx);
    by repeat constructor.
Qed.

Lemma simulcast_rids_apart sc sc' n m x :
  n ≠ m →
  x ∈ rid <$> Firefox60.simulcastEncodings sc n →
  x ∉ rid <$> Firefox60.simulcastEncodings sc' m.
Proof.
  intros Hnm Hx Hx'.
  apply simulcast_rid_shape in Hx. apply simulcast_rid_shape in Hx'.
  apply Hnm.
  repeat (apply elem_of_cons in Hx as [->|Hx]);
    [| | |by apply elem_of_nil in Hx];
    repeat (apply elem_of_cons in Hx' as [Hx'|Hx']);
    try (by apply elem_of_nil in Hx');
    simpl in Hx'; simplify_eq; by apply (inj pretty).
Qed.

Ltac rid_leaf :=
  clear_replies;
  cbn -[Firefox60.simulcastEncodings] in *;
  rewrite ?app_nil_r;
  first
    [ by split
    | split;
      [ first [ by intros [? ?] | by intros _ ]
      | split; [ first [ by left | by right ] | lia ] ] ].

(** What one [send] does with the rid counter. *)
Lemma send_assigns (engine : Engine) track simulcast (s : Firefox60.SendHandler) h :
  let n := Firefox60._nextRid s in
  let '(r, s', evs) := Firefox60.send engine track simulcast s h in
  match simulcast with
  | Some sc =>
      ((∃ p, r = Normal p) →
         rids_assigned evs = rid <$> Firefox60.simulcastEncodings sc n
         ∧ Firefox60._nextRid s' = n + 1)
      ∧ (rids_assigned evs = []
         ∨ rids_assigned evs = rid <$> Firefox60.simulcastEncodings sc n
           ∧ Firefox60._nextRid s' = n + 1)
      ∧ n ≤ Firefox60._nextRid s'
  | None => rids_assigned evs = [] ∧ Firefox60._nextRid s' = n
  end.
Proof.
  cbv zeta. destruct simulcast as [sc|];
    [wp_start (Firefox60.send engine track (Some sc))
    |wp_start (Firefox60.send engine track None)].
  all: unfold Firefox60.send, Firefox60.send_negotiate, Firefox60.send_undo,
    Firefox60._setupTransport, Firefox60.localDescription_sdp.
  all: wp_run_all; rid_leaf.
Qed.

(** No operation decreases the rid counter. *)
Lemma nextRid_monotone (engine : Engine) op (s : Firefox60.SendHandler) h :
  let '(_, s', _) := Firefox60.exec_send engine op s h in
  Firefox60._nextRid s ≤ Firefox60._nextRid s'.
Proof.
  wp_start (Firefox60.exec_send engine op).
  destruct op; unfold Firefox60.exec_send; run_operation;
    clear_replies; cbn; lia.
Qed.

Lemma nextRid_monotone_run (engine : Engine) ops (s : Firefox60.SendHandler) h :
  let '(s', _) := run (Firefox60.exec_send engine) ops s h in
  Firefox60._nextRid s ≤ Firefox60._nextRid s'.
Proof.
  revert s h. induction ops as [|op ops IH]; intros s h; simpl; [done|].
  pose proof (nextRid_monotone engine op s h) as Hop.
  destruct (Firefox60.exec_send engine op s h) as [[r s1] e1].
  specialize (IH s1 (h ++ e1)).
  destruct (run _ ops s1 (h ++ e1)) as [s2 e2]. lia.
Qed.



(** * Further properties of the handlers *)

(** ** More on the containers *)

Section MoreContainers.
Context {A V : Type} `{EqDecision A}.
Implicit Types (x y : A) (s : list A) (k : string) (m : list (string * V)).

Lemma has_add x s : Js.has x (Js.add x s) = true.
Proof.
  unfold Js.add. destruct (Js.has x s) eqn:Hx; [done|].
  apply bool_decide_eq_true, elem_of_app. right. by left.
Qed.

Lemma has_add_ne x y s : x ≠ y → Js.has y (Js.add x s) = Js.has y s.
Proof.
  intros Hne. unfold Js.add. destruct (Js.has x s); [done|].
  unfold Js.has. apply bool_decide_ext.
  rewrite elem_of_app, list_elem_of_singleton.
  split; [intros [?|?]; [done|congruence]|by left].
Qed.

Lemma has_delete_ne x y s : x ≠ y → Js.has y (Js.delete x s) = Js.has y s.
Proof.
  intros Hne. unfold Js.has, Js.delete. apply bool_decide_ext.
  rewrite list_elem_of_filter.
  split; [by intros [_ ?]|intros ?; split; [|done]].
  simpl. congruence.
Qed.

Lemma add_fresh x s : Js.has x s = false → Js.add x s = s ++ [x].
Proof. intros Hx. unfold Js.add. by rewrite Hx. Qed.

Lemma map_get_none k m : Js.map_has k m = false → Js.map_get k m = None.
Proof.
  intros Hk. destruct (Js.map_get k m) eqn:Hg; [|done].
  rewrite map_has_get in Hk by by eexists. done.
Qed.

Lemma map_get_app k m1 m2 :
  Js.map_get k (m1 ++ m2)
  = match Js.map_get k m1 with Some v => Some v | None => Js.map_get k m2 end.
Proof.
  induction m1 as [|[k' v'] m1 IH]; simpl; [done|].
  by destruct (decide (k' = k)).
Qed.

Lemma map_get_replace_ne k k' (v : V) m :
  k' ≠ k → Js.map_get k' (Js.map_replace k v m) = Js.map_get k' m.
Proof.
  intros Hne. induction m as [|[k0 v0] m IH]; simpl; [done|].
  destruct (decide (k0 = k)) as [->|]; simpl.
  - by rewrite !decide_False by done.
  - destruct (decide (k0 = k')); [done|]. apply IH.
Qed.

Lemma map_get_set_fresh k (v : V) m :
  Js.map_has k m = false → Js.map_get k (Js.map_set k v m) = Some v.
Proof.
  intros Hk. unfold Js.map_set. rewrite Hk, map_get_app, (map_get_none k m Hk).
  simpl. by rewrite decide_True.
Qed.

Lemma map_get_set_ne k k' (v : V) m :
  k' ≠ k → Js.map_get k' (Js.map_set k v m) = Js.map_get k' m.
Proof.
  intros Hne. unfold Js.map_set. destruct (Js.map_has k m).
  - by apply map_get_replace_ne.
  - rewrite map_get_app. destruct (Js.map_get k' m); [done|].
    simpl. by rewrite decide_False.
Qed.

Lemma map_get_delete_ne k k' m :
  k' ≠ k → Js.map_get k' (Js.map_delete k m) = Js.map_get k' m.
Proof.
  intros Hne. unfold Js.map_delete. induction m as [|[k0 v0] m IH]; [done|].
  destruct (decide (k0 = k)) as [->|Hk0].
  - rewrite filter_cons_False by (simpl; intros Hn; by apply Hn).
    simpl. by rewrite decide_False.
  - rewrite filter_cons_True by done. simpl.
    destruct (decide (k0 = k')); [done|]. apply IH.
Qed.

End MoreContainers.

(** ** Operations that are rejected *)

(** X1: [close] never throws: whatever [pc.close] does, the call returns
    normally, the handler is as it was, and [pc.close] is the only call. *)
Theorem close_never_throws (engine : Engine) (h : list Event) :
  (∀ s : Firefox60.SendHandler,
     Firefox60.close engine s h
     = (Normal (), s, [Performed pc_close (engine _ h pc_close) true]))
  ∧ (∀ s : Firefox60.RecvHandler,
       Firefox60.close engine s h
       = (Normal (), s, [Performed pc_close (engine _ h pc_close) true]))
  ∧ (∀ s : Safari11.SendHandler,
       Safari11.close engine s h
       = (Normal (), s, [Performed pc_close (engine _ h pc_close) true]))
  ∧ (∀ s : Safari11.RecvHandler,
       Safari11.close engine s h
       = (Normal (), s, [Performed pc_close (engine _ h pc_close) true])).
Proof.
  repeat split; intros s;
    unfold Firefox60.close, Safari11.close, try_ignore, try_catch, perform, ret;
    by destruct (engine _ h pc_close) as [[]|].
Qed.

Ltac history_norm :=
  repeat match goal with
         | H : context [_ ++ []] |- _ => rewrite app_nil_r in H
         end.

Ltac rejected_leaf :=
  history_norm; same_reply; clear_replies; cbn in *; simplify_eq; try done.

(** X2: an operation on a track that no sender of the peer connection
    carries throws ['local track not found'], leaves the handler as it was
    and calls nothing but [getSenders]. *)
Theorem unknown_track_is_rejected (engine : Engine) track h senders :
  engine _ h pc_getSenders = returns senders →
  findSender track senders = None →
  (∀ s, Firefox60.stopSending engine track s h = track_not_found senders s)
  ∧ (∀ s spatialLayer,
       Firefox60.setMaxSpatialLayer engine track spatialLayer s h
       = track_not_found senders s)
  ∧ (∀ s, Firefox60.getSenderStats engine track s h = track_not_found senders s)
  ∧ (∀ s newTrack,
       Js.has newTrack (Firefox60._tracks s) = false →
       Firefox60.replaceTrack engine track newTrack s h
       = track_not_found senders s)
  ∧ (∀ s, Safari11.stopSending engine track s h = track_not_found senders s)
  ∧ (∀ s, Safari11.getSenderStats engine track s h = track_not_found senders s)
  ∧ (∀ s newTrack,
       Safari11.getTrackById (track_id newTrack) (Safari11._stream s) = None →
       Safari11.replaceTrack engine track newTrack s h
       = track_not_found senders s).
Proof.
  intros Hs Hf. unfold track_not_found. repeat apply conj.
  - intros s. wp_start (Firefox60.stopSending engine track).
    run_operation; rejected_leaf.
  - intros s l. wp_start (Firefox60.setMaxSpatialLayer engine track l).
    run_operation; rejected_leaf.
  - intros s. wp_start (Firefox60.getSenderStats engine track).
    run_operation; rejected_leaf.
  - intros s newTrack Hn. wp_start (Firefox60.replaceTrack engine track newTrack).
    run_operation; rejected_leaf.
  - intros s. wp_start (Safari11.stopSending engine track).
    run_operation; rejected_leaf.
  - intros s. wp_start (Safari11.getSenderStats engine track).
    run_operation; rejected_leaf.
  - intros s newTrack Hn. wp_start (Safari11.replaceTrack engine track newTrack).
    run_operation; rewrite ?Hn in *; rejected_leaf.
Qed.

Lemma unknown_track_is_rejected_witness :
  Firefox60.stopSending Engines.obliging Engines.microphone
    (Firefox60.new_SendHandler Engines.firefox_data) []
  = track_not_found
      (Engines.script_senders (Engines.script Engines.rejects_nothing))
      (Firefox60.new_SendHandler Engines.firefox_data).
Proof.
  apply (unknown_track_is_rejected Engines.obliging Engines.microphone []
           (Engines.script_senders (Engines.script Engines.rejects_nothing)));
    reflexivity.
Defined.

(** X3: [stopReceiving] and [getReceiverStats] on an id that is not
    registered throw without calling the engine and leave the handler as it
    was. *)
Theorem unknown_receiver_is_rejected (engine : Engine) id h :
  (∀ s : Firefox60.RecvHandler,
     Js.map_has id (Firefox60._receiverInfos s) = false →
     Firefox60.stopReceiving engine id s h
     = rejected (JsError "receiver not found") s
     ∧ Firefox60.getReceiverStats engine id s h
       = rejected (JsError "receiver not found") s)
  ∧ (∀ s : Safari11.RecvHandler,
       Js.map_has id (Safari11._receiverInfos s) = false →
       Safari11.stopReceiving engine id s h
       = rejected (JsError "source not found") s
       ∧ Safari11.getReceiverStats engine id s h
         = rejected (JsError "receiver not found") s).
Proof.
  split; intros s Hid; pose proof (map_get_none _ _ Hid) as Hg; split.
  - unfold Firefox60.stopReceiving, mbind, M_bind, bind, this. cbn. by rewrite Hg.
  - unfold Firefox60.getReceiverStats, mbind, M_bind, bind, this. cbn. by rewrite Hg.
  - unfold Safari11.stopReceiving, mbind, M_bind, bind, this. cbn. by rewrite Hid.
  - unfold Safari11.getReceiverStats, mbind, M_bind, bind, this. cbn. by rewrite Hg.
Qed.

Lemma unknown_receiver_is_rejected_witness :
  Safari11.stopReceiving Engines.obliging "a"
    (Safari11.new_RecvHandler Engines.safari_data) []
  = rejected (JsError "source not found")
      (Safari11.new_RecvHandler Engines.safari_data).
Proof.
  apply (proj2 (unknown_receiver_is_rejected Engines.obliging "a" [])
           (Safari11.new_RecvHandler Engines.safari_data)).
  reflexivity.
Defined.

(** X4: starting a session that is already registered is rejected with
    [DuplicatedError] before any call to the engine, and the handler is left
    as it was: [send] and [replaceTrack] for a track that is tracked (on
    Safari11: whose id is the id of a track of the local stream), [receive]
    for an id that is in the receiver-info map. *)
Theorem duplicate_start_is_rejected (engine : Engine) (h : list Event) :
  (∀ track simulcast (s : Firefox60.SendHandler),
     Js.has track (Firefox60._tracks s) = true →
     Firefox60.send engine track simulcast s h
     = rejected (DuplicatedError "track already handled") s)
  ∧ (∀ track newTrack (s : Firefox60.SendHandler),
       Js.has newTrack (Firefox60._tracks s) = true →
       Firefox60.replaceTrack engine track newTrack s h
       = rejected (DuplicatedError "track already handled") s)
  ∧ (∀ id kind rtpParameters (s : Firefox60.RecvHandler),
       Js.map_has id (Firefox60._receiverInfos s) = true →
       Firefox60.receive engine id kind rtpParameters s h
       = rejected (DuplicatedError "already receiving this source") s)
  ∧ (∀ track simulcast (s : Safari11.SendHandler),
       is_Some (Safari11.getTrackById (track_id track) (Safari11._stream s)) →
       Safari11.send engine track simulcast s h
       = rejected (DuplicatedError "track already added") s)
  ∧ (∀ track newTrack (s : Safari11.SendHandler),
       is_Some (Safari11.getTrackById (track_id newTrack) (Safari11._stream s)) →
       Safari11.replaceTrack engine track newTrack s h
       = rejected (DuplicatedError "track already added") s)
  ∧ (∀ id kind rtpParameters (s : Safari11.RecvHandler),
       Js.map_has id (Safari11._receiverInfos s) = true →
       Safari11.receive engine id kind rtpParameters s h
       = rejected (DuplicatedError "already receiving this source") s).
Proof.
  repeat apply conj; intros.
  - unfold Firefox60.send, mbind, M_bind, bind, this. cbn. by rewrite H.
  - unfold Firefox60.replaceTrack, mbind, M_bind, bind, this. cbn. by rewrite H.
  - unfold Firefox60.receive, mbind, M_bind, bind, this. cbn. by rewrite H.
  - unfold Safari11.send, mbind, M_bind, bind, this. cbn.
    by rewrite bool_decide_eq_true_2.
  - unfold Safari11.replaceTrack, mbind, M_bind, bind, this. cbn.
    by rewrite bool_decide_eq_true_2.
  - unfold Safari11.receive, mbind, M_bind, bind, this. cbn. by rewrite H.
Qed.

Lemma duplicate_start_is_rejected_witness :
  let s := Firefox60.set_tracks (Js.add Engines.camera)
             (Firefox60.new_SendHandler Engines.firefox_data) in
  Firefox60.send Engines.obliging Engines.camera None s []
  = rejected (DuplicatedError "track already handled") s.
Proof.
  apply (proj1 (duplicate_start_is_rejected Engines.obliging [])). reflexivity.
Defined.

(** ** What a whole run keeps *)

Section RunForall.
Context {S Op : Type} (exec : Op → M S unit) (P : Event → bool).
Hypothesis exec_forall :
  ∀ op s h, let '(_, _, evs) := exec op s h in forallb P evs = true.

Lemma run_forall ops s h :
  let '(_, evs) := run exec ops s h in forallb P evs = true.
Proof.
  revert s h. induction ops as [|op ops IH]; intros s h; simpl; [done|].
  pose proof (exec_forall op s h) as Hop.
  destruct (exec op s h) as [[r s1] e1].
  specialize (IH s1 (h ++ e1)).
  destruct (run exec ops s1 (h ++ e1)) as [s2 e2].
  rewrite forallb_app. by rewrite Hop, IH.
Qed.

End RunForall.

Ltac calls_leaf := clear_replies; reflexivity.

Lemma firefox_send_calls (engine : Engine) op (s : Firefox60.SendHandler) h :
  let '(_, _, evs) := Firefox60.exec_send engine op s h in
  forallb (λ ev, offerer_call ev && announces "client" ev) evs = true.
Proof.
  wp_start (Firefox60.exec_send engine op).
  destruct op; unfold Firefox60.exec_send; run_operation; calls_leaf.
Qed.

Lemma firefox_recv_calls (engine : Engine) op (s : Firefox60.RecvHandler) h :
  let '(_, _, evs) := Firefox60.exec_recv engine op s h in
  forallb (λ ev, answerer_call ev && announces "client" ev) evs = true.
Proof.
  wp_start (Firefox60.exec_recv engine op).
  destruct op; unfold Firefox60.exec_recv; run_operation; calls_leaf.
Qed.

Lemma safari_send_calls (engine : Engine) op (s : Safari11.SendHandler) h :
  let '(_, _, evs) := Safari11.exec_send engine op s h in
  forallb (λ ev, offerer_call ev && announces "server" ev) evs = true.
Proof.
  wp_start (Safari11.exec_send engine op).
  destruct op; unfold Safari11.exec_send; run_operation; calls_leaf.
Qed.

Lemma safari_recv_calls (engine : Engine) op (s : Safari11.RecvHandler) h :
  let '(_, _, evs) := Safari11.exec_recv engine op s h in
  forallb (λ ev, answerer_call ev && announces "client" ev) evs = true.
Proof.
  wp_start (Safari11.exec_recv engine op).
  destruct op; unfold Safari11.exec_recv; run_operation; calls_leaf.
Qed.

Ltac frame_leaf :=
  let t := fresh "t" in
  let Ht := fresh "Ht" in
  intros t Ht; cbn in Ht;
  repeat (rewrite not_elem_of_cons in Ht; destruct Ht as [? Ht]);
  repeat match goal with
         | |- context [filter (λ kv, kv.1 ≠ ?k) ?m] =>
             change (filter (λ kv, kv.1 ≠ k) m) with (Js.map_delete k m)
         | |- context [filter (λ y, y ≠ ?x) ?l] =>
             change (filter (λ y, y ≠ x) l) with (Js.delete x l)
         end;
  repeat first
    [ rewrite has_add_ne by congruence
    | rewrite has_delete_ne by congruence
    | rewrite map_get_delete_ne by congruence
    | rewrite map_get_set_ne by congruence
    | rewrite map_get_replace_ne by congruence ];
  reflexivity.

Ltac effect_leaf :=
  clear_replies;
  cbn in *;
  repeat match goal with
         | H : negb ?b = _ |- _ => destruct b eqn:?; simplify_eq/=
         end;
  (split;
   [ first [ assumption
           | match goal with |- _ = ?b || _ => destruct b; reflexivity end
           | reflexivity ]
   | split; [first [assumption|reflexivity]
            |split; [first [assumption|reflexivity]|split]] ]);
  [ by eexists | frame_leaf ].

Lemma firefox_send_effect (engine : Engine) op (s : Firefox60.SendHandler) h :
  let '(_, s', evs) := Firefox60.exec_send engine op s h in
  Firefox60._transportReady (super s')
  = Firefox60._transportReady (super s) || delivered evs
  ∧ Firefox60._remoteSdp (super s')
    = firefox_send_ice op (Firefox60._remoteSdp (super s))
  ∧ Firefox60._sendingRtpParametersByKind (super s')
    = Firefox60._sendingRtpParametersByKind (super s)
  ∧ steps evs `prefix_of` firefox_send_round op
  ∧ ∀ t, t ∉ firefox_send_tracks op →
         Js.has t (Firefox60._tracks s') = Js.has t (Firefox60._tracks s).
Proof.
  wp_start (Firefox60.exec_send engine op).
  destruct op; unfold Firefox60.exec_send; run_operation; effect_leaf.
Qed.

Lemma firefox_recv_effect (engine : Engine) op (s : Firefox60.RecvHandler) h :
  let '(_, s', evs) := Firefox60.exec_recv engine op s h in
  Firefox60._transportReady (super s')
  = Firefox60._transportReady (super s) || delivered evs
  ∧ Firefox60._remoteSdp (super s')
    = firefox_recv_ice op (Firefox60._remoteSdp (super s))
  ∧ Firefox60._sendingRtpParametersByKind (super s')
    = Firefox60._sendingRtpParametersByKind (super s)
  ∧ steps evs `prefix_of` firefox_recv_round op
  ∧ ∀ id, firefox_recv_id op ≠ Some id →
          Js.map_get id (Firefox60._receiverInfos s')
          = Js.map_get id (Firefox60._receiverInfos s).
Proof.
  wp_start (Firefox60.exec_recv engine op).
  destruct op; unfold Firefox60.exec_recv; run_operation; effect_leaf.
Qed.

Lemma safari_send_effect (engine : Engine) op (s : Safari11.SendHandler) h :
  let '(_, s', evs) := Safari11.exec_send engine op s h in
  Safari11._transportReady (super s')
  = Safari11._transportReady (super s) || delivered evs
  ∧ Safari11._remoteSdp (super s')
    = safari_send_ice op (Safari11._remoteSdp (super s))
  ∧ (Safari11._sendingRtpParametersByKind (super s'),
     Safari11._receivingRtpParametersByKind (super s'))
    = (Safari11._sendingRtpParametersByKind (super s),
       Safari11._receivingRtpParametersByKind (super s))
  ∧ steps evs `prefix_of` safari_send_round op
  ∧ ∀ t, t ∉ safari_send_tracks op →
         Js.has t (Safari11._stream s') = Js.has t (Safari11._stream s).
Proof.
  wp_start (Safari11.exec_send engine op).
  destruct op; unfold Safari11.exec_send; run_operation; effect_leaf.
Qed.

Lemma safari_recv_effect (engine : Engine) op (s : Safari11.RecvHandler) h :
  let '(_, s', evs) := Safari11.exec_recv engine op s h in
  Safari11._transportReady (super s')
  = Safari11._transportReady (super s) || delivered evs
  ∧ Safari11._remoteSdp (super s')
    = safari_recv_ice op (Safari11._remoteSdp (super s))
  ∧ (Safari11._sendingRtpParametersByKind (super s'),
     Safari11._receivingRtpParametersByKind (super s'))
    = (Safari11._sendingRtpParametersByKind (super s),
       Safari11._receivingRtpParametersByKind (super s))
  ∧ steps evs `prefix_of` safari_recv_round op
  ∧ ∀ id, safari_recv_id op ≠ Some id →
          Js.map_get id (Safari11._receiverInfos s')
          = Js.map_get id (Safari11._receiverInfos s).
Proof.
  wp_start (Safari11.exec_recv engine op).
  destruct op; unfold Safari11.exec_recv; run_operation; effect_leaf.
Qed.

Lemma forallb_and {A} (P Q : A → bool) (l : list A) :
  forallb (λ x, P x && Q x) l = true →
  forallb P l = true ∧ forallb Q l = true.
Proof.
  induction l as [|x l IH]; simpl; [done|].
  intros [[HP HQ]%andb_prop H]%andb_prop.
  destruct (IH H) as [IHP IHQ]. by rewrite HP, HQ, IHP, IHQ.
Qed.

Ltac over_run exec calls engine ops s h :=
  pose proof (run_forall (exec engine) _ (calls engine) ops s h) as H;
  destruct (run _ ops s h) as [s' evs];
  apply forallb_and in H.

(** X5: in any sequence of operations, from any state, a send handler takes
    the offering side and a receive handler the answering side: a send
    handler never creates an answer nor builds a remote offer, and applies
    only answers as remote descriptions; a receive handler never creates an
    offer, never builds a remote answer, never adds or removes a track, and
    applies only offers. *)
Theorem handlers_keep_their_side (engine : Engine) (h : list Event) :
  (∀ ops (s : Firefox60.SendHandler),
     let '(_, evs) := run (Firefox60.exec_send engine) ops s h in
     forallb offerer_call evs = true)
  ∧ (∀ ops (s : Firefox60.RecvHandler),
       let '(_, evs) := run (Firefox60.exec_recv engine) ops s h in
       forallb answerer_call evs = true)
  ∧ (∀ ops (s : Safari11.SendHandler),
       let '(_, evs) := run (Safari11.exec_send engine) ops s h in
       forallb offerer_call evs = true)
  ∧ (∀ ops (s : Safari11.RecvHandler),
       let '(_, evs) := run (Safari11.exec_recv engine) ops s h in
       forallb answerer_call evs = true).
Proof.
  repeat apply conj; intros ops s.
  - over_run Firefox60.exec_send firefox_send_calls engine ops s h. apply H.
  - over_run Firefox60.exec_recv firefox_recv_calls engine ops s h. apply H.
  - over_run Safari11.exec_send safari_send_calls engine ops s h. apply H.
  - over_run Safari11.exec_recv safari_recv_calls engine ops s h. apply H.
Qed.

(** X6: every ['@connect'] a handler emits announces the same DTLS role,
    whatever the engine extracted from the local description: ['client'] on
    the Firefox60 handlers and on the Safari11 receive handler, ['server'] on
    the Safari11 send handler. *)
Theorem dtls_role_is_fixed (engine : Engine) (h : list Event) :
  (∀ ops (s : Firefox60.SendHandler),
     let '(_, evs) := run (Firefox60.exec_send engine) ops s h in
     forallb (announces "client") evs = true)
  ∧ (∀ ops (s : Firefox60.RecvHandler),
       let '(_, evs) := run (Firefox60.exec_recv engine) ops s h in
       forallb (announces "client") evs = true)
  ∧ (∀ ops (s : Safari11.SendHandler),
       let '(_, evs) := run (Safari11.exec_send engine) ops s h in
       forallb (announces "server") evs = true)
  ∧ (∀ ops (s : Safari11.RecvHandler),
       let '(_, evs) := run (Safari11.exec_recv engine) ops s h in
       forallb (announces "client") evs = true).
Proof.
  repeat apply conj; intros ops s.
  - over_run Firefox60.exec_send firefox_send_calls engine ops s h. apply H.
  - over_run Firefox60.exec_recv firefox_recv_calls engine ops s h. apply H.
  - over_run Safari11.exec_send safari_send_calls engine ops s h. apply H.
  - over_run Safari11.exec_recv safari_recv_calls engine ops s h. apply H.
Qed.

Lemma delivered_app evs1 evs2 :
  delivered (evs1 ++ evs2) = delivered evs1 || delivered evs2.
Proof.
  unfold delivered. rewrite connected_count_app.
  destruct (connected_count evs1), (connected_count evs2); simpl;
    repeat case_bool_decide; try done; lia.
Qed.

Section RunReady.
Context {S Op : Type} (exec : Op → M S unit) (ready : S → bool).
Hypothesis exec_ready :
  ∀ op s h, let '(_, s', evs) := exec op s h in
            ready s' = ready s || delivered evs.

Lemma run_ready ops s h :
  let '(s', evs) := run exec ops s h in ready s' = ready s || delivered evs.
Proof.
  revert s h. induction ops as [|op ops IH]; intros s h; simpl.
  - by rewrite orb_false_r.
  - pose proof (exec_ready op s h) as Hop.
    destruct (exec op s h) as [[r s1] e1].
    specialize (IH s1 (h ++ e1)).
    destruct (run exec ops s1 (h ++ e1)) as [s2 e2].
    by rewrite IH, Hop, delivered_app, orb_assoc.
Qed.

End RunReady.

Section RunRel.
Context {S Op : Type} (exec : Op → M S unit) (R : S → S → Prop).
Hypothesis R_refl : ∀ s, R s s.
Hypothesis R_trans : ∀ s1 s2 s3, R s1 s2 → R s2 s3 → R s1 s3.
Hypothesis exec_rel : ∀ op s h, let '(_, s', _) := exec op s h in R s s'.

Lemma run_rel ops s h : let '(s', _) := run exec ops s h in R s s'.
Proof.
  revert s h. induction ops as [|op ops IH]; intros s h; simpl; [done|].
  pose proof (exec_rel op s h) as Hop.
  destruct (exec op s h) as [[r s1] e1].
  specialize (IH s1 (h ++ e1)).
  destruct (run exec ops s1 (h ++ e1)) as [s2 e2].
  by eapply R_trans.
Qed.

End RunRel.

(** X7: on every handler, after any sequence of operations, the transport
    is ready exactly when it was ready before or ['@connect'] has been
    delivered in between; in particular a handler never leaves the ready
    state. *)
Theorem transport_ready_iff_connected (engine : Engine) (h : list Event) :
  (∀ ops (s : Firefox60.SendHandler),
     let '(s', evs) := run (Firefox60.exec_send engine) ops s h in
     Firefox60._transportReady (super s')
     = Firefox60._transportReady (super s) || delivered evs)
  ∧ (∀ ops (s : Firefox60.RecvHandler),
       let '(s', evs) := run (Firefox60.exec_recv engine) ops s h in
       Firefox60._transportReady (super s')
       = Firefox60._transportReady (super s) || delivered evs)
  ∧ (∀ ops (s : Safari11.SendHandler),
       let '(s', evs) := run (Safari11.exec_send engine) ops s h in
       Safari11._transportReady (super s')
       = Safari11._transportReady (super s) || delivered evs)
  ∧ (∀ ops (s : Safari11.RecvHandler),
       let '(s', evs) := run (Safari11.exec_recv engine) ops s h in
       Safari11._transportReady (super s')
       = Safari11._transportReady (super s) || delivered evs).
Proof.
  repeat apply conj; intros ops s.
  - apply (run_ready (Firefox60.exec_send engine)
             (λ s, Firefox60._transportReady (super s))).
    intros op s0 h0. pose proof (firefox_send_effect engine op s0 h0) as H.
    destruct (Firefox60.exec_send engine op s0 h0) as [[r s'] evs]. apply H.
  - apply (run_ready (Firefox60.exec_recv engine)
             (λ s, Firefox60._transportReady (super s))).
    intros op s0 h0. pose proof (firefox_recv_effect engine op s0 h0) as H.
    destruct (Firefox60.exec_recv engine op s0 h0) as [[r s'] evs]. apply H.
  - apply (run_ready (Safari11.exec_send engine)
             (λ s, Safari11._transportReady (super s))).
    intros op s0 h0. pose proof (safari_send_effect engine op s0 h0) as H.
    destruct (Safari11.exec_send engine op s0 h0) as [[r s'] evs]. apply H.
  - apply (run_ready (Safari11.exec_recv engine)
             (λ s, Safari11._transportReady (super s))).
    intros op s0 h0. pose proof (safari_recv_effect engine op s0 h0) as H.
    destruct (Safari11.exec_recv engine op s0 h0) as [[r s'] evs]. apply H.
Qed.

(** X8: the remote SDP builder is touched by [restartIce] only, which hands
    it the new ICE parameters whether or not the renegotiation runs or
    succeeds; no operation changes the RTP parameters the handler was
    constructed with. *)
Theorem remote_sdp_changes_on_restartIce_only (engine : Engine) (h : list Event) :
  (∀ op (s : Firefox60.SendHandler),
     let '(_, s', _) := Firefox60.exec_send engine op s h in
     Firefox60._remoteSdp (super s')
     = firefox_send_ice op (Firefox60._remoteSdp (super s))
     ∧ Firefox60._sendingRtpParametersByKind (super s')
       = Firefox60._sendingRtpParametersByKind (super s))
  ∧ (∀ op (s : Firefox60.RecvHandler),
       let '(_, s', _) := Firefox60.exec_recv engine op s h in
       Firefox60._remoteSdp (super s')
       = firefox_recv_ice op (Firefox60._remoteSdp (super s))
       ∧ Firefox60._sendingRtpParametersByKind (super s')
         = Firefox60._sendingRtpParametersByKind (super s))
  ∧ (∀ op (s : Safari11.SendHandler),
       let '(_, s', _) := Safari11.exec_send engine op s h in
       Safari11._remoteSdp (super s')
       = safari_send_ice op (Safari11._remoteSdp (super s))
       ∧ (Safari11._sendingRtpParametersByKind (super s'),
          Safari11._receivingRtpParametersByKind (super s'))
         = (Safari11._sendingRtpParametersByKind (super s),
            Safari11._receivingRtpParametersByKind (super s)))
  ∧ (∀ op (s : Safari11.RecvHandler),
       let '(_, s', _) := Safari11.exec_recv engine op s h in
       Safari11._remoteSdp (super s')
       = safari_recv_ice op (Safari11._remoteSdp (super s))
       ∧ (Safari11._sendingRtpParametersByKind (super s'),
          Safari11._receivingRtpParametersByKind (super s'))
         = (Safari11._sendingRtpParametersByKind (super s),
            Safari11._receivingRtpParametersByKind (super s))).
Proof.
  repeat apply conj; intros op s.
  - pose proof (firefox_send_effect engine op s h) as H.
    destruct (Firefox60.exec_send engine op s h) as [[r s'] evs].
    split; apply H.
  - pose proof (firefox_recv_effect engine op s h) as H.
    destruct (Firefox60.exec_recv engine op s h) as [[r s'] evs].
    split; apply H.
  - pose proof (safari_send_effect engine op s h) as H.
    destruct (Safari11.exec_send engine op s h) as [[r s'] evs].
    split; apply H.
  - pose proof (safari_recv_effect engine op s h) as H.
    destruct (Safari11.exec_recv engine op s h) as [[r s'] evs].
    split; apply H.
Qed.

(** X9: an operation runs at most one offer/answer round, in a fixed order:
    [createOffer], [setLocalDescription], [setRemoteDescription] for [send],
    [stopSending] and [restartIce] of a send handler; [setRemoteDescription],
    [createAnswer], [setLocalDescription] for [receive], [stopReceiving] and
    [restartIce] of a receive handler; every other operation issues none of
    these calls. *)
Theorem one_round_per_operation (engine : Engine) (h : list Event) :
  (∀ op (s : Firefox60.SendHandler),
     let '(_, _, evs) := Firefox60.exec_send engine op s h in
     steps evs `prefix_of` firefox_send_round op)
  ∧ (∀ op (s : Firefox60.RecvHandler),
       let '(_, _, evs) := Firefox60.exec_recv engine op s h in
       steps evs `prefix_of` firefox_recv_round op)
  ∧ (∀ op (s : Safari11.SendHandler),
       let '(_, _, evs) := Safari11.exec_send engine op s h in
       steps evs `prefix_of` safari_send_round op)
  ∧ (∀ op (s : Safari11.RecvHandler),
       let '(_, _, evs) := Safari11.exec_recv engine op s h in
       steps evs `prefix_of` safari_recv_round op).
Proof.
  repeat apply conj; intros op s.
  - pose proof (firefox_send_effect engine op s h) as H.
    destruct (Firefox60.exec_send engine op s h) as [[r s'] evs]. apply H.
  - pose proof (firefox_recv_effect engine op s h) as H.
    destruct (Firefox60.exec_recv engine op s h) as [[r s'] evs]. apply H.
  - pose proof (safari_send_effect engine op s h) as H.
    destruct (Safari11.exec_send engine op s h) as [[r s'] evs]. apply H.
  - pose proof (safari_recv_effect engine op s h) as H.
    destruct (Safari11.exec_recv engine op s h) as [[r s'] evs]. apply H.
Qed.

(** X10: an operation touches only the session it is called for: whether a
    track other than its arguments is tracked, and the entry of an id other
    than its argument, are as before, whatever the outcome. *)
Theorem operations_touch_their_session_only (engine : Engine) (h : list Event) :
  (∀ op (s : Firefox60.SendHandler) t,
     t ∉ firefox_send_tracks op →
     let '(_, s', _) := Firefox60.exec_send engine op s h in
     Js.has t (Firefox60._tracks s') = Js.has t (Firefox60._tracks s))
  ∧ (∀ op (s : Firefox60.RecvHandler) id,
       firefox_recv_id op ≠ Some id →
       let '(_, s', _) := Firefox60.exec_recv engine op s h in
       Js.map_get id (Firefox60._receiverInfos s')
       = Js.map_get id (Firefox60._receiverInfos s))
  ∧ (∀ op (s : Safari11.SendHandler) t,
       t ∉ safari_send_tracks op →
       let '(_, s', _) := Safari11.exec_send engine op s h in
       Js.has t (Safari11._stream s') = Js.has t (Safari11._stream s))
  ∧ (∀ op (s : Safari11.RecvHandler) id,
       safari_recv_id op ≠ Some id →
       let '(_, s', _) := Safari11.exec_recv engine op s h in
       Js.map_get id (Safari11._receiverInfos s')
       = Js.map_get id (Safari11._receiverInfos s)).
Proof.
  repeat apply conj; intros op s t Ht.
  - pose proof (firefox_send_effect engine op s h) as H.
    destruct (Firefox60.exec_send engine op s h) as [[r s'] evs]. by apply H.
  - pose proof (firefox_recv_effect engine op s h) as H.
    destruct (Firefox60.exec_recv engine op s h) as [[r s'] evs]. by apply H.
  - pose proof (safari_send_effect engine op s h) as H.
    destruct (Safari11.exec_send engine op s h) as [[r s'] evs]. by apply H.
  - pose proof (safari_recv_effect engine op s h) as H.
    destruct (Safari11.exec_recv engine op s h) as [[r s'] evs]. by apply H.
Qed.

(** ** Registered sessions *)

Lemma has_add_mono {A} `{EqDecision A} (x y : A) s :
  Js.has y s = true → Js.has y (Js.add x s) = true.
Proof.
  intros Hy. destruct (decide (x = y)) as [->|Hne].
  - apply has_add.
  - by rewrite has_add_ne.
Qed.

Ltac fold_delete :=
  repeat match goal with
         | |- context [filter (λ kv, kv.1 ≠ ?k) ?m] =>
             change (filter (λ kv, kv.1 ≠ k) m) with (Js.map_delete k m)
         | H : context [filter (λ kv, kv.1 ≠ ?k) ?m] |- _ =>
             change (filter (λ kv, kv.1 ≠ k) m) with (Js.map_delete k m) in H
         | |- context [filter (λ y, y ≠ ?x) ?l] =>
             change (filter (λ y, y ≠ x) l) with (Js.delete x l)
         end.

Ltac persist_leaf :=
  clear_replies;
  cbn in *;
  fold_delete;
  rewrite ?map_delete_set_fresh by done;
  let id0 := fresh "id0" in
  let info := fresh "info" in
  let Hget := fresh "Hget" in
  intros id0 info Hget;
  first
    [ by left
    | match goal with
      | Hfresh : Js.map_has ?k _ = false |- context [Js.map_set ?k _ _] =>
          left; rewrite map_get_set_ne; [done|];
          intros ->; by rewrite (map_get_none _ _ Hfresh) in Hget
      | Hold : Js.map_get ?k _ = Some _ |- context [Js.map_replace ?k _ _] =>
          destruct (decide (id0 = k)) as [->|];
          [ right; simplify_eq; by eapply map_get_replace
          | left; by rewrite map_get_replace_ne ]
      end ].

Lemma firefox_recv_keeps (engine : Engine) op (s : Firefox60.RecvHandler) h :
  let '(_, s', _) := Firefox60.exec_recv engine op s h in
  kept_or_closed (Firefox60._receiverInfos s) (Firefox60._receiverInfos s').
Proof.
  wp_start (Firefox60.exec_recv engine op). unfold kept_or_closed.
  destruct op; unfold Firefox60.exec_recv; run_operation; persist_leaf.
Qed.

(** X11: on the Firefox60 receive handler an id, once registered, stays
    registered for the rest of the handler's life: after any sequence of
    operations its entry is the one that was registered, possibly closed.
    No operation removes an entry, reopens a closed one or rewrites its
    parameters. *)
Theorem firefox_entries_persist (engine : Engine) ops
    (s : Firefox60.RecvHandler) (h : list Event) :
  let '(s', _) := run (Firefox60.exec_recv engine) ops s h in
  kept_or_closed (Firefox60._receiverInfos s) (Firefox60._receiverInfos s').
Proof.
  apply (run_rel (Firefox60.exec_recv engine)
           (λ s s', kept_or_closed (Firefox60._receiverInfos s)
                                   (Firefox60._receiverInfos s'))).
  - intros s0 id info Hget. by left.
  - intros s1 s2 s3 H12 H23 id info Hget.
    destruct (H12 id info Hget) as [H|H]; destruct (H23 _ _ H) as [H'|H'];
      auto.
  - apply firefox_recv_keeps.
Qed.

Ltac cover_leaf :=
  clear_replies;
  cbn in *;
  fold_delete;
  let Hinv := fresh "Hinv" in
  let id0 := fresh "id0" in
  let info := fresh "info" in
  let Hget := fresh "Hget" in
  intros Hinv id0 info Hget;
  first
    [ by apply (Hinv id0 info)
    | match goal with
      | Hg : context [Js.map_delete ?k _] |- _ =>
          destruct (decide (id0 = k)) as [->|];
          [ by rewrite (map_get_none k _ (map_has_delete k _)) in Hg
          | rewrite map_get_delete_ne in Hg by done ]
      | |- _ => idtac
      end;
      match goal with
      | Hfresh : Js.map_has ?k _ = false, Hg : context [Js.map_set ?k _ _] |- _ =>
          destruct (decide (id0 = k)) as [->|];
          [ rewrite map_get_set_fresh in Hg by done; simplify_eq/=;
            apply has_add
          | rewrite map_get_set_ne in Hg by done;
            apply has_add_mono; by apply (Hinv id0 info) ]
      | |- _ => first [ by apply (Hinv id0 info)
                      | apply has_add_mono; by apply (Hinv id0 info) ]
      end ].

Lemma safari_recv_covers (engine : Engine) op (s : Safari11.RecvHandler) h :
  let '(_, s', _) := Safari11.exec_recv engine op s h in
  kinds_cover s → kinds_cover s'.
Proof.
  wp_start (Safari11.exec_recv engine op). unfold kinds_cover.
  destruct op; unfold Safari11.exec_recv; run_operation; cover_leaf.
Qed.

(** X12: on a Safari11 receive handler that starts empty, after any sequence
    of operations the kind of every registered entry is among the seen
    kinds, which is the set handed to the offer builder together with the
    entries. *)
Theorem safari_kinds_cover_entries (engine : Engine) data ops (h : list Event) :
  let '(s', _) :=
    run (Safari11.exec_recv engine) ops (Safari11.new_RecvHandler data) h in
  kinds_cover s'.
Proof.
  pose proof (run_rel (Safari11.exec_recv engine)
                (λ s s', kinds_cover s → kinds_cover s')
                (λ s H, H) (λ s1 s2 s3 H12 H23 H, H23 (H12 H))
                (safari_recv_covers engine) ops
                (Safari11.new_RecvHandler data) h) as H.
  destruct (run _ ops _ h) as [s' evs]. apply H.
  by intros id info Hget.
Qed.

Ltac registers_leaf :=
  clear_replies;
  cbn in *;
  let H := fresh "H" in
  intros [? H]; simplify_eq;
  repeat match goal with
         | H : bool_decide (is_Some _) = false |- _ =>
             apply bool_decide_eq_false in H;
             rewrite <- eq_None_not_Some in H;
             apply getTrackById_fresh in H
         end;
  unfold Js.add, Js.map_set;
  repeat match goal with
         | H : ?b = false |- context [if ?b then _ else _] => rewrite H
         end;
  try match goal with |- ∃ _, _ => do 2 eexists end;
  repeat apply conj; first [ eassumption | reflexivity ].

(** X13: a [send] that returns has appended its track to the tracked
    tracks, and a [receive] that returns has appended one entry under its id
    to the receiver-info map: on Firefox60 with mid [<first letter of
    kind>-<id>], track id [<kind>-<id>], not closed, holding the RTP
    parameters it was given; on Safari11 holding the ssrc, the RTX ssrc and
    the cname read from the RTP parameters.  After a [send], and after a
    Firefox60 [receive], the transport is ready. *)
Theorem successful_start_registers (engine : Engine) (h : list Event) :
  (∀ track simulcast (s : Firefox60.SendHandler),
     let '(r, s', _) := Firefox60.send engine track simulcast s h in
     (∃ rtpParameters, r = Normal rtpParameters) →
     Firefox60._tracks s' = Firefox60._tracks s ++ [track]
     ∧ Firefox60._transportReady (super s') = true)
  ∧ (∀ track simulcast (s : Safari11.SendHandler),
       let '(r, s', _) := Safari11.send engine track simulcast s h in
       (∃ rtpParameters, r = Normal rtpParameters) →
       Safari11._stream s' = Safari11._stream s ++ [track]
       ∧ Safari11._transportReady (super s') = true)
  ∧ (∀ id kind rtpParameters (s : Firefox60.RecvHandler),
       let '(r, s', _) := Firefox60.receive engine id kind rtpParameters s h in
       (∃ track, r = Normal track) →
       Firefox60._receiverInfos s'
       = Firefox60._receiverInfos s
         ++ [(id, {| up_mid := Firefox60.kind0 kind +:+ "-" +:+ id;
                     up_kind := kind;
                     up_closed := false;
                     up_streamId := id;
                     up_trackId := kind +:+ "-" +:+ id;
                     up_rtpParameters := rtpParameters |})]
       ∧ Firefox60._transportReady (super s') = true)
  ∧ (∀ id kind rtpParameters (s : Safari11.RecvHandler),
       let '(r, s', _) := Safari11.receive engine id kind rtpParameters s h in
       (∃ track, r = Normal track) →
       ∃ rtcp encoding,
         rtp_rtcp rtpParameters = Some rtcp
         ∧ rtp_encodings rtpParameters !! 0%nat = Some encoding
         ∧ Safari11._receiverInfos s'
           = Safari11._receiverInfos s
             ++ [(id, {| pb_kind := kind;
                         pb_streamId := id;
                         pb_trackId := kind +:+ "-" +:+ id;
                         pb_ssrc := enc_ssrc encoding;
                         pb_cname := rtcp_cname rtcp;
                         pb_rtxSsrc := Safari11.rtxSsrc encoding |})]
         ∧ Safari11._kinds s' = Js.add kind (Safari11._kinds s)).
Proof.
  repeat apply conj.
  - intros track simulcast s.
    wp_start (Firefox60.send engine track simulcast).
    run_operation; registers_leaf.
  - intros track simulcast s.
    wp_start (Safari11.send engine track simulcast).
    run_operation; registers_leaf.
  - intros id kind rtpParameters s.
    wp_start (Firefox60.receive engine id kind rtpParameters).
    run_operation; registers_leaf.
  - intros id kind rtpParameters s.
    wp_start (Safari11.receive engine id kind rtpParameters).
    run_operation; registers_leaf.
Qed.

Lemma successful_start_registers_witness :
  Firefox60._tracks
    (Firefox60.send Engines.obliging Engines.camera None
       (Firefox60.new_SendHandler Engines.firefox_data) []).1.2
  = [Engines.camera].
Proof.
  pose proof (proj1 (successful_start_registers Engines.obliging [])
                Engines.camera None
                (Firefox60.new_SendHandler Engines.firefox_data)) as H.
  destruct (Firefox60.send _ _ _ _ _) as [[r s'] evs] eqn:E.
  vm_compute in E. simplify_eq. apply H. by eexists.
Defined.

Ltac swap_leaf :=
  clear_replies;
  cbn in *;
  fold_delete;
  first
    [ reflexivity
    | split; [apply has_add | intros ?; rewrite has_add_ne by done; apply has_delete] ].

(** X14: [replaceTrack] that returns has the new track tracked and, unless
    it is the same track, the old one no longer; [replaceTrack] that throws
    leaves the handler as it was. *)
Theorem replaceTrack_swaps (engine : Engine) track newTrack (h : list Event) :
  (∀ s : Firefox60.SendHandler,
     let '(r, s', _) := Firefox60.replaceTrack engine track newTrack s h in
     match r with
     | Normal _ =>
         Js.has newTrack (Firefox60._tracks s') = true
         ∧ (newTrack ≠ track → Js.has track (Firefox60._tracks s') = false)
     | Throw _ => s' = s
     end)
  ∧ (∀ s : Safari11.SendHandler,
       let '(r, s', _) := Safari11.replaceTrack engine track newTrack s h in
       match r with
       | Normal _ =>
           Js.has newTrack (Safari11._stream s') = true
           ∧ (newTrack ≠ track → Js.has track (Safari11._stream s') = false)
       | Throw _ => s' = s
       end).
Proof.
  split; intros s.
  - wp_start (Firefox60.replaceTrack engine track newTrack).
    run_operation; swap_leaf.
  - wp_start (Safari11.replaceTrack engine track newTrack).
    run_operation; swap_leaf.
Qed.

(** X15: the operations that read statistics, [close], [updateIceServers]
    and [setMaxSpatialLayer] leave the handler exactly as it was, whatever
    the engine answers. *)
Theorem reading_leaves_the_handler_unchanged (engine : Engine) (h : list Event) :
  (∀ op (s : Firefox60.SendHandler),
     firefox_send_reads op = true →
     let '(_, s', _) := Firefox60.exec_send engine op s h in s' = s)
  ∧ (∀ op (s : Firefox60.RecvHandler),
       firefox_recv_reads op = true →
       let '(_, s', _) := Firefox60.exec_recv engine op s h in s' = s)
  ∧ (∀ op (s : Safari11.SendHandler),
       safari_send_reads op = true →
       let '(_, s', _) := Safari11.exec_send engine op s h in s' = s)
  ∧ (∀ op (s : Safari11.RecvHandler),
       safari_recv_reads op = true →
       let '(_, s', _) := Safari11.exec_recv engine op s h in s' = s).
Proof.
  repeat apply conj; intros op s Hop.
  - wp_start (Firefox60.exec_send engine op).
    destruct op; try discriminate; unfold Firefox60.exec_send;
      run_operation; reflexivity.
  - wp_start (Firefox60.exec_recv engine op).
    destruct op; try discriminate; unfold Firefox60.exec_recv;
      run_operation; reflexivity.
  - wp_start (Safari11.exec_send engine op).
    destruct op; try discriminate; unfold Safari11.exec_send;
      run_operation; reflexivity.
  - wp_start (Safari11.exec_recv engine op).
    destruct op; try discriminate; unfold Safari11.exec_recv;
      run_operation; reflexivity.
Qed.

Ltac undone_leaf :=
  clear_replies;
  let Hin := fresh "Hin" in
  intros [? ?] Hin; simplify_eq;
  first
    [ by repeat eexists
    | exfalso; cbn in Hin;
      repeat (apply elem_of_cons in Hin as [Hin|Hin]; [discriminate|]);
      by apply elem_of_nil in Hin ].



(** ** Simulcast encodings *)

Lemma set_active_same e : set_active (active e) e = e.
Proof. by destruct e. Qed.

(** X17: the layer selection of [setMaxSpatialLayer] assigns [active] flags
    and nothing else: the encodings keep their number, order, rid, priority
    and bitrate; encodings after the third are untouched; a layer name other
    than ['low'], ['medium'], ['high'] changes nothing. *)
Theorem applySpatialLayer_assigns_flags_only spatialLayer encs :
  Forall2 (λ e e', ∃ b, e' = set_active b e)
          encs (Firefox60.applySpatialLayer spatialLayer encs)
  ∧ drop 3 (Firefox60.applySpatialLayer spatialLayer encs) = drop 3 encs
  ∧ (spatialLayer ∉ ["low"; "medium"; "high"] →
     Firefox60.applySpatialLayer spatialLayer encs = encs).
Proof.
  assert (Hsame : Forall2 (λ e e', ∃ b, e' = set_active b e) encs encs).
  { apply Forall2_same_length_lookup_2; [done|].
    intros i e e' He He'. simplify_eq. exists (active e).
    by rewrite set_active_same. }
  unfold Firefox60.applySpatialLayer.
  repeat apply conj.
  - repeat case_decide; [..|done];
      destruct encs as [|e0 [|e1 [|e2 rest]]]; simpl;
      repeat constructor; eauto;
      apply Forall2_same_length_lookup_2; try done;
      intros i e e' He He'; simplify_eq; exists (active e);
      by rewrite set_active_same.
  - repeat case_decide; [..|done];
      by destruct encs as [|e0 [|e1 [|e2 rest]]].
  - intros Hl. rewrite !not_elem_of_cons in Hl.
    destruct Hl as (? & ? & ? & _). by rewrite !decide_False.
Qed.

(** X18: the encodings [send] builds for simulcast are the requested layers
    whose bitrate is neither missing nor zero, in the order low, medium,
    high, all active. *)
Theorem simulcastEncodings_layers simulcast nextRid :
  maxBitrate <$> Firefox60.simulcastEncodings simulcast nextRid
  = filter (λ b, Js.truthy b = true) [low simulcast; medium simulcast; high simulcast]
  ∧ Forall (λ e, active e = true)
           (Firefox60.simulcastEncodings simulcast nextRid).
Proof.
  unfold Firefox60.simulcastEncodings.
  destruct (Js.truthy (low simulcast)) eqn:Hl,
    (Js.truthy (medium simulcast)) eqn:Hm,
    (Js.truthy (high simulcast)) eqn:Hh;
    (split; [|by repeat constructor]); simpl;
    repeat first
      [ rewrite filter_cons_True by (simpl; congruence)
      | rewrite filter_cons_False by (simpl; congruence) ];
    by rewrite filter_nil.
Qed.

(** ** Acquisition of a transceiver *)

Lemma findInactive_found kind ts t :
  Firefox60.findInactive kind ts = Normal (Some t) →
  t ∈ ts
  ∧ direction t = "inactive"
  ∧ track_kind <$> receiver_track (receiver t) = Some kind.
Proof.
  induction ts as [|t0 ts IH]; simpl; [done|].
  destruct (receiver_track (receiver t0)) as [rt|] eqn:Hrt; [|done].
  destruct (bool_decide (track_kind rt = kind)) eqn:Hk;
    destruct (bool_decide (direction t0 = "inactive")) eqn:Hd; simpl.
  - intros [= <-]. apply bool_decide_eq_true in Hk, Hd.
    split; [by left|]. split; [done|]. rewrite Hrt. simpl. by rewrite Hk.
  - intros H. destruct (IH H) as (? & ? & ?). split; [by right|done].
  - intros H. destruct (IH H) as (? & ? & ?). split; [by right|done].
  - intros H. destruct (IH H) as (? & ? & ?). split; [by right|done].
Qed.

Ltac acquire_leaf :=
  history_norm; same_reply; clear_replies; cbn in *; simplify_eq;
  repeat match goal with
         | H : Firefox60.findInactive _ _ = _ |- _ => rewrite H
         end;
  reflexivity.

(** X19: a Firefox60 [send] for a track that is not tracked acquires
    exactly one transceiver: the first inactive transceiver of the peer
    connection whose receiver track is of the kind of the track, which it
    sets to ['sendonly'], and otherwise a new one it adds for the track; when
    looking for it fails, none.  A reused transceiver is one of the listed
    ones, inactive and of that kind. *)
Theorem send_acquires_one_transceiver (engine : Engine) track simulcast
    (s : Firefox60.SendHandler) (h : list Event) transceivers :
  Js.has track (Firefox60._tracks s) = false →
  engine _ h pc_getTransceivers = returns transceivers →
  (let '(_, _, evs) := Firefox60.send engine track simulcast s h in
   acquisitions evs
   = match Firefox60.findInactive (track_kind track) transceivers with
     | Normal (Some transceiver) => [Reused transceiver]
     | Normal None => [Added track]
     | Throw _ => []
     end)
  ∧ (∀ transceiver,
       Firefox60.findInactive (track_kind track) transceivers
       = Normal (Some transceiver) →
       transceiver ∈ transceivers
       ∧ direction transceiver = "inactive"
       ∧ track_kind <$> receiver_track (receiver transceiver)
         = Some (track_kind track)).
Proof.
  intros Hfresh Hts. split; [|apply findInactive_found].
  wp_start (Firefox60.send engine track simulcast).
  run_operation; acquire_leaf.
Qed.

(** On an engine whose peer connection holds an inactive video transceiver,
    [send] of the camera reuses it. *)
Lemma send_acquires_one_transceiver_witness :
  let '(_, _, evs) :=
    Firefox60.send idle_engine Engines.camera None
      (Firefox60.new_SendHandler Engines.firefox_data) [] in
  acquisitions evs = [Reused idle_video_transceiver].
Proof.
  assert (Js.has Engines.camera
            (Firefox60._tracks (Firefox60.new_SendHandler Engines.firefox_data))
          = false) as Hfresh by reflexivity.
  assert (idle_engine _ [] pc_getTransceivers
          = returns [idle_video_transceiver]) as Hts by reflexivity.
  destruct (send_acquires_one_transceiver idle_engine Engines.camera None
              _ [] _ Hfresh Hts) as [H _].
  destruct (Firefox60.send _ _ _ _ _) as [[r s'] evs].
  rewrite H. reflexivity.
Defined.

(** ** Connection state *)

(** X20: the Firefox60 and Safari11 handlers report the ICE connection
    state in the same way: ['checking'] as ['connecting'], ['completed'] as
    ['connected'], the states ['connected'], ['failed'], ['disconnected'] and
    ['closed'] under their own name, and any other state, ['new'] included,
    not at all. *)
Theorem connection_state_reports (iceConnectionState : string) :
  firefox60_iceconnectionstatechange iceConnectionState
  = safari11_iceconnectionstatechange iceConnectionState
  ∧ (∀ state,
       firefox60_iceconnectionstatechange iceConnectionState = Some state ↔
       (iceConnectionState = "checking" ∧ state = "connecting")
       ∨ (iceConnectionState = "completed" ∧ state = "connected")
       ∨ (iceConnectionState = state
          ∧ state ∈ ["connected"; "failed"; "disconnected"; "closed"])).
Proof.
  split; [done|]. intros state. split.
  - unfold firefox60_iceconnectionstatechange.
    repeat case_decide; intros [= <-]; subst; auto;
      right; right; (split; [done|]); rewrite !elem_of_cons; auto 10.
  - intros [[-> ->]|[[-> ->]|[-> Hin]]]; [done..|].
    rewrite !elem_of_cons in Hin.
    destruct Hin as [->|[->|[->|[->|Hin]]]]; [done..|].
    by apply elem_of_nil in Hin.
Qed.

(** ** The capability probe *)

Ltac probe_run engine m :=
  let r := fresh "r" in
  let evs := fresh "evs" in
  let E := fresh "E" in
  destruct m as [r evs] eqn:E;
  unfold Native.Firefox60.getNativeRtpCapabilities,
    Native.Safari11.getNativeRtpCapabilities, Native.try_ignore,
    Native.try_catch, Native.perform, Native.throw,
    mbind, mret, Native.M_bind, Native.M_ret, Native.bind, Native.ret in E;
  repeat (cbn in E;
          match type of E with
          | context [engine ?A ?h ?c] =>
              lazymatch h with
              | context [engine] => fail
              | _ => destruct (engine A h c) as [?|?]
              end
          end);
  cbn in E; injection E as <- <-; cbn.

(** X21: [getNativeRtpCapabilities] closes the peer connection it creates
    on every path through its [try] block, at most twice, and exactly once
    when it returns; it issues no call on the connection after closing it,
    and what it returns is what [extractRtpCapabilities] returned.  When a
    call before the [try] block fails, which on Firefox60 includes the
    creation of the canvas and of its stream, the function throws and the
    connection is not closed. *)
Theorem probe_closes_its_connection (engine : Native.Engine) (h : list Native.Event) :
  (let '(r, evs) := Native.Firefox60.getNativeRtpCapabilities engine h in
   (if Native.entered evs
    then (1 ≤ Native.closes evs ≤ 2)%nat
    else Native.closes evs = 0%nat ∧ ∃ e, r = Throw e)
   ∧ forallb (λ ev, negb (Native.on_pc ev)) (Native.after_close evs) = true
   ∧ ∀ capabilities,
       r = Normal capabilities →
       Native.closes evs = 1%nat
       ∧ ∃ sdpObj,
           last evs
           = Some (Native.Performed (Native.extractRtpCapabilities sdpObj)
                                    (returns capabilities)))
  ∧ (let '(r, evs) := Native.Safari11.getNativeRtpCapabilities engine h in
     (if Native.created evs
      then (1 ≤ Native.closes evs ≤ 2)%nat
      else Native.closes evs = 0%nat ∧ ∃ e, r = Throw e)
     ∧ forallb (λ ev, negb (Native.on_pc ev)) (Native.after_close evs) = true
     ∧ ∀ capabilities,
         r = Normal capabilities →
         Native.closes evs = 1%nat
         ∧ ∃ sdpObj,
             last evs
             = Some (Native.Performed (Native.extractRtpCapabilities sdpObj)
                                      (returns capabilities))).
Proof.
  split.
  - probe_run engine (Native.Firefox60.getNativeRtpCapabilities engine h);
      (split; [first [lia | by eauto]|]);
      (split; [reflexivity|]);
      intros ? ?; simplify_eq; eauto.
  - probe_run engine (Native.Safari11.getNativeRtpCapabilities engine h);
      (split; [first [lia | by eauto]|]);
      (split; [reflexivity|]);
      intros ? ?; simplify_eq; eauto.
Qed.

(** ** What a start returns *)

Ltac returns_leaf :=
  clear_replies;
  cbn in *;
  let H := fresh "H" in
  intros ? H; simplify_eq;
  repeat match goal with
         | H : List.find _ _ = Some _ |- _ =>
             apply find_some in H as [?%list_elem_of_In ?]
         | H : bool_decide _ = true |- _ => apply bool_decide_eq_true in H
         | H : match ?x with Some _ => _ | None => _ end = true |- _ =>
             destruct x eqn:?; [|discriminate]
         end;
  repeat eexists; eauto.

(** X23: what a start hands back comes from the engine, for the session
    that was asked for: a [send] that returns hands back the RTP parameters
    the SDP utility filled, for this track, from the handler's sending
    parameters of the kind of the track; a Firefox60 [receive] that returns
    hands back the receiver track of a transceiver that [getTransceivers]
    listed under the mid of the new entry; a Safari11 [receive] that returns
    hands back the track of a receiver that [getReceivers] listed, whose id
    is [<kind>-<id>]. *)
Theorem start_returns_the_session (engine : Engine) (h : list Event) :
  (∀ track simulcast (s : Firefox60.SendHandler),
     let '(r, _, evs) := Firefox60.send engine track simulcast s h in
     ∀ rtpParameters,
       r = Normal rtpParameters →
       ∃ sending localSdpObj mid,
         Firefox60._sendingRtpParametersByKind (super s) = Some sending
         ∧ last evs
           = Some (Performed
                     (unifiedPlan_fillRtpParametersForTrack
                        (byKind sending (track_kind track)) localSdpObj track mid)
                     (returns rtpParameters) true))
  ∧ (∀ track simulcast (s : Safari11.SendHandler),
       let '(r, _, evs) := Safari11.send engine track simulcast s h in
       ∀ rtpParameters,
         r = Normal rtpParameters →
         ∃ sending localSdpObj,
           Safari11._sendingRtpParametersByKind (super s) = Some sending
           ∧ last evs
             = Some (Performed
                       (planB_fillRtpParametersForTrack
                          (byKind sending (track_kind track)) localSdpObj track)
                       (returns rtpParameters) true))
  ∧ (∀ id kind rtpParameters (s : Firefox60.RecvHandler),
       let '(r, _, evs) := Firefox60.receive engine id kind rtpParameters s h in
       ∀ track,
         r = Normal track →
         ∃ transceivers transceiver,
           last evs = Some (Performed pc_getTransceivers (returns transceivers) true)
           ∧ transceiver ∈ transceivers
           ∧ mid transceiver = Some (Firefox60.kind0 kind +:+ "-" +:+ id)
           ∧ track = receiver_track (receiver transceiver))
  ∧ (∀ id kind rtpParameters (s : Safari11.RecvHandler),
       let '(r, _, evs) := Safari11.receive engine id kind rtpParameters s h in
       ∀ track,
         r = Normal track →
         ∃ receivers rtpReceiver remoteTrack,
           last evs = Some (Performed pc_getReceivers (returns receivers) true)
           ∧ rtpReceiver ∈ receivers
           ∧ receiver_track rtpReceiver = Some remoteTrack
           ∧ track_id remoteTrack = kind +:+ "-" +:+ id
           ∧ track = Some remoteTrack).
Proof.
  repeat apply conj.
  - intros track simulcast s.
    wp_start (Firefox60.send engine track simulcast).
    run_operation; returns_leaf.
  - intros track simulcast s.
    wp_start (Safari11.send engine track simulcast).
    run_operation; returns_leaf.
  - intros id kind rtpParameters s.
    wp_start (Firefox60.receive engine id kind rtpParameters).
    run_operation; returns_leaf.
  - intros id kind rtpParameters s.
    wp_start (Safari11.receive engine id kind rtpParameters).
    unfold Safari11.findReceiver.
    run_operation; unfold Safari11.findReceiver in *; returns_leaf.
Qed.

(** ** When ['@connect'] is emitted *)

Ltac before_leaf :=
  clear_replies;
  let l := fresh "l" in
  let H := fresh "H" in
  intros l H; cbn in H; by simplify_eq.

(** X24: an operation emits ['@connect'] only once the local description
    is set, and before any remote answer is applied: on a send handler the
    steps of the operation that precede the emission are [createOffer] and
    [setLocalDescription]; on a receive handler they are the whole round,
    [setRemoteDescription], [createAnswer], [setLocalDescription]. *)
Theorem connect_follows_the_local_description (engine : Engine) (h : list Event) :
  (∀ op (s : Firefox60.SendHandler),
     let '(_, _, evs) := Firefox60.exec_send engine op s h in
     ∀ l, steps_before_connect evs = Some l →
          l = [CreateOffer false; SetLocalDescription])
  ∧ (∀ op (s : Firefox60.RecvHandler),
       let '(_, _, evs) := Firefox60.exec_recv engine op s h in
       ∀ l, steps_before_connect evs = Some l → l = answer_round)
  ∧ (∀ op (s : Safari11.SendHandler),
       let '(_, _, evs) := Safari11.exec_send engine op s h in
       ∀ l, steps_before_connect evs = Some l →
            l = [CreateOffer false; SetLocalDescription])
  ∧ (∀ op (s : Safari11.RecvHandler),
       let '(_, _, evs) := Safari11.exec_recv engine op s h in
       ∀ l, steps_before_connect evs = Some l → l = answer_round).
Proof.
  repeat apply conj; intros op s.
  - wp_start (Firefox60.exec_send engine op).
    destruct op; unfold Firefox60.exec_send; run_operation; before_leaf.
  - wp_start (Firefox60.exec_recv engine op).
    destruct op; unfold Firefox60.exec_recv; run_operation; before_leaf.
  - wp_start (Safari11.exec_send engine op).
    destruct op; unfold Safari11.exec_send; run_operation; before_leaf.
  - wp_start (Safari11.exec_recv engine op).
    destruct op; unfold Safari11.exec_recv; run_operation; before_leaf.
Qed.
